(** * Loan-default predictor: feature transformer, inference endpoint, trainer

    A shallow embedding of [src/preprocess.py] ([clean_raw_df]),
    [app.py] ([predict_loan_status]) and [src/train_model.py]
    ([train_and_save]), with the properties of the specification stated
    and settled against it.

    Modelling conventions.
    - A pandas [DataFrame] is a row count and an ordered list of named
      columns; a column ([Series]) is a list of cells.  A column is read
      and assigned by its name, which stands for one column: the frames of
      the program come from a CSV file or from one record, whose column
      names are distinct.
    - A cell is null ([NA]: pandas' [NaN]/[None]), an integer, a float or a
      string.  The dtype of a column is not stored: a column is integer typed
      when all its cells are [Int], and an [Int] cell in a column that also
      holds a float or a null stands for the float of the same value.
    - Floats are exact rationals extended with the two infinities; [NaN] is
      the null cell.  Rounding, overflow of finite values and signed zeros
      are not modelled, nor is the wrap-around of 64-bit integers.  A
      property about a computed amount is therefore stated on whole amounts
      ([whole_amount]), where the arithmetic of the program is exact, or
      for a threshold it leaves unspecified; a property about LoanAmount is
      stated for a float column, the fences of lines 104-105 being
      fractions that pandas 3 refuses to assign to an integer column.
    - Python exceptions are the [Raise] results of an error monad.
    - Python's [str] on floats and pandas' string-to-number parser are
      parameters of the development ([float_repr], [parse_number]). *)

From Stdlib Require Import ZArith QArith Qround List String Ascii Bool Lia Arith.
From Stdlib Require DecimalString.
Import ListNotations.

Local Open Scope string_scope.
Local Open Scope Z_scope.

(* ================================================================== *)
(** ** Exceptions and the error monad *)

Inductive exn : Type :=
| KeyError | TypeError | ValueError | OverflowError | IndexError
| FileNotFoundError | RuntimeError | ParserError | OSError | PicklingError.

Inductive result (A : Type) : Type :=
| Ok (a : A)
| Raise (e : exn).

Arguments Ok {A} a.
Arguments Raise {A} e.

Definition bind {A B : Type} (m : result A) (k : A -> result B) : result B :=
  match m with
  | Ok a => k a
  | Raise e => Raise e
  end.

Notation "x <- m ;; k" := (bind m (fun x => k))
  (at level 61, m at next level, right associativity).

Fixpoint mapM {A B : Type} (f : A -> result B) (l : list A) : result (list B) :=
  match l with
  | [] => Ok []
  | a :: l' => b <- f a ;; bs <- mapM f l' ;; Ok (b :: bs)
  end.

(* ================================================================== *)
(** ** Floats *)

Inductive float : Type :=
| Fin (q : Q)
| PInf
| NInf.

Definition Qzero (q : Q) : bool := Qeq_bool q 0.
Definition Qneg (q : Q) : bool := negb (Qle_bool 0 q).

Definition fopp (x : float) : float :=
  match x with
  | Fin q => Fin (Qred (- q))
  | PInf => NInf
  | NInf => PInf
  end.

(** IEEE addition; [None] is NaN. *)
Definition fadd (x y : float) : option float :=
  match x, y with
  | Fin a, Fin b => Some (Fin (Qred (a + b)))
  | PInf, NInf | NInf, PInf => None
  | PInf, _ | _, PInf => Some PInf
  | NInf, _ | _, NInf => Some NInf
  end.

Definition fsub (x y : float) : option float := fadd x (fopp y).

Definition finf (negative : bool) : float := if negative then NInf else PInf.

Definition fsign (x : float) : bool :=
  match x with
  | Fin q => Qneg q
  | PInf => false
  | NInf => true
  end.

Definition fmul (x y : float) : option float :=
  match x, y with
  | Fin a, Fin b => Some (Fin (Qred (a * b)))
  | Fin a, i | i, Fin a =>
      if Qzero a then None else Some (finf (xorb (Qneg a) (fsign i)))
  | _, _ => Some (finf (xorb (fsign x) (fsign y)))
  end.

Definition fdiv (x y : float) : option float :=
  match x, y with
  | Fin a, Fin b =>
      if Qzero b
      then (if Qzero a then None else Some (finf (Qneg a)))
      else Some (Fin (Qred (a / b)))
  | Fin _, _ => Some (Fin 0)
  | _, Fin b => Some (finf (xorb (fsign x) (Qneg b)))
  | _, _ => None
  end.

Definition fleb (x y : float) : bool :=
  match x, y with
  | NInf, _ => true
  | _, PInf => true
  | Fin a, Fin b => Qle_bool a b
  | _, _ => false
  end.

Definition fltb (x y : float) : bool := negb (fleb y x).
Definition feqb (x y : float) : bool := fleb x y && fleb y x.

(** Python's [int(x)] on a float: truncation toward zero. *)
Definition Qtrunc (q : Q) : Z := Z.quot (Qnum q) (Zpos (Qden q)).

Definition int_of_float (x : float) : result Z :=
  match x with
  | Fin q => Ok (Qtrunc q)
  | _ => Raise OverflowError
  end.

(* ================================================================== *)
(** ** Cells and columns *)

Inductive cell : Type :=
| NA
| Int (z : Z)
| Flt (x : float)
| Str (s : string).

Definition Series : Type := list cell.

Definition isnull (c : cell) : bool :=
  match c with NA => true | _ => false end.

Definition is_str (c : cell) : bool :=
  match c with Str _ => true | _ => false end.

Definition is_int (c : cell) : bool :=
  match c with Int _ => true | _ => false end.

(** A cell that is a number: neither null nor a string. *)
Definition is_number (c : cell) : bool :=
  match c with Int _ | Flt _ => true | _ => false end.

Definition num_of (c : cell) : option float :=
  match c with
  | Int z => Some (Fin (inject_Z z))
  | Flt x => Some x
  | _ => None
  end.

(** A NaN result of float arithmetic is the null cell. *)
Definition of_nan (o : option float) : cell :=
  match o with
  | Some x => Flt x
  | None => NA
  end.

(** [==] on cells: numbers by value, strings by contents; a null equals
    nothing. *)
Definition cell_eqb (a b : cell) : bool :=
  match a, b with
  | Str s, Str t => String.eqb s t
  | _, _ =>
      match num_of a, num_of b with
      | Some x, Some y => feqb x y
      | _, _ => false
      end
  end.

(** The order used to sort values: numbers by value, strings by code
    points, numbers before strings. *)
Definition cell_leb (a b : cell) : bool :=
  match a, b with
  | Str s, Str t => String.leb s t
  | Str _, _ => false
  | _, Str _ => true
  | _, _ =>
      match num_of a, num_of b with
      | Some x, Some y => fleb x y
      | None, _ => true
      | _, None => false
      end
  end.

Section Sorting.
Context {A : Type} (leb : A -> A -> bool).

Fixpoint insert_sorted (x : A) (l : list A) : list A :=
  match l with
  | [] => [x]
  | y :: l' => if leb x y then x :: l else y :: insert_sorted x l'
  end.

Definition sort (l : list A) : list A := fold_right insert_sorted [] l.
End Sorting.

Definition dropna (s : Series) : Series := filter (fun c => negb (isnull c)) s.

(** [s.fillna(v)] *)
Definition fillna (v : cell) (s : Series) : Series :=
  map (fun c => if isnull c then v else c) s.

(** [s.isnull().any()] and [s.isnull().all()] *)
Definition any_null (s : Series) : bool := existsb isnull s.
Definition all_null (s : Series) : bool := forallb isnull s.

(** The non-null values of a numeric column; a string among them is the
    [TypeError] of pandas' numeric reductions. *)
Fixpoint numeric_values (s : Series) : result (list float) :=
  match s with
  | [] => Ok []
  | Str _ :: _ => Raise TypeError
  | c :: s' =>
      vs <- numeric_values s' ;;
      Ok (match num_of c with Some x => x :: vs | None => vs end)
  end.

Definition half (o : option float) : option float :=
  match o with
  | Some x => fdiv x (Fin 2)
  | None => None
  end.

(** [s.median()]: nulls skipped, NaN on an empty column, the mean of the
    two middle values on an even count. *)
Definition median (s : Series) : result cell :=
  vs <- numeric_values s ;;
  let sorted := sort fleb vs in
  let n := List.length sorted in
  match n with
  | O => Ok NA
  | _ =>
      if Nat.odd n
      then Ok (Flt (nth (n / 2) sorted (Fin 0)))
      else Ok (of_nan (half (fadd (nth (n / 2 - 1) sorted (Fin 0))
                                  (nth (n / 2) sorted (Fin 0)))))
  end.

Definition omap2 (f : float -> float -> option float) (a b : option float)
  : option float :=
  match a, b with
  | Some x, Some y => f x y
  | _, _ => None
  end.

(** [s.quantile(q)] with linear interpolation (numpy's [_lerp]): with
    [pos = (n-1)*q], [lo = floor pos], [hi = min (lo+1) (n-1)] and
    [g = pos - lo], the value [a + (b-a)*g], computed from [b] when
    [g >= 1/2]. *)
Definition quantile (q : Q) (s : Series) : result cell :=
  vs <- numeric_values s ;;
  let sorted := sort fleb vs in
  let n := List.length sorted in
  match n with
  | O => Ok NA
  | S m =>
      let pos := (inject_Z (Z.of_nat m) * q)%Q in
      let lo := Z.to_nat (Qfloor pos) in
      let hi := Nat.min (lo + 1) m in
      let g := (pos - inject_Z (Qfloor pos))%Q in
      let a := nth lo sorted (Fin 0) in
      let b := nth hi sorted (Fin 0) in
      let diff := fsub b a in
      Ok (of_nan
            (if Qle_bool (1 # 2) g
             then omap2 fsub (Some b) (omap2 fmul diff (Some (Fin (1 - g))))
             else omap2 fadd (Some a) (omap2 fmul diff (Some (Fin g)))))
  end.

(** First occurrences of the values of a list, up to [cell_eqb]. *)
Fixpoint distinct (l : list cell) : list cell :=
  match l with
  | [] => []
  | c :: l' => c :: filter (fun x => negb (cell_eqb x c)) (distinct l')
  end.

Definition count (c : cell) (l : list cell) : nat :=
  List.length (filter (cell_eqb c) l).

(** [s.mode()]: the most frequent non-null values, sorted. *)
Definition mode (s : Series) : Series :=
  let vs := dropna s in
  let best := fold_right Nat.max O (map (fun c => count c vs) vs) in
  sort cell_leb (filter (fun c => Nat.eqb (count c vs) best) (distinct vs)).

(** [s.mode()[0]]: a [KeyError] on an empty mode. *)
Definition mode0 (s : Series) : result cell :=
  match mode s with
  | m :: _ => Ok m
  | [] => Raise KeyError
  end.

(** [s.replace(a, b)]: whole values equal to [a] become [b]. *)
Definition replace (a b : cell) (s : Series) : Series :=
  map (fun c => if cell_eqb c a then b else c) s.

(** [s.astype(int)]: floats are truncated, a null or an infinity is pandas'
    [IntCastingNaNError] (a [ValueError]).  No string reaches a cast in
    [clean_raw_df]; the model raises on one. *)
Definition astype_int_cell (c : cell) : result cell :=
  match c with
  | Int z => Ok (Int z)
  | Flt (Fin q) => Ok (Int (Qtrunc q))
  | _ => Raise ValueError
  end.

Definition astype_int (s : Series) : result Series := mapM astype_int_cell s.

(** [s.map(table)] for a dict from strings to integers: a value that is
    not a key becomes null. *)
Fixpoint lookup {A : Type} (k : string) (l : list (string * A)) : option A :=
  match l with
  | [] => None
  | (k', v) :: l' => if String.eqb k k' then Some v else lookup k l'
  end.

Definition map_dict (table : list (string * Z)) (s : Series) : Series :=
  map (fun c =>
         match c with
         | Str k => match lookup k table with Some z => Int z | None => NA end
         | _ => NA
         end) s.

(** [a + b], [a / b] on columns, row by row.  On two strings [+] is
    concatenation; any other use of a string is a [TypeError].  Sums and
    quotients are exact: the sum of two integers does not wrap at 2^63 and
    a finite sum or quotient does not overflow to an infinity. *)
Definition cell_add (a b : cell) : result cell :=
  match a, b with
  | Str s, Str t => Ok (Str (s ++ t)%string)
  | Str _, _ | _, Str _ => Raise TypeError
  | _, _ => Ok (of_nan (omap2 fadd (num_of a) (num_of b)))
  end.

Definition cell_div (a b : cell) : result cell :=
  match a, b with
  | Str _, _ | _, Str _ => Raise TypeError
  | _, _ => Ok (of_nan (omap2 fdiv (num_of a) (num_of b)))
  end.

(** [a > b]: false on a null, a [TypeError] between a string and anything
    else. *)
Definition cell_gtb (a b : cell) : result bool :=
  match a, b with
  | Str s, Str t => Ok (negb (String.leb s t))
  | Str _, _ | _, Str _ => Raise TypeError
  | _, _ =>
      Ok (match num_of a, num_of b with
          | Some x, Some y => fltb y x
          | _, _ => false
          end)
  end.

Fixpoint zipM {A B C : Type} (f : A -> B -> result C) (l : list A) (r : list B)
  : result (list C) :=
  match l, r with
  | a :: l', b :: r' => c <- f a b ;; cs <- zipM f l' r' ;; Ok (c :: cs)
  | _, _ => Ok []
  end.

(* ================================================================== *)
(** ** Data frames *)

Record DataFrame : Type := mkFrame {
  nrows : nat;
  columns : list (string * Series)
}.

(** [df.columns] *)
Definition names (d : DataFrame) : list string := map fst (columns d).

(** ['X' in df.columns] *)
Definition has_col (n : string) (d : DataFrame) : bool :=
  existsb (String.eqb n) (names d).

Definition get_col (n : string) (d : DataFrame) : option Series :=
  lookup n (columns d).

(** [df['X']] as an expression *)
Definition getitem (n : string) (d : DataFrame) : result Series :=
  match get_col n d with
  | Some s => Ok s
  | None => Raise KeyError
  end.

Fixpoint set_assoc (n : string) (s : Series) (cols : list (string * Series))
  : list (string * Series) :=
  match cols with
  | [] => [(n, s)]
  | (k, v) :: cols' =>
      if String.eqb n k then (k, s) :: cols' else (k, v) :: set_assoc n s cols'
  end.

(** [df['X'] = s]: the column is replaced where it stands, or appended. *)
Definition set_col (n : string) (s : Series) (d : DataFrame) : DataFrame :=
  mkFrame (nrows d) (set_assoc n s (columns d)).

(** A scalar assigned to a column is repeated on every row. *)
Definition broadcast (d : DataFrame) (c : cell) : Series := repeat c (nrows d).

Definition mem (n : string) (ns : list string) : bool :=
  existsb (String.eqb n) ns.

(** [df.drop(columns=ns, errors='ignore')] *)
Definition drop_cols (ns : list string) (d : DataFrame) : DataFrame :=
  mkFrame (nrows d) (filter (fun kv => negb (mem (fst kv) ns)) (columns d)).

(** [df[ns]]: the columns named in [ns], in the order of [ns]. *)
Definition select_cols (ns : list string) (d : DataFrame) : DataFrame :=
  mkFrame (nrows d)
    (flat_map (fun n => filter (fun kv => String.eqb (fst kv) n) (columns d)) ns).

(** [pd.concat([a, b], axis=1)] on two frames with the same index *)
Definition concat_cols (a b : DataFrame) : DataFrame :=
  mkFrame (nrows a) (columns a ++ columns b).

(** [if 'X' in df.columns: df['X'] = f(df['X'])] *)
Definition on_col (n : string) (f : Series -> result Series) (d : DataFrame)
  : result DataFrame :=
  match get_col n d with
  | Some s => s' <- f s ;; Ok (set_col n s' d)
  | None => Ok d
  end.

(** Decimal notation of an integer (Python's [str] on an [int]). *)
Definition str_of_Z (z : Z) : string :=
  DecimalString.NilZero.string_of_int (Z.to_int z).

(* ================================================================== *)
(** ** The feature transformer: [clean_raw_df] of src/preprocess.py *)

Section Transformer.

(** Python's [str] on a float. *)
Variable float_repr : float -> string.
(** The number [pd.to_numeric] reads in a string; [None] when it reads
    none (or reads NaN), which [errors='coerce'] turns into a null. *)
Variable parse_number : string -> option float.

(** [s.astype(str)] *)
Definition astype_str_cell (c : cell) : cell :=
  match c with
  | NA => Str "nan"
  | Int z => Str (str_of_Z z)
  | Flt x => Str (float_repr x)
  | Str s => Str s
  end.

(** [pd.to_numeric(s, errors='coerce')] *)
Definition to_numeric_cell (c : cell) : cell :=
  match c with
  | Str s => of_nan (parse_number s)
  | _ => c
  end.

(** *** 1) Basic imputations (lines 21-50) *)

Definition fill_median (s : Series) : result Series :=
  m <- median s ;; Ok (fillna m s).

Definition fill_mode (s : Series) : result Series :=
  m <- mode0 s ;; Ok (fillna m s).

Definition fill_credit_history (s : Series) : result Series :=
  match mode s with
  | [] => Ok (fillna (Flt (Fin 1)) s)
  | _ :: _ => m <- mode0 s ;; Ok (fillna m s)
  end.

Definition fill_const (v : cell) (s : Series) : result Series :=
  Ok (fillna v s).

Definition impute (d : DataFrame) : result DataFrame :=
  d <- on_col "LoanAmount" fill_median d ;;
  d <- on_col "ApplicantIncome" (fill_const (Int 0)) d ;;
  d <- on_col "CoapplicantIncome" (fill_const (Int 0)) d ;;
  d <- on_col "Loan_Amount_Term" fill_mode d ;;
  d <- on_col "Credit_History" fill_credit_history d ;;
  d <- on_col "Self_Employed" (fill_const (Str "No")) d ;;
  d <- on_col "Gender" fill_mode d ;;
  d <- on_col "Married" fill_mode d ;;
  on_col "Dependents" fill_mode d.

(** *** 2) Dependents cleanup (lines 55-62) *)

(** Lines 57 and 59: the column as strings, ['3+'] replaced by ['3'],
    read as numbers. *)
Definition coerce_dependents (s : Series) : Series :=
  map to_numeric_cell (replace (Str "3+") (Str "3") (map astype_str_cell s)).

Definition clean_dependents (s : Series) : result Series :=
  let s := coerce_dependents s in
  s <- (if any_null s then fill_mode s else Ok s) ;;
  astype_int s.

Definition dependents_cleanup (d : DataFrame) : result DataFrame :=
  on_col "Dependents" clean_dependents d.

(** *** 3) Engineered numeric features (lines 68-89) *)

Definition incomes_present (d : DataFrame) : bool :=
  has_col "ApplicantIncome" d && has_col "CoapplicantIncome" d.

Definition total_income (d : DataFrame) : result DataFrame :=
  if incomes_present d then
    a <- getitem "ApplicantIncome" d ;;
    c <- getitem "CoapplicantIncome" d ;;
    t <- zipM cell_add a c ;;
    Ok (set_col "TotalIncome" t d)
  else Ok (set_col "TotalIncome" (broadcast d NA) d).

(** Line 76: the value that replaces zeros. *)
Definition loan_median (la : Series) : result cell :=
  if negb (all_null la) then median la else Ok (Flt (Fin 1)).

Definition income_to_loan (d : DataFrame) : result DataFrame :=
  match get_col "LoanAmount" d with
  | Some la =>
      m <- loan_median la ;;
      let la := replace (Int 0) m la in
      let d := set_col "LoanAmount" la d in
      t <- getitem "TotalIncome" d ;;
      r <- zipM cell_div t la ;;
      Ok (set_col "Income_to_Loan_Ratio" r d)
  | None => Ok (set_col "Income_to_Loan_Ratio" (broadcast d NA) d)
  end.

(** [np.where(cond, a, b)] builds a float array. *)
Definition as_float (c : cell) : cell :=
  match num_of c with
  | Some x => Flt x
  | None => c
  end.

Fixpoint np_where (cond : list bool) (a b : Series) : Series :=
  match cond, a, b with
  | k :: cond', x :: a', y :: b' =>
      as_float (if k then x else y) :: np_where cond' a' b'
  | _, _, _ => []
  end.

Definition applicant_to_coapp (d : DataFrame) : result DataFrame :=
  if incomes_present d then
    a <- getitem "ApplicantIncome" d ;;
    c <- getitem "CoapplicantIncome" d ;;
    q <- zipM cell_div a c ;;
    Ok (set_col "Applicant_to_Coapp_Ratio"
          (np_where (map (fun x => cell_eqb x (Int 0)) c) a q) d)
  else Ok d.

Definition engineer (d : DataFrame) : result DataFrame :=
  d <- total_income d ;;
  d <- income_to_loan d ;;
  applicant_to_coapp d.

(** *** 4) Outlier capping (lines 95-107) *)

(** [df.loc[df[col] > bound, col] = v] *)
Definition cap_above (bound v : cell) (s : Series) : result Series :=
  mapM (fun c => b <- cell_gtb c bound ;; Ok (if b then v else c)) s.

(** [df.loc[df[col] < bound, col] = v] *)
Definition cap_below (bound v : cell) (s : Series) : result Series :=
  mapM (fun c => b <- cell_gtb bound c ;; Ok (if b then v else c)) s.

(** [int(cap_val)]: a [ValueError] on NaN, an [OverflowError] on an
    infinity. *)
Definition py_int (c : cell) : result Z :=
  match c with
  | Int z => Ok z
  | Flt x => int_of_float x
  | NA => Raise ValueError
  | Str _ => Raise ValueError
  end.

Definition cap_applicant_income (s : Series) : result Series :=
  cap_val <- quantile (99 # 100) s ;;
  k <- py_int cap_val ;;
  cap_above cap_val (Int k) s.

Definition scalar (f : float -> float -> option float) (a b : cell) : cell :=
  of_nan (omap2 f (num_of a) (num_of b)).

(** Lines 101-107.  The column is a list of cells without a dtype: the
    assignment of a fence is that of pandas on a float column.  On an
    integer column pandas 2 widens the column with a warning and pandas 3
    raises a [TypeError] when the fence assigned is a fraction. *)
Definition cap_loan_amount (s : Series) : result Series :=
  Q1 <- quantile (1 # 4) s ;;
  Q3 <- quantile (3 # 4) s ;;
  let IQR := scalar fsub Q3 Q1 in
  let lower := scalar fsub Q1 (scalar fmul (Flt (Fin (3 # 2))) IQR) in
  let upper := scalar fadd Q3 (scalar fmul (Flt (Fin (3 # 2))) IQR) in
  s <- cap_below lower lower s ;;
  cap_above upper upper s.

Definition cap_outliers (d : DataFrame) : result DataFrame :=
  d <- on_col "ApplicantIncome" cap_applicant_income d ;;
  on_col "LoanAmount" cap_loan_amount d.

(** *** 5) Categorical mappings (lines 113-123) *)

(** [s.map(table).fillna(0).astype(int)] *)
Definition encode (table : list (string * Z)) (s : Series) : result Series :=
  astype_int (fillna (Int 0) (map_dict table s)).

Definition encode_binary (d : DataFrame) : result DataFrame :=
  d <- on_col "Gender" (encode [("Male", 1); ("Female", 0)]) d ;;
  d <- on_col "Married" (encode [("Yes", 1); ("No", 0)]) d ;;
  d <- on_col "Education" (encode [("Graduate", 1); ("Not Graduate", 0)]) d ;;
  on_col "Self_Employed" (encode [("Yes", 1); ("No", 0)]) d.

(** *** 6) One-hot encoding of Property_Area (lines 128-139) *)

(** The name of a category in a dummy column. *)
Definition label (c : cell) : string :=
  match astype_str_cell c with
  | Str s => s
  | _ => ""
  end.

Definition indicator (cat x : cell) : cell :=
  if cell_eqb x cat then Int 1 else Int 0.

(** [pd.get_dummies(s, prefix=p)]: one indicator column per non-null
    value of [s], the values sorted.  The indicators (booleans in pandas)
    are the integers 0 and 1, on which the cast of lines 137-139 is the
    identity. *)
Definition get_dummies (n : nat) (s : Series) (p : string) : DataFrame :=
  mkFrame n
    (map (fun cat => ((p ++ "_" ++ label cat)%string, map (indicator cat) s))
         (sort cell_leb (distinct (dropna s)))).

Definition property_columns : list string :=
  ["Property_Rural"; "Property_Semiurban"; "Property_Urban"].

(** Lines 131-133: [if col not in prop_dummies.columns: prop_dummies[col] = 0] *)
Definition ensure_column (col : string) (p : DataFrame) : DataFrame :=
  if negb (has_col col p) then set_col col (broadcast p (Int 0)) p else p.

(** [df[col] = df[col].astype(int)] *)
Definition cast_int (col : string) (d : DataFrame) : result DataFrame :=
  s <- getitem col d ;;
  s <- astype_int s ;;
  Ok (set_col col s d).

(** Lines 129-135: the frame built by [pd.concat]. *)
Definition attach_dummies (area : Series) (d : DataFrame) : DataFrame :=
  let prop_dummies := get_dummies (nrows d) area "Property" in
  let prop_dummies :=
    fold_left (fun p col => ensure_column col p) property_columns
              prop_dummies in
  concat_cols (drop_cols ["Property_Area"] d)
              (select_cols property_columns prop_dummies).

(** Lines 137-139 *)
Definition cast_dummies (d : DataFrame) : result DataFrame :=
  d <- cast_int "Property_Rural" d ;;
  d <- cast_int "Property_Semiurban" d ;;
  cast_int "Property_Urban" d.

Definition one_hot_property_area (d : DataFrame) : result DataFrame :=
  match get_col "Property_Area" d with
  | Some area => cast_dummies (attach_dummies area d)
  | None => Ok d
  end.

(** *** 7) Target mapping (lines 144-146) *)

Definition map_target (d : DataFrame) : result DataFrame :=
  on_col "Loan_Status" (fun s => Ok (map_dict [("Y", 1); ("N", 0)] s)) d.

(** The transformer, on the copy of its argument. *)
Definition clean_raw_df (df : DataFrame) : result DataFrame :=
  d <- impute df ;;
  d <- dependents_cleanup d ;;
  d <- engineer d ;;
  d <- cap_outliers d ;;
  d <- encode_binary d ;;
  d <- one_hot_property_area d ;;
  map_target d.

End Transformer.

(* ================================================================== *)
(** ** Number syntax used by the examples *)

(** Plain decimal literals: an optional sign, digits, an optional
    fraction.  [pd.to_numeric] reads these as written; the examples use
    no other spelling. *)
Definition digit_of (a : ascii) : option Z :=
  let n := Z.of_nat (nat_of_ascii a) in
  if (48 <=? n) && (n <=? 57) then Some (n - 48) else None.

Fixpoint read_digits (s : string) (acc : Z) (k : nat) : option (Z * nat * string) :=
  match s with
  | String a s' =>
      match digit_of a with
      | Some v => read_digits s' (10 * acc + v) (S k)
      | None => Some (acc, k, s)
      end
  | EmptyString => Some (acc, k, s)
  end.

Definition parse_unsigned (s : string) : option Q :=
  match read_digits s 0 O with
  | Some (i, S _, EmptyString) => Some (inject_Z i)
  | Some (i, S _, String "." r) =>
      match read_digits r 0 O with
      | Some (f, k, EmptyString) =>
          Some (Qred (inject_Z i + inject_Z f / inject_Z (10 ^ Z.of_nat k)))
      | _ => None
      end
  | _ => None
  end.

Definition parse_decimal (s : string) : option float :=
  match s with
  | String "-" r => option_map (fun q => Fin (Qred (- q))) (parse_unsigned r)
  | _ => option_map Fin (parse_unsigned s)
  end.

(** Python prints a float with an integer value as the integer followed
    by [.0], and the infinities as [inf] and [-inf].  Other floats print as
    their shortest decimal, which exact rationals do not determine: they are
    printed here by their integer part and first fractional digits. *)
Fixpoint frac_digits (k : nat) (num den : Z) : string :=
  match k with
  | O => ""
  | S k' =>
      if num =? 0 then ""
      else (str_of_Z ((10 * num / den)%Z) ++ frac_digits k' ((10 * num) mod den)%Z den)%string
  end.

Definition repr_decimal (x : float) : string :=
  match x with
  | PInf => "inf"
  | NInf => "-inf"
  | Fin q =>
      let n := Z.abs (Qnum q) in
      let d := Zpos (Qden q) in
      let f := frac_digits 16 (n mod d) d in
      ((if (Qnum q <? 0)%Z then "-" else "") ++ str_of_Z ((n / d)%Z) ++ "."
       ++ (if String.eqb f "" then "0" else f))%string
  end.

(** The transformer with this number syntax. *)
Definition clean : DataFrame -> result DataFrame :=
  clean_raw_df repr_decimal parse_decimal.

(* ================================================================== *)
(** ** The inference endpoint: app.py *)

(** A Python [float] as a request carries it: a finite number, an
    infinity or NaN (pydantic admits all of them: [allow_inf_nan] is on by
    default). *)
Inductive pyfloat : Type :=
| Number (x : float)
| NaN.

Definition num (q : Q) : pyfloat := Number (Fin q).

(** [LoanApplication] (lines 25-37) *)
Record LoanApplication : Type := mkApplication {
  Loan_ID : string;
  Gender : string;
  Married : string;
  Dependents : option string;
  Education : string;
  Self_Employed : string;
  ApplicantIncome : pyfloat;
  CoapplicantIncome : pyfloat;
  LoanAmount : option pyfloat;
  Loan_Amount_Term : option pyfloat;
  Credit_History : option pyfloat;
  Property_Area : string
}.

(** A float in a frame: NaN is the null cell. *)
Definition float_cell (x : pyfloat) : cell :=
  match x with
  | Number x => Flt x
  | NaN => NA
  end.

Definition optional {A : Type} (f : A -> cell) (o : option A) : cell :=
  match o with
  | Some a => f a
  | None => NA
  end.

(** [pd.DataFrame([application.model_dump()])]: the one-row batch. *)
Definition record_frame (a : LoanApplication) : DataFrame :=
  mkFrame 1
    [("Loan_ID", [Str (Loan_ID a)]);
     ("Gender", [Str (Gender a)]);
     ("Married", [Str (Married a)]);
     ("Dependents", [optional Str (Dependents a)]);
     ("Education", [Str (Education a)]);
     ("Self_Employed", [Str (Self_Employed a)]);
     ("ApplicantIncome", [float_cell (ApplicantIncome a)]);
     ("CoapplicantIncome", [float_cell (CoapplicantIncome a)]);
     ("LoanAmount", [optional float_cell (LoanAmount a)]);
     ("Loan_Amount_Term", [optional float_cell (Loan_Amount_Term a)]);
     ("Credit_History", [optional float_cell (Credit_History a)]);
     ("Property_Area", [Str (Property_Area a)])].

(** The loaded model: an opaque estimator with its two capabilities. *)
Record Classifier : Type := mkClassifier {
  predict : DataFrame -> result (list Z);
  predict_proba : DataFrame -> result (list (list Q))
}.

(** The JSON object the endpoint returns. *)
Record Response : Type := mkResponse {
  prediction : Z;
  probability : Q
}.

(** [l[i]] on a Python sequence *)
Definition subscript {A : Type} (l : list A) (i : nat) : result A :=
  match nth_error l i with
  | Some a => Ok a
  | None => Raise IndexError
  end.

Section Endpoint.

Variable float_repr : float -> string.
Variable parse_number : string -> option float.

(** The globals of lines 14-15.  No line of the endpoint reads
    [feature_cols]: it is no argument of the definitions below. *)
Variable model : Classifier.
Variable feature_cols : list string.

(** Lines 41-43: the batch [X_new] handed to the model. *)
Definition model_input (application : LoanApplication) : result DataFrame :=
  let df := record_frame application in
  df_clean <- clean_raw_df float_repr parse_number df ;;
  Ok (drop_cols ["Loan_ID"; "Loan_Status"] df_clean).

(** Line 47, the local [prediction]: [int(pred_prob >= 0.5)]. *)
Definition threshold (pred_prob : Q) : Z :=
  if Qle_bool (1 # 2) pred_prob then 1 else 0.

Definition predict_loan_status (application : LoanApplication)
  : result Response :=
  X_new <- model_input application ;;
  classes <- predict model X_new ;;
  pred_class <- subscript classes 0 ;;
  probas <- predict_proba model X_new ;;
  row <- subscript probas 0 ;;
  pred_prob <- subscript row 1 ;;
  let thresholded := threshold pred_prob in
  Ok (mkResponse pred_class pred_prob).

End Endpoint.

(** The Schema Reconciler [align] as section 4.2 of the specification words
    it; no function of the repository computes it.  Every canonical column
    absent from the batch is inserted with value 0, every column of the
    batch that is not canonical is dropped, and the columns come in the
    canonical order. *)
Definition align (batch : DataFrame) (canonical : list string) : DataFrame :=
  mkFrame (nrows batch)
    (map (fun n => (n, match get_col n batch with
                       | Some s => s
                       | None => broadcast batch (Int 0)
                       end)) canonical).

(* ================================================================== *)
(** ** The training orchestrator: src/train_model.py *)

Section Trainer.

Variable float_repr : float -> string.
Variable parse_number : string -> option float.

(** The fitted search object and the scikit-learn calls of lines 74-107,
    which the trainer uses as black boxes. *)
Variable Estimator : Type.
Variable train_test_split :
  DataFrame -> Series -> result (DataFrame * DataFrame * Series * Series).
Variable grid_search_fit : DataFrame -> Series -> result Estimator.
Variable proba_of : Estimator -> DataFrame -> result (list Q).
Variable roc_auc_score : Series -> list Q -> result Q.
Variable predict_of : Estimator -> DataFrame -> result (list Z).
Variable classification_report : Series -> list Z -> result unit.

(** What the file system holds under a path; [Truncated] is what a dump
    that fails half way leaves behind. *)
Inductive file : Type :=
| CsvFile (d : DataFrame)
| ModelPkl (m : Estimator)
| FeaturesPkl (cols : list string)
| Truncated.

(** The calls with an effect outside the function, in the order made. *)
Inductive call : Type :=
| ReadCsv (path : string)
| Split
| Fit
| Score
| Makedirs (path : string)
| Dump (path : string).

(** What a [joblib.dump] does: it writes the file, or raises and leaves
    nothing or a truncated file. *)
Inductive outcome : Type :=
| Written
| Failed (e : exn) (partial : bool).

(** The file-system calls of lines 110-112, which fail for reasons outside
    the program (a path without directory part, permissions, a full disk,
    an object that does not pickle): [os_makedirs p] stands for
    [os.makedirs(os.path.dirname(p), exist_ok=True)]. *)
Variable os_makedirs : string -> result unit.
Variable joblib_dump : file -> string -> outcome.

Record world : Type := mkWorld {
  files : list (string * file);
  trace : list call
}.

Definition IO (A : Type) : Type := world -> result A * world.

Definition ret {A : Type} (a : A) : IO A := fun w => (Ok a, w).
Definition throw {A : Type} (e : exn) : IO A := fun w => (Raise e, w).
Definition lift {A : Type} (r : result A) : IO A := fun w => (r, w).

Definition iobind {A B : Type} (m : IO A) (k : A -> IO B) : IO B :=
  fun w =>
    match m w with
    | (Ok a, w') => k a w'
    | (Raise e, w') => (Raise e, w')
    end.

Definition emit (c : call) : IO unit :=
  fun w => (Ok tt, mkWorld (files w) (trace w ++ [c])).

(** [os.path.exists(path)] *)
Definition path_exists (path : string) : IO bool :=
  fun w => (Ok (match lookup path (files w) with Some _ => true | None => false end), w).

(** [pd.read_csv(path)] *)
Definition read_csv (path : string) : IO DataFrame :=
  iobind (emit (ReadCsv path)) (fun _ w =>
    match lookup path (files w) with
    | Some (CsvFile d) => (Ok d, w)
    | Some _ => (Raise ParserError, w)
    | None => (Raise FileNotFoundError, w)
    end).

(** Line 110.  The directories it creates hold no file and are not part of
    [files]. *)
Definition makedirs (path : string) : IO unit :=
  fun w => (os_makedirs path, mkWorld (files w) (trace w ++ [Makedirs path])).

(** [joblib.dump(obj, path)] *)
Definition dump (f : file) (path : string) : IO unit :=
  fun w =>
    let t := (trace w ++ [Dump path])%list in
    match joblib_dump f path with
    | Written => (Ok tt, mkWorld ((path, f) :: files w) t)
    | Failed e true => (Raise e, mkWorld ((path, Truncated) :: files w) t)
    | Failed e false => (Raise e, mkWorld (files w) t)
    end.

(** A column pandas gives the [object] dtype: one that holds a string.  The
    other columns count as numeric at line 66, the dummies of line 63 among
    them (see [get_dummies]). *)
Definition is_object (s : Series) : bool := existsb is_str s.

(** Lines 50-53 *)
Definition target (loan_status : Series) : result Series :=
  if is_object loan_status
     || existsb (fun c => cell_eqb c (Str "Y") || cell_eqb c (Str "N"))
                (dropna loan_status)
  then Ok (map_dict [("Y", 1); ("N", 0)] loan_status)
  else astype_int loan_status.

(** [pd.get_dummies(X, columns=obj_cols, drop_first=False)] *)
Definition get_dummies_columns (obj_cols : list string) (X : DataFrame)
  : DataFrame :=
  concat_cols (drop_cols obj_cols X)
    (mkFrame (nrows X)
       (flat_map (fun n =>
                    match get_col n X with
                    | Some s => columns (get_dummies float_repr (nrows X) s n)
                    | None => []
                    end) obj_cols)).

Definition object_columns (X : DataFrame) : list string :=
  map fst (filter (fun kv => is_object (snd kv)) (columns X)).

(** Lines 47-71: the target, the feature matrix and its column list. *)
Definition prepare (df : DataFrame) : result (DataFrame * Series * list string) :=
  if negb (has_col "Loan_Status" df) then Raise ValueError else
  ls <- getitem "Loan_Status" df ;;
  y <- target ls ;;
  let X := drop_cols ["Loan_ID"; "Loan_Status"] df in
  let obj_cols := object_columns X in
  let X := match obj_cols with
           | [] => X
           | _ => get_dummies_columns obj_cols X
           end in
  match object_columns X with
  | [] => Ok (X, y, names X)
  | _ => Raise RuntimeError
  end.

Notation "x <~ m ;; k" := (iobind m (fun x => k))
  (at level 61, m at next level, right associativity).

Definition train_and_save (raw_csv_path out_model_path out_features_path : string)
  : IO (Estimator * list string * Q) :=
  found <~ path_exists raw_csv_path ;;
  if negb found then throw FileNotFoundError else
  df_raw <~ read_csv raw_csv_path ;;
  df <~ lift (clean_raw_df float_repr parse_number df_raw) ;;
  p <~ lift (prepare df) ;;
  let '(X, y, feature_cols) := p in
  _ <~ emit Split ;;
  parts <~ lift (train_test_split X y) ;;
  let '(X_train, X_test, y_train, y_test) := parts in
  _ <~ emit Fit ;;
  clf <~ lift (grid_search_fit X_train y_train) ;;
  _ <~ emit Score ;;
  probs <~ lift (proba_of clf X_test) ;;
  auc <~ lift (roc_auc_score y_test probs) ;;
  preds <~ lift (predict_of clf X_test) ;;
  _ <~ lift (classification_report y_test preds) ;;
  _ <~ makedirs out_model_path ;;
  _ <~ dump (ModelPkl clf) out_model_path ;;
  _ <~ dump (FeaturesPkl feature_cols) out_features_path ;;
  ret (clf, feature_cols, auc).

End Trainer.

Arguments CsvFile {Estimator} d.
Arguments ModelPkl {Estimator} m.
Arguments FeaturesPkl {Estimator} cols.
Arguments Truncated {Estimator}.
Arguments mkWorld {Estimator} files trace.
Arguments files {Estimator} w.
Arguments trace {Estimator} w.
Arguments train_and_save float_repr parse_number {Estimator}.

(* ================================================================== *)
(** ** The transformer on the Python heap

    [clean_raw_df] receives a reference to a frame that its caller still
    holds.  Frames live in a heap, a list with the address as index;
    allocation appends.  The function copies its argument (line 15) and
    assigns only through its local name [df], which line 135 rebinds to the
    frame built by [pd.concat].  A block that raises leaves the frame it
    works on as the block found it: after the exception no reference to
    that frame is left. *)

Module Heap.
Section Heap.

Variable float_repr : float -> string.
Variable parse_number : string -> option float.

Definition loc : Type := nat.
Definition heap : Type := list DataFrame.
Definition Py (A : Type) : Type := heap -> result A * heap.

Definition ret {A : Type} (a : A) : Py A := fun h => (Ok a, h).

Definition bind {A B : Type} (m : Py A) (k : A -> Py B) : Py B :=
  fun h =>
    match m h with
    | (Ok a, h') => k a h'
    | (Raise e, h') => (Raise e, h')
    end.

Notation "x <~ m ;; k" := (bind m (fun x => k))
  (at level 61, m at next level, right associativity).

Fixpoint list_set {A : Type} (i : nat) (a : A) (l : list A) : list A :=
  match l, i with
  | [], _ => []
  | _ :: l', O => a :: l'
  | x :: l', S i' => x :: list_set i' a l'
  end.

Definition load (l : loc) : Py DataFrame :=
  fun h =>
    match nth_error h l with
    | Some d => (Ok d, h)
    | None => (Raise RuntimeError, h)
    end.

Definition alloc (d : DataFrame) : Py loc :=
  fun h => (Ok (List.length h), (h ++ [d])%list).

Definition store (l : loc) (d : DataFrame) : Py unit :=
  fun h => (Ok tt, list_set l d h).

(** [df.copy()] *)
Definition copy (l : loc) : Py loc :=
  d <~ load l ;; alloc d.

(** A block of assignments into the frame at [l]. *)
Definition in_place (block : DataFrame -> result DataFrame) (l : loc) : Py unit :=
  d <~ load l ;;
  match block d with
  | Ok d' => store l d'
  | Raise e => fun h => (Raise e, h)
  end.

(** Lines 128-139: [df] is rebound when the column is present. *)
Definition one_hot_property_area (df : loc) : Py loc :=
  d <~ load df ;;
  match get_col "Property_Area" d with
  | Some area =>
      df <~ alloc (attach_dummies float_repr area d) ;;
      _ <~ in_place cast_dummies df ;;
      ret df
  | None => ret df
  end.

Definition clean_raw_df (df : loc) : Py loc :=
  df <~ copy df ;;
  _ <~ in_place impute df ;;
  _ <~ in_place (dependents_cleanup float_repr parse_number) df ;;
  _ <~ in_place engineer df ;;
  _ <~ in_place cap_outliers df ;;
  _ <~ in_place encode_binary df ;;
  df <~ one_hot_property_area df ;;
  _ <~ in_place map_target df ;;
  ret df.

End Heap.
End Heap.

(* ================================================================== *)
(** ** Example data *)

(** The end-to-end example of the specification (section 8). *)
Definition sample_application : LoanApplication :=
  mkApplication "LP001002" "Male" "Yes" (Some "3+") "Graduate" "No"
                (num 5000) (num 0) (Some (num 128)) (Some (num 360))
                (Some (num 1)) "Urban".

(** The same application asking for a loan of amount zero. *)
Definition zero_loan_application : LoanApplication :=
  mkApplication "LP001002" "Male" "Yes" (Some "3+") "Graduate" "No"
                (num 5000) (num 0) (Some (num 0)) (Some (num 360))
                (Some (num 1)) "Urban".

(** A batch read from a file whose LoanAmount field is empty on every
    row. *)
Definition empty_loan_batch : DataFrame :=
  mkFrame 2
    [("Loan_ID", [Str "LP001002"; Str "LP001003"]);
     ("ApplicantIncome", [Int 5849; Int 4583]);
     ("CoapplicantIncome", [Flt (Fin 0); Flt (Fin 1508)]);
     ("LoanAmount", [NA; NA])].

(** The same application with the loan term left out. *)
Definition no_term_application : LoanApplication :=
  mkApplication "LP001002" "Male" "Yes" (Some "3+") "Graduate" "No"
                (num 5000) (num 0) (Some (num 128)) None (Some (num 1)) "Urban".

(** A training file with the numeric fields before the categorical ones. *)
Definition reordered_csv : DataFrame :=
  mkFrame 2
    [("Loan_ID", [Str "LP001002"; Str "LP001003"]);
     ("ApplicantIncome", [Int 5849; Int 4583]);
     ("CoapplicantIncome", [Flt (Fin 0); Flt (Fin 1508)]);
     ("LoanAmount", [Flt (Fin 120); Flt (Fin 128)]);
     ("Loan_Amount_Term", [Flt (Fin 360); Flt (Fin 360)]);
     ("Credit_History", [Flt (Fin 1); Flt (Fin 1)]);
     ("Gender", [Str "Male"; Str "Male"]);
     ("Married", [Str "No"; Str "Yes"]);
     ("Dependents", [Str "0"; Str "1"]);
     ("Education", [Str "Graduate"; Str "Graduate"]);
     ("Self_Employed", [Str "No"; Str "No"]);
     ("Property_Area", [Str "Urban"; Str "Rural"]);
     ("Loan_Status", [Str "Y"; Str "N"])].

(** The feature list a training run on [reordered_csv] persists. *)
Definition reordered_features : list string :=
  ["ApplicantIncome"; "CoapplicantIncome"; "LoanAmount"; "Loan_Amount_Term";
   "Credit_History"; "Gender"; "Married"; "Dependents"; "Education";
   "Self_Employed"; "TotalIncome"; "Income_to_Loan_Ratio";
   "Applicant_to_Coapp_Ratio"; "Property_Rural"; "Property_Semiurban";
   "Property_Urban"].

(** The columns the transformer leaves for the sample application, without
    the identifier. *)
Definition sample_features : list string :=
  ["Gender"; "Married"; "Dependents"; "Education"; "Self_Employed";
   "ApplicantIncome"; "CoapplicantIncome"; "LoanAmount"; "Loan_Amount_Term";
   "Credit_History"; "TotalIncome"; "Income_to_Loan_Ratio";
   "Applicant_to_Coapp_Ratio"; "Property_Rural"; "Property_Semiurban";
   "Property_Urban"].

(** A model on its decision boundary: probability one half for each class,
    class 0 predicted (scikit-learn's linear models predict the positive
    class on a strictly positive score only). *)
Definition boundary_model : Classifier :=
  mkClassifier (fun _ => Ok [0]) (fun _ => Ok [[1 # 2; 1 # 2]]).

(** A training file without the label column, and the frame the
    transformer returns on it. *)
Definition unlabelled_csv : DataFrame :=
  mkFrame 1
    [("Loan_ID", [Str "LP001002"]);
     ("Gender", [Str "Male"]);
     ("ApplicantIncome", [Int 5849]);
     ("CoapplicantIncome", [Flt (Fin 0)]);
     ("LoanAmount", [Flt (Fin 120)])].

Definition unlabelled_clean : DataFrame :=
  mkFrame 1
    [("Loan_ID", [Str "LP001002"]);
     ("Gender", [Int 1]);
     ("ApplicantIncome", [Int 5849]);
     ("CoapplicantIncome", [Flt (Fin 0)]);
     ("LoanAmount", [Flt (Fin 120)]);
     ("TotalIncome", [Flt (Fin 5849)]);
     ("Income_to_Loan_Ratio", [Flt (Fin (5849 # 120))]);
     ("Applicant_to_Coapp_Ratio", [Flt (Fin 5849)])].

(** A batch without income and loan columns, and what the transformer
    returns on it. *)
Definition bare_batch : DataFrame :=
  mkFrame 2
    [("Loan_ID", [Str "LP001002"; Str "LP001003"]);
     ("Gender", [Str "Male"; NA])].

Definition bare_output : DataFrame :=
  mkFrame 2
    [("Loan_ID", [Str "LP001002"; Str "LP001003"]);
     ("Gender", [Int 1; Int 1]);
     ("TotalIncome", [NA; NA]);
     ("Income_to_Loan_Ratio", [NA; NA])].



(** A caller holding two frames. *)
Definition caller_heap : Heap.heap :=
  [record_frame no_term_application; record_frame sample_application].

(** Stand-ins for the scikit-learn calls, and a file system with one
    training file. *)
Definition stub_split (X : DataFrame) (y : Series)
  : result (DataFrame * DataFrame * Series * Series) := Ok (X, X, y, y).

Definition stub_fit (X : DataFrame) (y : Series) : result unit := Ok tt.

Definition stub_proba (clf : unit) (X : DataFrame) : result (list Q) := Ok [].

Definition stub_auc (y : Series) (probs : list Q) : result Q := Ok (1 # 2)%Q.

Definition stub_predict (clf : unit) (X : DataFrame) : result (list Z) := Ok [].

Definition stub_report (y : Series) (preds : list Z) : result unit := Ok tt.

Definition stub_makedirs (path : string) : result unit := Ok tt.

Definition stub_dump (f : file unit) (path : string) : outcome := Written.

(** A disk that fills up while the feature list is written. *)
Definition full_disk_dump (f : file unit) (path : string) : outcome :=
  match f with
  | FeaturesPkl _ => Failed OSError true
  | _ => Written
  end.

(** The trainer with the stand-ins, and a file system that holds one
    training file. *)
Definition stub_train : string -> string -> string -> IO unit (unit * list string * Q) :=
  train_and_save repr_decimal parse_decimal stub_split stub_fit stub_proba
                 stub_auc stub_predict stub_report stub_makedirs stub_dump.

Definition training_disk (csv : DataFrame) : world unit :=
  mkWorld [("data/raw/loan_train.csv", CsvFile csv)] [].

(** A training file without the label column and without a loan term on
    its only row. *)
Definition unlabelled_termless_csv : DataFrame :=
  mkFrame 1
    [("Loan_ID", [Str "LP001002"]);
     ("Loan_Amount_Term", [NA])].

(** What the transformer returns on the sample application. *)
Definition sample_output : DataFrame :=
  mkFrame 1
    [("Loan_ID", [Str "LP001002"]);
     ("Gender", [Int 1]);
     ("Married", [Int 1]);
     ("Dependents", [Int 3]);
     ("Education", [Int 1]);
     ("Self_Employed", [Int 0]);
     ("ApplicantIncome", [Flt (Fin 5000)]);
     ("CoapplicantIncome", [Flt (Fin 0)]);
     ("LoanAmount", [Flt (Fin 128)]);
     ("Loan_Amount_Term", [Flt (Fin 360)]);
     ("Credit_History", [Flt (Fin 1)]);
     ("TotalIncome", [Flt (Fin 5000)]);
     ("Income_to_Loan_Ratio", [Flt (Fin (625 # 16))]);
     ("Applicant_to_Coapp_Ratio", [Flt (Fin 5000)]);
     ("Property_Rural", [Int 0]);
     ("Property_Semiurban", [Int 0]);
     ("Property_Urban", [Int 1])].

(* ================================================================== *)
(** ** Vocabulary of the properties *)

(** A step that assigns to existing columns only. *)
Definition stable (step : DataFrame -> result DataFrame) : Prop :=
  forall d d', step d = Ok d' -> nrows d' = nrows d /\ names d' = names d.

(** A step that writes no column outside [ws]. *)
Definition writes (ws : list string) (step : DataFrame -> result DataFrame)
  : Prop :=
  forall d d' m,
    step d = Ok d' -> mem m ws = false -> get_col m d' = get_col m d.

(** The columns assigned by the imputations of lines 21-50. *)
Definition impute_writes : list string :=
  ["LoanAmount"; "ApplicantIncome"; "CoapplicantIncome"; "Loan_Amount_Term";
   "Credit_History"; "Self_Employed"; "Gender"; "Married"; "Dependents"].

(** A block [if n1 in df.columns: df[n1] = f1(df[n1]); ...; if nk ...]. *)
Fixpoint assignments (t : list (string * (Series -> result Series)))
         (d : DataFrame) : result DataFrame :=
  match t with
  | [] => Ok d
  | (n, f) :: t' =>
      match t' with
      | [] => on_col n f d
      | _ :: _ => x <- on_col n f d ;; assignments t' x
      end
  end.

Definition impute_table : list (string * (Series -> result Series)) :=
  [("LoanAmount", fill_median);
   ("ApplicantIncome", fill_const (Int 0));
   ("CoapplicantIncome", fill_const (Int 0));
   ("Loan_Amount_Term", fill_mode);
   ("Credit_History", fill_credit_history);
   ("Self_Employed", fill_const (Str "No"));
   ("Gender", fill_mode);
   ("Married", fill_mode);
   ("Dependents", fill_mode)].

Definition cap_table : list (string * (Series -> result Series)) :=
  [("ApplicantIncome", cap_applicant_income); ("LoanAmount", cap_loan_amount)].

Definition encode_table : list (string * (Series -> result Series)) :=
  [("Gender", encode [("Male", 1); ("Female", 0)]);
   ("Married", encode [("Yes", 1); ("No", 0)]);
   ("Education", encode [("Graduate", 1); ("Not Graduate", 0)]);
   ("Self_Employed", encode [("Yes", 1); ("No", 0)])].

(** The categories of Property_Area that have a dummy column. *)
Definition area_categories : list string := ["Rural"; "Semiurban"; "Urban"].

(** Python's [str] never prints a number as the name of a category. *)
Definition prints_no_category (float_repr : float -> string) : Prop :=
  forall x, mem (float_repr x) area_categories = false.

(** A string that starts with none of the letters R, S and U. *)
Definition other_initial (s : string) : bool :=
  match s with
  | String a _ =>
      negb (Ascii.eqb a "R"%char || Ascii.eqb a "S"%char || Ascii.eqb a "U"%char)
  | EmptyString => false
  end.

(** Some row of the column holds the category. *)
Definition has_category (c : string) (s : Series) : bool :=
  existsb (fun x => cell_eqb x (Str c)) s.

(** The dummy column of a category, as lines 129-135 build it. *)
Definition dummy (c : string) (s : Series) (n : nat) : Series :=
  if has_category c s then map (indicator (Str c)) s else repeat (Int 0) n.

(** The categories [get_dummies] finds in a column. *)
Definition categories (s : Series) : list cell :=
  sort cell_leb (distinct (dropna s)).

(** The columns of a frame under one name. *)
Definition named (n : string) (p : DataFrame) : list (string * Series) :=
  filter (fun kv => String.eqb (fst kv) n) (columns p).

(** The frame line 135 builds when the frame has no column under the name
    of a dummy. *)
Definition with_dummies (area : Series) (d : DataFrame) : DataFrame :=
  mkFrame (nrows d)
    (filter (fun kv => negb (mem (fst kv) ["Property_Area"])) (columns d)
     ++ [("Property_Rural", dummy "Rural" area (nrows d));
         ("Property_Semiurban", dummy "Semiurban" area (nrows d));
         ("Property_Urban", dummy "Urban" area (nrows d))]).

(** The columns added by the feature engineering of lines 68-89. *)
Definition derived_columns : list string :=
  ["TotalIncome"; "Income_to_Loan_Ratio"; "Applicant_to_Coapp_Ratio"].

(** Every value of every column is a number: neither null nor a string. *)
Definition all_numeric (d : DataFrame) : bool :=
  forallb (fun kv => forallb is_number (snd kv)) (columns d).

(** A finite number or a null; a finite number; a finite float. *)
Definition finite_cell (c : cell) : bool :=
  match c with
  | NA | Int _ | Flt (Fin _) => true
  | _ => false
  end.

Definition finite_number (c : cell) : bool :=
  match c with
  | Int _ | Flt (Fin _) => true
  | _ => false
  end.

Definition ffinite (x : float) : bool :=
  match x with
  | Fin _ => true
  | _ => false
  end.

Definition numeric_fields : list string :=
  ["ApplicantIncome"; "CoapplicantIncome"; "LoanAmount"; "Loan_Amount_Term";
   "Credit_History"].

Definition raw_fields : list string :=
  ["Loan_ID"; "Gender"; "Married"; "Dependents"; "Education"; "Self_Employed";
   "ApplicantIncome"; "CoapplicantIncome"; "LoanAmount"; "Loan_Amount_Term";
   "Credit_History"; "Property_Area"; "Loan_Status"].

(** The raw schema (section 3 of the specification): the columns are raw
    fields, and the numeric fields hold finite numbers or nulls. *)
Definition raw_schema (d : DataFrame) : bool :=
  forallb (fun kv =>
             mem (fst kv) raw_fields
             && (negb (mem (fst kv) numeric_fields)
                 || forallb finite_cell (snd kv)))
          (columns d).

(** The column of a frame under a name holds numbers only. *)
Definition numeric_column (n : string) (d : DataFrame) : Prop :=
  forall s, get_col n d = Some s -> forallb is_number s = true.

(** The feature columns that hold numbers whenever the transformer returns. *)
Definition numeric_features : list string :=
  ["Gender"; "Married"; "Dependents"; "Education"; "Self_Employed";
   "ApplicantIncome"; "CoapplicantIncome"; "Loan_Amount_Term";
   "Credit_History"; "Applicant_to_Coapp_Ratio"; "Property_Rural";
   "Property_Semiurban"; "Property_Urban"].

(** Splits [mem m [n1; ...; nk] = false] into [m =? ni = false]. *)
Ltac split_mem H :=
  cbn in H;
  repeat match type of H with
         | (_ || _)%bool = false =>
             apply orb_false_elim in H;
             let E := fresh "E" in destruct H as [E H]
         end.

(** The columns the transformer names: the ones it reads, assigns or
    drops. *)
Definition transformer_columns : list string :=
  ["LoanAmount"; "ApplicantIncome"; "CoapplicantIncome"; "Loan_Amount_Term";
   "Credit_History"; "Self_Employed"; "Gender"; "Married"; "Dependents";
   "Education"; "TotalIncome"; "Income_to_Loan_Ratio";
   "Applicant_to_Coapp_Ratio"; "Property_Area"; "Property_Rural";
   "Property_Semiurban"; "Property_Urban"; "Loan_Status"].

(** Every column of the list has [n] cells. *)
Definition all_length (n : nat) (cols : list (string * Series)) : bool :=
  forallb (fun kv => Nat.eqb (List.length (snd kv)) n) cols.

(** The invariant of a data frame: every column has one cell per row. *)
Definition well_formed (d : DataFrame) : bool :=
  all_length (nrows d) (columns d).

(** A column function that returns as many cells as it is given. *)
Definition length_preserving (f : Series -> result Series) : Prop :=
  forall s s', f s = Ok s' -> List.length s' = List.length s.

(** The column list after [df[n] = ...]: the name comes last when it is
    new. *)
Definition append_absent (n : string) (ns : list string) : list string :=
  if mem n ns then ns else ns ++ [n].

(** The columns of the frame the transformer returns, from the columns of
    the frame it is given (lines 68-89 and 128-135). *)
Definition output_columns (ns : list string) : list string :=
  let ns := append_absent "TotalIncome" ns in
  let ns := append_absent "Income_to_Loan_Ratio" ns in
  let ns := if mem "ApplicantIncome" ns && mem "CoapplicantIncome" ns
            then append_absent "Applicant_to_Coapp_Ratio" ns
            else ns in
  if mem "Property_Area" ns
  then filter (fun n => negb (mem n ["Property_Area"])) ns ++ property_columns
  else ns.

(** A training file with the columns of the Kaggle data set, in its order. *)
Definition standard_csv : DataFrame :=
  mkFrame 2
    [("Loan_ID", [Str "LP001002"; Str "LP001003"]);
     ("Gender", [Str "Male"; Str "Male"]);
     ("Married", [Str "No"; Str "Yes"]);
     ("Dependents", [Str "0"; Str "1"]);
     ("Education", [Str "Graduate"; Str "Graduate"]);
     ("Self_Employed", [Str "No"; Str "No"]);
     ("ApplicantIncome", [Int 5849; Int 4583]);
     ("CoapplicantIncome", [Flt (Fin 0); Flt (Fin 1508)]);
     ("LoanAmount", [Flt (Fin 120); Flt (Fin 128)]);
     ("Loan_Amount_Term", [Flt (Fin 360); Flt (Fin 360)]);
     ("Credit_History", [Flt (Fin 1); Flt (Fin 1)]);
     ("Property_Area", [Str "Urban"; Str "Rural"]);
     ("Loan_Status", [Str "Y"; Str "N"])].

(** What the transformer returns on [standard_csv]. *)
Definition standard_clean : DataFrame :=
  mkFrame 2
    [("Loan_ID", [Str "LP001002"; Str "LP001003"]);
     ("Gender", [Int 1; Int 1]);
     ("Married", [Int 0; Int 1]);
     ("Dependents", [Int 0; Int 1]);
     ("Education", [Int 1; Int 1]);
     ("Self_Employed", [Int 0; Int 0]);
     ("ApplicantIncome", [Int 5836; Int 4583]);
     ("CoapplicantIncome", [Flt (Fin 0); Flt (Fin 1508)]);
     ("LoanAmount", [Flt (Fin 120); Flt (Fin 128)]);
     ("Loan_Amount_Term", [Flt (Fin 360); Flt (Fin 360)]);
     ("Credit_History", [Flt (Fin 1); Flt (Fin 1)]);
     ("Loan_Status", [Int 1; Int 0]);
     ("TotalIncome", [Flt (Fin 5849); Flt (Fin 6091)]);
     ("Income_to_Loan_Ratio", [Flt (Fin (5849 # 120)); Flt (Fin (6091 # 128))]);
     ("Applicant_to_Coapp_Ratio", [Flt (Fin 5849); Flt (Fin (4583 # 1508))]);
     ("Property_Rural", [Int 0; Int 1]);
     ("Property_Semiurban", [Int 0; Int 0]);
     ("Property_Urban", [Int 1; Int 0])].

(** A label the target mapping knows. *)
Definition known_label (c : cell) : bool :=
  cell_eqb c (Str "Y") || cell_eqb c (Str "N").

(** A training file with a label that is neither Y nor N, and what the
    transformer returns on it. *)
Definition mislabelled_csv : DataFrame :=
  mkFrame 2
    [("Loan_ID", [Str "LP001002"; Str "LP001003"]);
     ("Loan_Status", [Str "Y"; Str "y"])].

Definition mislabelled_clean : DataFrame :=
  mkFrame 2
    [("Loan_ID", [Str "LP001002"; Str "LP001003"]);
     ("Loan_Status", [Int 1; NA]);
     ("TotalIncome", [NA; NA]);
     ("Income_to_Loan_Ratio", [NA; NA])].

(** A cell that is no text. *)
Definition no_text (c : cell) : bool := negb (is_str c).

(** The conditions under which the transformer returns: the batch follows
    the raw schema; the columns imputed by [mode()[0]] hold a value; so
    does ApplicantIncome, whose 99th percentile is cast to an integer; and
    every Dependents value reads as a finite number once ['3+'] is
    replaced. *)
Definition mode_imputed : list string :=
  ["Loan_Amount_Term"; "Gender"; "Married"; "Dependents"].

Definition has_value (n : string) (d : DataFrame) : bool :=
  match get_col n d with
  | Some s => negb (all_null s)
  | None => true
  end.

Definition dependents_readable (float_repr : float -> string)
           (parse_number : string -> option float) (d : DataFrame) : bool :=
  match get_col "Dependents" d with
  | Some dep =>
      forallb finite_number
              (coerce_dependents float_repr parse_number (dropna dep))
  | None => true
  end.

Definition cleanable (float_repr : float -> string)
           (parse_number : string -> option float) (d : DataFrame) : bool :=
  raw_schema d
  && forallb (fun n => has_value n d) mode_imputed
  && match get_col "ApplicantIncome" d with
     | Some (_ :: _) | None => true
     | Some [] => false
     end
  && dependents_readable float_repr parse_number d.

(** The fences of lines 104-105 from the two quartiles. *)
Definition lower_fence (Q1 Q3 : cell) : cell :=
  scalar fsub Q1 (scalar fmul (Flt (Fin (3 # 2))) (scalar fsub Q3 Q1)).

Definition upper_fence (Q1 Q3 : cell) : cell :=
  scalar fadd Q3 (scalar fmul (Flt (Fin (3 # 2))) (scalar fsub Q3 Q1)).

(** A request without an infinity: each of its numbers is finite or
    missing. *)
Definition finite_request (a : LoanApplication) : bool :=
  forallb finite_cell
    [float_cell (ApplicantIncome a); float_cell (CoapplicantIncome a);
     optional float_cell (LoanAmount a);
     optional float_cell (Loan_Amount_Term a);
     optional float_cell (Credit_History a)].

(** A whole amount: a null, or a whole number of magnitude at most 2^50,
    as an integer or as a float.  A 64-bit integer and a double both hold
    such a number exactly, and a double holds exactly the sum of two of
    them, the half of such a sum, which is the median of a column of whole
    amounts, and the median of that column with its nulls filled by its
    median: on whole amounts the sums and medians of the model are those
    of the program. *)
Definition whole_amount (c : cell) : bool :=
  match c with
  | NA => true
  | Int z => Z.abs z <=? 2 ^ 50
  | Flt (Fin q) => Pos.eqb (Qden q) 1 && (Z.abs (Qnum q) <=? 2 ^ 50)
  | _ => false
  end.

(** The value of a whole amount, a null read as 0. *)
Definition whole_value (c : cell) : Z :=
  match c with
  | Int z => z
  | Flt (Fin q) => Qnum q
  | _ => 0
  end.




(* ================================================================== *)
(** * Properties *)

Local Open Scope list_scope.

(** ** The endpoint *)

(** C1.  The endpoint does not reconcile the batch with the persisted
    column list.  For the feature list a training run on [reordered_csv]
    persists, the batch handed to the model for the sample application has
    its columns in the transformer's order, not in the canonical order, and
    differs from the aligned batch of the specification. *)
Theorem C1_model_input_not_aligned :
  (d <- clean reordered_csv ;; p <- prepare repr_decimal d ;; Ok (snd p))
    = Ok reordered_features
  /\ exists X,
      model_input repr_decimal parse_decimal sample_application = Ok X
      /\ names X = sample_features
      /\ names X <> reordered_features
      /\ names (align X reordered_features) = reordered_features
      /\ X <> align X reordered_features.
Proof.
  split; [vm_compute; reflexivity|].
  eexists; split; [vm_compute; reflexivity|].
  repeat split; try (vm_compute; reflexivity);
    intro H; vm_compute in H; discriminate H.
Qed.

(** C2.  The class returned is the model's own prediction, not the
    thresholded probability: on [boundary_model] the endpoint answers class
    0 with probability one half, which the threshold of line 47 maps to
    class 1. *)
Theorem C2_returned_class_ignores_threshold :
  predict_loan_status repr_decimal parse_decimal boundary_model
                      sample_application
  = Ok (mkResponse 0 (1 # 2))
  /\ threshold (1 # 2) = 1.
Proof. split; vm_compute; reflexivity. Qed.

(** ** Concrete runs of the transformer *)

(** C4.  A one-record batch whose LoanAmount is 0 keeps the value 0: the
    median that replaces zeros is itself 0, and the division of line 79
    divides by it.  A batch whose LoanAmount is null on every row keeps its
    nulls: the fallback 1.0 of line 76 replaces zeros only. *)
Theorem C4_zero_loan_amount_survives :
  (exists out,
      clean (record_frame zero_loan_application) = Ok out
      /\ get_col "LoanAmount" out = Some [Flt (Fin 0)]
      /\ get_col "TotalIncome" out = Some [Flt (Fin 5000)]
      /\ get_col "Income_to_Loan_Ratio" out = Some [Flt PInf])
  /\ (exists out,
         clean empty_loan_batch = Ok out
         /\ loan_median [NA; NA] = Ok (Flt (Fin 1))
         /\ get_col "LoanAmount" out = Some [NA; NA]
         /\ get_col "Income_to_Loan_Ratio" out = Some [NA; NA]).
Proof. split; eexists; repeat split; vm_compute; reflexivity. Qed.

(** C5.  A one-record batch whose Loan_Amount_Term is null makes the
    transformer raise: the mode of line 31 is empty and its first element
    is a [KeyError]. *)
Theorem C5_null_loan_term_raises :
  get_col "Loan_Amount_Term" (record_frame no_term_application) = Some [NA]
  /\ mode [NA] = []
  /\ clean (record_frame no_term_application) = Raise KeyError.
Proof. repeat split; vm_compute; reflexivity. Qed.

(** ** The trainer *)

Section TrainerFacts.

Variable float_repr : float -> string.
Variable parse_number : string -> option float.
Variable Estimator : Type.
Variable train_test_split :
  DataFrame -> Series -> result (DataFrame * DataFrame * Series * Series).
Variable grid_search_fit : DataFrame -> Series -> result Estimator.
Variable proba_of : Estimator -> DataFrame -> result (list Q).
Variable roc_auc_score : Series -> list Q -> result Q.
Variable predict_of : Estimator -> DataFrame -> result (list Z).
Variable classification_report : Series -> list Z -> result unit.
Variable os_makedirs : string -> result unit.
Variable joblib_dump : file Estimator -> string -> outcome.

Let train :=
  train_and_save float_repr parse_number train_test_split grid_search_fit
                 proba_of roc_auc_score predict_of classification_report
                 os_makedirs joblib_dump.

Lemma prepare_without_label :
  forall df, has_col "Loan_Status" df = false ->
             prepare float_repr df = Raise ValueError.
Proof. intros df H; unfold prepare; rewrite H; reflexivity. Qed.

(** C9.  [train_and_save] raises [FileNotFoundError] when the training
    file does not exist, before anything is read or computed.  The
    [ValueError] of a missing Loan_Status column is raised later: the check
    is on the cleaned frame, after the file was read and the whole
    transformer ran, so that an exception of the transformer comes first
    and takes its place.  In all three cases no split, fit, scoring or dump
    call was made and the files are as before: no artifact is written. *)
Theorem C9_train_fails_before_fitting :
  forall (w : world Estimator) raw_csv_path out_model_path out_features_path,
    (lookup raw_csv_path (files w) = None ->
     train raw_csv_path out_model_path out_features_path w
     = (Raise FileNotFoundError, w))
    /\ (forall df_raw df,
           lookup raw_csv_path (files w) = Some (CsvFile df_raw) ->
           clean_raw_df float_repr parse_number df_raw = Ok df ->
           has_col "Loan_Status" df = false ->
           train raw_csv_path out_model_path out_features_path w
           = (Raise ValueError,
              mkWorld (files w) (trace w ++ [ReadCsv raw_csv_path])))
    /\ (forall df_raw e,
           lookup raw_csv_path (files w) = Some (CsvFile df_raw) ->
           clean_raw_df float_repr parse_number df_raw = Raise e ->
           train raw_csv_path out_model_path out_features_path w
           = (Raise e,
              mkWorld (files w) (trace w ++ [ReadCsv raw_csv_path]))).
Proof.
  intros w raw mp fp; split; [|split].
  - intro Hnone; unfold train, train_and_save, iobind, path_exists.
    rewrite Hnone; reflexivity.
  - intros df_raw df Hfile Hclean Hlabel.
    unfold train, train_and_save, iobind, path_exists, read_csv, iobind, emit,
      lift.
    rewrite Hfile; cbn [negb files trace].
    rewrite Hfile, Hclean, (prepare_without_label df Hlabel); reflexivity.
  - intros df_raw e Hfile Hclean.
    unfold train, train_and_save, iobind, path_exists, read_csv, iobind, emit,
      lift.
    rewrite Hfile; cbn [negb files trace].
    rewrite Hfile, Hclean; reflexivity.
Qed.

End TrainerFacts.

(** A run of the trainer on a file system without the file asked for, on
    one whose file has no label column, and on one whose file makes the
    transformer raise. *)
Lemma C9_train_fails_before_fitting_witness :
  stub_train "data/raw/missing.csv" "models/model.pkl" "models/features.pkl"
             (training_disk unlabelled_csv)
  = (Raise FileNotFoundError, training_disk unlabelled_csv)
  /\ stub_train "data/raw/loan_train.csv" "models/model.pkl"
                "models/features.pkl" (training_disk unlabelled_csv)
     = (Raise ValueError,
        mkWorld (files (training_disk unlabelled_csv))
                [ReadCsv "data/raw/loan_train.csv"])
  /\ stub_train "data/raw/loan_train.csv" "models/model.pkl"
                "models/features.pkl" (training_disk unlabelled_termless_csv)
     = (Raise KeyError,
        mkWorld (files (training_disk unlabelled_termless_csv))
                [ReadCsv "data/raw/loan_train.csv"]).
Proof.
  split; [|split].
  - apply (proj1 (C9_train_fails_before_fitting repr_decimal parse_decimal unit
                    stub_split stub_fit stub_proba stub_auc stub_predict
                    stub_report stub_makedirs stub_dump
                    (training_disk unlabelled_csv)
                    "data/raw/missing.csv" "models/model.pkl"
                    "models/features.pkl")).
    reflexivity.
  - apply (proj1 (proj2 (C9_train_fails_before_fitting repr_decimal
                           parse_decimal unit
                           stub_split stub_fit stub_proba stub_auc stub_predict
                           stub_report stub_makedirs stub_dump
                           (training_disk unlabelled_csv)
                           "data/raw/loan_train.csv" "models/model.pkl"
                           "models/features.pkl"))
                 unlabelled_csv unlabelled_clean).
    + reflexivity.
    + vm_compute; reflexivity.
    + reflexivity.
  - apply (proj2 (proj2 (C9_train_fails_before_fitting repr_decimal
                           parse_decimal unit
                           stub_split stub_fit stub_proba stub_auc stub_predict
                           stub_report stub_makedirs stub_dump
                           (training_disk unlabelled_termless_csv)
                           "data/raw/loan_train.csv" "models/model.pkl"
                           "models/features.pkl"))
                 unlabelled_termless_csv KeyError).
    + reflexivity.
    + vm_compute; reflexivity.
Defined.

(** C9, the sentence of the specification.  Were the [ValueError] of a
    missing label raised before any computation, a run on a file without
    label column would raise it and leave the world as it found it.  The
    run on [unlabelled_csv] has read the file when it raises, and the frame
    it checks is the one the transformer computed; the run on
    [unlabelled_termless_csv], which has no label column either, raises the
    transformer's [KeyError] and never reaches the check. *)
Lemma C9_raised_before_any_computation_counterexample :
  ~ (forall (w : world unit) raw_csv_path out_model_path out_features_path
            df_raw,
        lookup raw_csv_path (files w) = Some (CsvFile df_raw) ->
        has_col "Loan_Status" df_raw = false ->
        stub_train raw_csv_path out_model_path out_features_path w
        = (Raise ValueError, w))
  /\ has_col "Loan_Status" unlabelled_csv = false
  /\ trace (snd (stub_train "data/raw/loan_train.csv" "models/model.pkl"
                            "models/features.pkl"
                            (training_disk unlabelled_csv)))
     = [ReadCsv "data/raw/loan_train.csv"]
  /\ clean unlabelled_csv = Ok unlabelled_clean
  /\ has_col "Loan_Status" unlabelled_termless_csv = false
  /\ fst (stub_train "data/raw/loan_train.csv" "models/model.pkl"
                     "models/features.pkl"
                     (training_disk unlabelled_termless_csv))
     = Raise KeyError.
Proof.
  split; [|repeat split; vm_compute; reflexivity].
  intro H.
  specialize (H (training_disk unlabelled_termless_csv)
                "data/raw/loan_train.csv" "models/model.pkl"
                "models/features.pkl" unlabelled_termless_csv eq_refl eq_refl).
  vm_compute in H. discriminate H.
Qed.

(** ** The transformer on the heap *)

Section HeapFacts.

Variable float_repr : float -> string.
Variable parse_number : string -> option float.

Lemma nth_error_fresh :
  forall (h : Heap.heap) d, nth_error (h ++ [d]) (List.length h) = Some d.
Proof.
  intros h d; rewrite nth_error_app2 by lia.
  rewrite Nat.sub_diag; reflexivity.
Qed.

Lemma list_set_fresh :
  forall (h : Heap.heap) d d', Heap.list_set (List.length h) d' (h ++ [d]) = h ++ [d'].
Proof.
  induction h as [|x h IH]; intros d d'; cbn; [reflexivity|].
  rewrite IH; reflexivity.
Qed.

Lemma in_place_fresh :
  forall block (h : Heap.heap) d,
    Heap.in_place block (List.length h) (h ++ [d])
    = match block d with
      | Ok d' => (Ok tt, h ++ [d'])
      | Raise e => (Raise e, h ++ [d])
      end.
Proof.
  intros block h d; unfold Heap.in_place, Heap.bind, Heap.load.
  rewrite nth_error_fresh.
  destruct (block d); [unfold Heap.store; rewrite list_set_fresh|]; reflexivity.
Qed.

Lemma prefix_kept :
  forall (h t : Heap.heap) k,
    (k < List.length h)%nat -> nth_error (h ++ t) k = nth_error h k.
Proof. intros h t k Hk; apply nth_error_app1; exact Hk. Qed.

(** The heap after a run: the caller's heap followed by the frames the
    run allocated, the last of which is the result. *)
Lemma clean_raw_df_on_heap :
  forall (h : Heap.heap) l d,
    nth_error h l = Some d ->
    forall r h',
      Heap.clean_raw_df float_repr parse_number l h = (r, h') ->
      exists t,
        h' = h ++ t
        /\ match clean_raw_df float_repr parse_number d with
           | Ok out => exists t', t = t' ++ [out]
                                  /\ r = Ok (List.length (h ++ t'))
           | Raise e => r = Raise e
           end.
Proof.
  intros h l d Hl r h' Hrun.
  unfold Heap.clean_raw_df, clean_raw_df in *.
  unfold Heap.copy, Heap.bind at 1 2, Heap.load, Heap.alloc in Hrun.
  rewrite Hl in Hrun.
  unfold Heap.bind at 1 in Hrun; rewrite in_place_fresh in Hrun.
  destruct (impute d) as [d1|e]; cbn [bind];
    [|injection Hrun as <- <-; exists [d]; split; reflexivity].
  unfold Heap.bind at 1 in Hrun; rewrite in_place_fresh in Hrun.
  destruct (dependents_cleanup float_repr parse_number d1) as [d2|e];
    cbn [bind];
    [|injection Hrun as <- <-; exists [d1]; split; reflexivity].
  unfold Heap.bind at 1 in Hrun; rewrite in_place_fresh in Hrun.
  destruct (engineer d2) as [d3|e]; cbn [bind];
    [|injection Hrun as <- <-; exists [d2]; split; reflexivity].
  unfold Heap.bind at 1 in Hrun; rewrite in_place_fresh in Hrun.
  destruct (cap_outliers d3) as [d4|e]; cbn [bind];
    [|injection Hrun as <- <-; exists [d3]; split; reflexivity].
  unfold Heap.bind at 1 in Hrun; rewrite in_place_fresh in Hrun.
  destruct (encode_binary d4) as [d5|e]; cbn [bind];
    [|injection Hrun as <- <-; exists [d4]; split; reflexivity].
  unfold Heap.bind at 1 in Hrun.
  unfold Heap.one_hot_property_area, one_hot_property_area in *.
  unfold Heap.bind at 1, Heap.load in Hrun; rewrite nth_error_fresh in Hrun.
  destruct (get_col "Property_Area" d5) as [area|].
  - unfold Heap.bind at 1, Heap.alloc in Hrun.
    unfold Heap.bind at 1 in Hrun; rewrite in_place_fresh in Hrun.
    destruct (cast_dummies (attach_dummies float_repr area d5)) as [d6|e];
      cbn [bind].
    + unfold Heap.ret at 1 in Hrun.
      unfold Heap.bind at 1 in Hrun; rewrite in_place_fresh in Hrun.
      destruct (map_target d6) as [d7|e]; unfold Heap.ret in Hrun;
        inversion Hrun; subst; clear Hrun.
      * exists ([d5] ++ [d7]); split; [rewrite <- app_assoc; reflexivity|].
        exists [d5]; split; reflexivity.
      * exists ([d5] ++ [d6]); split; [rewrite <- app_assoc; reflexivity|].
        reflexivity.
    + injection Hrun as <- <-.
      exists ([d5] ++ [attach_dummies float_repr area d5]); split;
        [rewrite <- app_assoc; reflexivity|reflexivity].
  - unfold Heap.ret at 1 in Hrun.
    unfold Heap.bind at 1 in Hrun; rewrite in_place_fresh in Hrun.
    cbn [bind].
    destruct (map_target d5) as [d7|e]; unfold Heap.ret in Hrun;
      inversion Hrun; subst; clear Hrun.
    + exists [d7]; split; [reflexivity|].
      exists []; split; [reflexivity|].
      rewrite app_nil_r; reflexivity.
    + exists [d5]; split; reflexivity.
Qed.

(** C8.  [clean_raw_df] leaves every frame of its caller as it was, its
    argument among them, and returns the address of a frame allocated
    during the call, which holds the transformed batch. *)
Theorem C8_input_not_mutated :
  forall (h : Heap.heap) l d,
    nth_error h l = Some d ->
    forall r h',
      Heap.clean_raw_df float_repr parse_number l h = (r, h') ->
      (forall k, (k < List.length h)%nat -> nth_error h' k = nth_error h k)
      /\ nth_error h' l = Some d
      /\ (forall l', r = Ok l' ->
            l' <> l /\ (List.length h <= l')%nat
            /\ exists out,
                clean_raw_df float_repr parse_number d = Ok out
                /\ nth_error h' l' = Some out).
Proof.
  intros h l d Hl r h' Hrun.
  destruct (clean_raw_df_on_heap h l d Hl r h' Hrun) as [t [Hheap Hres]].
  subst h'.
  assert (Hlt : (l < List.length h)%nat)
    by (apply nth_error_Some; rewrite Hl; discriminate).
  split; [intros k Hk; apply prefix_kept; exact Hk|].
  split; [rewrite prefix_kept by exact Hlt; exact Hl|].
  intros l' Hr; subst r.
  destruct (clean_raw_df float_repr parse_number d) as [out|e];
    [|discriminate Hres].
  destruct Hres as [t' [Ht Hloc]]; injection Hloc as Hloc; subst l' t.
  rewrite length_app.
  split; [lia|]. split; [lia|].
  exists out; split; [reflexivity|].
  rewrite app_assoc, <- length_app; apply nth_error_fresh.
Qed.

End HeapFacts.

(** The caller of [caller_heap] transforms its second frame: both frames
    are as before, and the result is the frame at the new address 3. *)
Lemma C8_input_not_mutated_witness :
  nth_error (snd (Heap.clean_raw_df repr_decimal parse_decimal 1%nat
                                    caller_heap)) 0
  = Some (record_frame no_term_application)
  /\ nth_error (snd (Heap.clean_raw_df repr_decimal parse_decimal 1%nat
                                       caller_heap)) 1
     = Some (record_frame sample_application)
  /\ 3%nat <> 1%nat
  /\ nth_error (snd (Heap.clean_raw_df repr_decimal parse_decimal 1%nat
                                       caller_heap)) 3
     = Some sample_output.
Proof.
  destruct (C8_input_not_mutated repr_decimal parse_decimal caller_heap 1%nat
              (record_frame sample_application) eq_refl
              (fst (Heap.clean_raw_df repr_decimal parse_decimal 1%nat
                                      caller_heap))
              (snd (Heap.clean_raw_df repr_decimal parse_decimal 1%nat
                                      caller_heap)))
    as [Hkeep [Harg Hnew]].
  - vm_compute; reflexivity.
  - destruct (Hnew 3%nat) as [Hne [_ [out [Hout Hat]]]];
      [vm_compute; reflexivity|].
    split; [rewrite Hkeep by (cbn; lia); reflexivity|].
    split; [exact Harg|].
    split; [exact Hne|].
    rewrite Hat; f_equal.
    assert (E : Ok out = Ok sample_output)
      by (rewrite <- Hout; vm_compute; reflexivity).
    injection E as ->; reflexivity.
Defined.

(** ** Frames: columns read after columns written *)

Lemma bind_ok :
  forall (A B : Type) (m : result A) (k : A -> result B) b,
    (x <- m ;; k x) = Ok b -> exists a, m = Ok a /\ k a = Ok b.
Proof.
  intros A B [a|e] k b H; cbn in H; [exists a; split; [reflexivity|exact H]|].
  discriminate H.
Qed.

Lemma lookup_set_assoc_same :
  forall n s cols, lookup n (set_assoc n s cols) = Some s.
Proof.
  intros n s cols; induction cols as [|[k v] cols IH]; cbn.
  - rewrite String.eqb_refl; reflexivity.
  - destruct (String.eqb n k) eqn:E; cbn; rewrite E; [reflexivity|exact IH].
Qed.

Lemma lookup_set_assoc_other :
  forall m n s cols,
    String.eqb m n = false -> lookup m (set_assoc n s cols) = lookup m cols.
Proof.
  intros m n s cols Hmn; induction cols as [|[k v] cols IH]; cbn.
  - rewrite Hmn; reflexivity.
  - destruct (String.eqb n k) eqn:E; cbn.
    + apply String.eqb_eq in E; subst k; rewrite Hmn; reflexivity.
    + rewrite IH; reflexivity.
Qed.

Lemma get_col_set_col_same :
  forall n s d, get_col n (set_col n s d) = Some s.
Proof. intros; apply lookup_set_assoc_same. Qed.

Lemma get_col_set_col_other :
  forall m n s d,
    String.eqb m n = false -> get_col m (set_col n s d) = get_col m d.
Proof. intros; apply lookup_set_assoc_other; assumption. Qed.

Lemma has_col_get_col :
  forall n d,
    has_col n d = match get_col n d with Some _ => true | None => false end.
Proof.
  intros n [r cols]; unfold has_col, get_col, names; cbn.
  induction cols as [|[k v] cols IH]; cbn; [reflexivity|].
  destruct (String.eqb n k); [reflexivity|exact IH].
Qed.

Lemma names_set_assoc_present :
  forall n s cols s0,
    lookup n cols = Some s0 -> map fst (set_assoc n s cols) = map fst cols.
Proof.
  intros n s cols s0; induction cols as [|[k v] cols IH]; cbn; [discriminate|].
  destruct (String.eqb n k); cbn; [reflexivity|].
  intro H; rewrite (IH H); reflexivity.
Qed.

Lemma names_set_assoc_absent :
  forall n s cols,
    lookup n cols = None -> map fst (set_assoc n s cols) = map fst cols ++ [n].
Proof.
  intros n s cols; induction cols as [|[k v] cols IH]; cbn; [reflexivity|].
  destruct (String.eqb n k); cbn; [discriminate|].
  intro H; rewrite (IH H); reflexivity.
Qed.

Lemma on_col_inv :
  forall n f d d',
    on_col n f d = Ok d' ->
    match get_col n d with
    | Some s => exists s', f s = Ok s' /\ d' = set_col n s' d
    | None => d' = d
    end.
Proof.
  intros n f d d' H; unfold on_col in H.
  destruct (get_col n d) as [s|].
  - apply bind_ok in H; destruct H as [s' [Hf Hd]].
    exists s'; split; [exact Hf|congruence].
  - congruence.
Qed.

Lemma on_col_stable : forall n f, stable (on_col n f).
Proof.
  intros n f d d' H; apply on_col_inv in H.
  destruct (get_col n d) as [s|] eqn:E.
  - destruct H as [s' [_ ->]]; split; [reflexivity|].
    unfold names, set_col; cbn.
    apply names_set_assoc_present with (s0 := s); exact E.
  - subst d'; split; reflexivity.
Qed.

Lemma on_col_writes : forall n f, writes [n] (on_col n f).
Proof.
  intros n f d d' m H Hm; apply on_col_inv in H.
  cbn in Hm; rewrite orb_false_r in Hm.
  destruct (get_col n d) as [s|].
  - destruct H as [s' [_ ->]]; apply get_col_set_col_other; exact Hm.
  - subst d'; reflexivity.
Qed.

(** What a guarded assignment leaves in its own column. *)
Lemma on_col_result :
  forall n f d d' s',
    on_col n f d = Ok d' -> get_col n d' = Some s' ->
    exists s, get_col n d = Some s /\ f s = Ok s'.
Proof.
  intros n f d d' s' H Hget; apply on_col_inv in H.
  destruct (get_col n d) as [s|] eqn:E.
  - destruct H as [s1 [Hf ->]].
    rewrite get_col_set_col_same in Hget; injection Hget as ->.
    exists s; split; [reflexivity|exact Hf].
  - subst d'; congruence.
Qed.

Lemma stable_bind :
  forall f g, stable f -> stable g -> stable (fun d => x <- f d ;; g x).
Proof.
  intros f g Hf Hg d d' H; apply bind_ok in H; destruct H as [x [H1 H2]].
  destruct (Hf _ _ H1) as [A1 A2]; destruct (Hg _ _ H2) as [B1 B2].
  split; congruence.
Qed.

Lemma mem_app :
  forall m a b, mem m (a ++ b) = mem m a || mem m b.
Proof. intros; unfold mem; apply existsb_app. Qed.

Lemma writes_bind :
  forall wf wg f g,
    writes wf f -> writes wg g -> writes (wf ++ wg) (fun d => x <- f d ;; g x).
Proof.
  intros wf wg f g Hf Hg d d' m H Hm; apply bind_ok in H.
  destruct H as [x [H1 H2]].
  rewrite mem_app in Hm; apply orb_false_elim in Hm; destruct Hm as [Ha Hb].
  rewrite (Hg _ _ _ H2 Hb); apply (Hf _ _ _ H1 Ha).
Qed.

Lemma stable_has_col :
  forall step d d' n, stable step -> step d = Ok d' -> has_col n d' = has_col n d.
Proof.
  intros step d d' n Hs H; destruct (Hs _ _ H) as [_ Hn].
  unfold has_col; rewrite Hn; reflexivity.
Qed.

(** *** The blocks of the transformer *)

Lemma impute_stable : stable impute.
Proof. unfold impute; repeat apply stable_bind; apply on_col_stable. Qed.

Lemma impute_writes_ok : writes impute_writes impute.
Proof.
  unfold impute.
  repeat (apply (writes_bind [_]); [apply on_col_writes|]); apply on_col_writes.
Qed.

Lemma dependents_cleanup_stable :
  forall fr pn, stable (dependents_cleanup fr pn).
Proof. intros; apply on_col_stable. Qed.

Lemma dependents_cleanup_writes :
  forall fr pn, writes ["Dependents"] (dependents_cleanup fr pn).
Proof. intros; apply on_col_writes. Qed.

Lemma cap_outliers_stable : stable cap_outliers.
Proof. unfold cap_outliers; apply stable_bind; apply on_col_stable. Qed.

Lemma cap_outliers_writes : writes ["ApplicantIncome"; "LoanAmount"] cap_outliers.
Proof.
  unfold cap_outliers; apply (writes_bind [_] [_]); apply on_col_writes.
Qed.

Lemma encode_binary_stable : stable encode_binary.
Proof. unfold encode_binary; repeat apply stable_bind; apply on_col_stable. Qed.

Lemma encode_binary_writes :
  writes ["Gender"; "Married"; "Education"; "Self_Employed"] encode_binary.
Proof.
  unfold encode_binary.
  repeat (apply (writes_bind [_]); [apply on_col_writes|]); apply on_col_writes.
Qed.

Lemma map_target_stable : stable map_target.
Proof. apply on_col_stable. Qed.

Lemma map_target_writes : writes ["Loan_Status"] map_target.
Proof. apply on_col_writes. Qed.

(** *** Engineered features *)

Lemma getitem_ok :
  forall n d s, getitem n d = Ok s -> get_col n d = Some s.
Proof.
  intros n d s H; unfold getitem in H.
  destruct (get_col n d); [congruence|discriminate].
Qed.

Lemma total_income_inv :
  forall d d',
    total_income d = Ok d' ->
    exists t,
      d' = set_col "TotalIncome" t d
      /\ if incomes_present d
         then exists a c,
             get_col "ApplicantIncome" d = Some a
             /\ get_col "CoapplicantIncome" d = Some c
             /\ zipM cell_add a c = Ok t
         else t = broadcast d NA.
Proof.
  intros d d' H; unfold total_income in H.
  destruct (incomes_present d).
  - apply bind_ok in H; destruct H as [a [Ha H]].
    apply bind_ok in H; destruct H as [c [Hc H]].
    apply bind_ok in H; destruct H as [t [Ht H]].
    exists t; split; [congruence|].
    exists a, c; repeat split; try assumption; apply getitem_ok; assumption.
  - exists (broadcast d NA); split; [congruence|reflexivity].
Qed.

Lemma income_to_loan_inv :
  forall d d',
    income_to_loan d = Ok d' ->
    match get_col "LoanAmount" d with
    | Some la =>
        exists m t r,
          loan_median la = Ok m
          /\ get_col "TotalIncome" (set_col "LoanAmount" (replace (Int 0) m la) d)
             = Some t
          /\ zipM cell_div t (replace (Int 0) m la) = Ok r
          /\ d' = set_col "Income_to_Loan_Ratio" r
                    (set_col "LoanAmount" (replace (Int 0) m la) d)
    | None => d' = set_col "Income_to_Loan_Ratio" (broadcast d NA) d
    end.
Proof.
  intros d d' H; unfold income_to_loan in H.
  destruct (get_col "LoanAmount" d) as [la|]; [|congruence].
  apply bind_ok in H; destruct H as [m [Hm H]].
  apply bind_ok in H; destruct H as [t [Ht H]].
  apply bind_ok in H; destruct H as [r [Hr H]].
  exists m, t, r; repeat split; try assumption.
  - apply getitem_ok; exact Ht.
  - congruence.
Qed.

Lemma applicant_to_coapp_inv :
  forall d d',
    applicant_to_coapp d = Ok d' ->
    if incomes_present d
    then exists a c q,
        get_col "ApplicantIncome" d = Some a
        /\ get_col "CoapplicantIncome" d = Some c
        /\ zipM cell_div a c = Ok q
        /\ d' = set_col "Applicant_to_Coapp_Ratio"
                  (np_where (map (fun x => cell_eqb x (Int 0)) c) a q) d
    else d' = d.
Proof.
  intros d d' H; unfold applicant_to_coapp in H.
  destruct (incomes_present d); [|congruence].
  apply bind_ok in H; destruct H as [a [Ha H]].
  apply bind_ok in H; destruct H as [c [Hc H]].
  apply bind_ok in H; destruct H as [q [Hq H]].
  exists a, c, q; repeat split; try assumption;
    try (apply getitem_ok; assumption); congruence.
Qed.

Lemma total_income_writes : writes ["TotalIncome"] total_income.
Proof.
  intros d d' m H Hm; apply total_income_inv in H.
  destruct H as [t [-> _]]; cbn in Hm; rewrite orb_false_r in Hm.
  apply get_col_set_col_other; exact Hm.
Qed.

Lemma income_to_loan_writes :
  writes ["LoanAmount"; "Income_to_Loan_Ratio"] income_to_loan.
Proof.
  intros d d' m H Hm; apply income_to_loan_inv in H.
  cbn in Hm; rewrite orb_false_r in Hm; apply orb_false_elim in Hm.
  destruct Hm as [H1 H2].
  destruct (get_col "LoanAmount" d) as [la|].
  - destruct H as [x [t [r [_ [_ [_ ->]]]]]].
    rewrite !get_col_set_col_other by assumption; reflexivity.
  - subst d'; apply get_col_set_col_other; exact H2.
Qed.

Lemma applicant_to_coapp_writes :
  writes ["Applicant_to_Coapp_Ratio"] applicant_to_coapp.
Proof.
  intros d d' m H Hm; apply applicant_to_coapp_inv in H.
  cbn in Hm; rewrite orb_false_r in Hm.
  destruct (incomes_present d).
  - destruct H as [a [c [q [_ [_ [_ ->]]]]]].
    apply get_col_set_col_other; exact Hm.
  - subst d'; reflexivity.
Qed.

Lemma engineer_writes :
  writes ["TotalIncome"; "LoanAmount"; "Income_to_Loan_Ratio";
          "Applicant_to_Coapp_Ratio"] engineer.
Proof.
  unfold engineer.
  apply (writes_bind [_] [_; _; _]); [apply total_income_writes|].
  apply (writes_bind [_; _] [_]);
    [apply income_to_loan_writes|apply applicant_to_coapp_writes].
Qed.

(** *** The one-hot block *)

Lemma lookup_app :
  forall (m : string) (a b : list (string * Series)),
    lookup m (a ++ b)
    = match lookup m a with Some s => Some s | None => lookup m b end.
Proof.
  intros m a b; induction a as [|[k v] a IH]; cbn; [reflexivity|].
  destruct (String.eqb m k); [reflexivity|exact IH].
Qed.

Lemma lookup_drop_other :
  forall m ns (cols : list (string * Series)),
    mem m ns = false ->
    lookup m (filter (fun kv => negb (mem (fst kv) ns)) cols) = lookup m cols.
Proof.
  intros m ns cols Hm; induction cols as [|[k v] cols IH]; cbn; [reflexivity|].
  destruct (String.eqb m k) eqn:E.
  - apply String.eqb_eq in E; subst k; rewrite Hm; cbn.
    rewrite String.eqb_refl; reflexivity.
  - destruct (mem k ns); cbn; [exact IH|rewrite E; exact IH].
Qed.

Lemma lookup_drop_dropped :
  forall m ns (cols : list (string * Series)),
    mem m ns = true ->
    lookup m (filter (fun kv => negb (mem (fst kv) ns)) cols) = None.
Proof.
  intros m ns cols Hm; induction cols as [|[k v] cols IH]; cbn; [reflexivity|].
  destruct (mem k ns) eqn:Ek; cbn; [exact IH|].
  destruct (String.eqb m k) eqn:E; [|exact IH].
  apply String.eqb_eq in E; subst k; congruence.
Qed.

Lemma lookup_filter_name :
  forall m n (cols : list (string * Series)),
    lookup m (filter (fun kv => String.eqb (fst kv) n) cols)
    = if String.eqb m n then lookup m cols else None.
Proof.
  intros m n cols; induction cols as [|[k v] cols IH]; cbn.
  - destruct (String.eqb m n); reflexivity.
  - destruct (String.eqb k n) eqn:Ekn; cbn.
    + apply String.eqb_eq in Ekn; subst k.
      destruct (String.eqb m n); [reflexivity|exact IH].
    + rewrite IH; destruct (String.eqb m n) eqn:Emn; [|reflexivity].
      apply String.eqb_eq in Emn; subst m; rewrite String.eqb_sym, Ekn.
      reflexivity.
Qed.

(** [df[ns][m]]: the column of [df] when [m] is among [ns]. *)
Lemma lookup_select :
  forall m ns (cols : list (string * Series)),
    lookup m (flat_map (fun n => filter (fun kv => String.eqb (fst kv) n) cols) ns)
    = if mem m ns then lookup m cols else None.
Proof.
  intros m ns cols; induction ns as [|n ns IH]; cbn; [reflexivity|].
  rewrite lookup_app, lookup_filter_name, IH.
  destruct (String.eqb m n); cbn; [|reflexivity].
  destruct (lookup m cols); [reflexivity|].
  destruct (mem m ns); reflexivity.
Qed.

Lemma cast_int_inv :
  forall n d d',
    cast_int n d = Ok d' ->
    exists s s', get_col n d = Some s /\ astype_int s = Ok s'
                 /\ d' = set_col n s' d.
Proof.
  intros n d d' H; unfold cast_int in H.
  apply bind_ok in H; destruct H as [s [Hs H]].
  apply bind_ok in H; destruct H as [s' [Hs' H]].
  exists s, s'; repeat split; [apply getitem_ok; exact Hs|exact Hs'|congruence].
Qed.

Lemma cast_int_writes : forall n, writes [n] (cast_int n).
Proof.
  intros n d d' m H Hm; apply cast_int_inv in H.
  destruct H as [s [s' [_ [_ ->]]]]; cbn in Hm; rewrite orb_false_r in Hm.
  apply get_col_set_col_other; exact Hm.
Qed.

Lemma cast_dummies_writes : writes property_columns cast_dummies.
Proof.
  unfold cast_dummies, property_columns.
  apply (writes_bind [_] [_; _]); [apply cast_int_writes|].
  apply (writes_bind [_] [_]); apply cast_int_writes.
Qed.

Lemma attach_dummies_other :
  forall fr area d m,
    mem m ("Property_Area" :: property_columns) = false ->
    get_col m (attach_dummies fr area d) = get_col m d.
Proof.
  intros fr area d m Hm.
  assert (Ha : mem m ["Property_Area"] = false).
  { cbn in *; apply orb_false_elim in Hm; destruct Hm as [-> _]; reflexivity. }
  assert (Hp : mem m property_columns = false).
  { cbn in *; apply orb_false_elim in Hm; destruct Hm as [_ Hm]; exact Hm. }
  unfold attach_dummies, get_col, concat_cols, drop_cols, select_cols; cbn [columns].
  rewrite lookup_app, lookup_drop_other by exact Ha.
  rewrite lookup_select, Hp.
  destruct (lookup m (columns d)); reflexivity.
Qed.

Lemma one_hot_writes :
  forall fr,
    writes ("Property_Area" :: property_columns) (one_hot_property_area fr).
Proof.
  intros fr d d' m H Hm; unfold one_hot_property_area in H.
  destruct (get_col "Property_Area" d) as [area|]; [|congruence].
  rewrite (cast_dummies_writes _ _ m H).
  - apply attach_dummies_other; exact Hm.
  - cbn in *; apply orb_false_elim in Hm; destruct Hm as [_ Hm]; exact Hm.
Qed.

(** ** The derived columns *)

Lemma clean_raw_df_inv :
  forall fr pn d out,
    clean_raw_df fr pn d = Ok out ->
    exists d1 d2 d3 d4 d5 d6,
      impute d = Ok d1
      /\ dependents_cleanup fr pn d1 = Ok d2
      /\ engineer d2 = Ok d3
      /\ cap_outliers d3 = Ok d4
      /\ encode_binary d4 = Ok d5
      /\ one_hot_property_area fr d5 = Ok d6
      /\ map_target d6 = Ok out.
Proof.
  intros fr pn d out H; unfold clean_raw_df in H.
  apply bind_ok in H; destruct H as [d1 [H1 H]].
  apply bind_ok in H; destruct H as [d2 [H2 H]].
  apply bind_ok in H; destruct H as [d3 [H3 H]].
  apply bind_ok in H; destruct H as [d4 [H4 H]].
  apply bind_ok in H; destruct H as [d5 [H5 H]].
  apply bind_ok in H; destruct H as [d6 [H6 H]].
  exists d1, d2, d3, d4, d5, d6; repeat split; assumption.
Qed.

Lemma engineer_inv :
  forall d d',
    engineer d = Ok d' ->
    exists e1 e2,
      total_income d = Ok e1 /\ income_to_loan e1 = Ok e2
      /\ applicant_to_coapp e2 = Ok d'.
Proof.
  intros d d' H; unfold engineer in H.
  apply bind_ok in H; destruct H as [e1 [H1 H]].
  apply bind_ok in H; destruct H as [e2 [H2 H]].
  exists e1, e2; repeat split; assumption.
Qed.

(** A column none of the blocks after feature engineering writes. *)
Lemma kept_after_engineer :
  forall fr d3 d4 d5 d6 out m,
    cap_outliers d3 = Ok d4 ->
    encode_binary d4 = Ok d5 ->
    one_hot_property_area fr d5 = Ok d6 ->
    map_target d6 = Ok out ->
    mem m ["ApplicantIncome"; "LoanAmount"; "Gender"; "Married"; "Education";
           "Self_Employed"; "Property_Area"; "Property_Rural";
           "Property_Semiurban"; "Property_Urban"; "Loan_Status"] = false ->
    get_col m out = get_col m d3.
Proof.
  intros fr d3 d4 d5 d6 out m H4 H5 H6 H7 Hm.
  cbn in Hm.
  repeat match type of Hm with
         | (_ || _)%bool = false =>
             apply orb_false_elim in Hm;
             let E := fresh "E" in destruct Hm as [E Hm]
         end.
  rewrite (map_target_writes _ _ m H7) by (cbn; rewrite E9; reflexivity).
  rewrite (one_hot_writes fr _ _ m H6)
    by (cbn; rewrite E5, E6, E7, E8; reflexivity).
  rewrite (encode_binary_writes _ _ m H5)
    by (cbn; rewrite E1, E2, E3, E4; reflexivity).
  rewrite (cap_outliers_writes _ _ m H4) by (cbn; rewrite E, E0; reflexivity).
  reflexivity.
Qed.

(** C10.  The two guarded steps return when their input columns are absent,
    assigning a null to every row; and whenever the transformer returns, its
    output holds the columns TotalIncome and Income_to_Loan_Ratio, which are
    null on every row when an income column, respectively the LoanAmount
    column, is absent from the batch. *)
Theorem C10_derived_columns_always_added :
  forall fr pn d,
    (incomes_present d = false ->
     total_income d = Ok (set_col "TotalIncome" (repeat NA (nrows d)) d))
    /\ (has_col "LoanAmount" d = false ->
        income_to_loan d
        = Ok (set_col "Income_to_Loan_Ratio" (repeat NA (nrows d)) d))
    /\ (forall out,
           clean_raw_df fr pn d = Ok out ->
           exists t r,
             get_col "TotalIncome" out = Some t
             /\ get_col "Income_to_Loan_Ratio" out = Some r
             /\ (incomes_present d = false -> t = repeat NA (nrows d))
             /\ (has_col "LoanAmount" d = false -> r = repeat NA (nrows d))).
Proof.
  intros fr pn d; split; [|split].
  - intro H; unfold total_income; rewrite H; reflexivity.
  - intro H; unfold income_to_loan.
    rewrite has_col_get_col in H.
    destruct (get_col "LoanAmount" d); [discriminate H|reflexivity].
  - intros out Hclean.
    apply clean_raw_df_inv in Hclean.
    destruct Hclean as [d1 [d2 [d3 [d4 [d5 [d6 [H1 [H2 [H3 [H4 [H5 [H6 H7]]]]]]]]]]]].
    apply engineer_inv in H3; destruct H3 as [e1 [e2 [Ht [Hr Ha]]]].
    destruct (impute_stable _ _ H1) as [R1 N1].
    destruct (dependents_cleanup_stable fr pn _ _ H2) as [R2 N2].
    assert (Hinc : incomes_present d2 = incomes_present d).
    { unfold incomes_present, has_col; rewrite N2, N1; reflexivity. }
    assert (Hla : has_col "LoanAmount" d2 = has_col "LoanAmount" d).
    { unfold has_col; rewrite N2, N1; reflexivity. }
    apply total_income_inv in Ht; destruct Ht as [t [He1 Ht]].
    pose proof (income_to_loan_inv _ _ Hr) as Hr'.
    assert (Hla1 : get_col "LoanAmount" e1 = get_col "LoanAmount" d2).
    { subst e1; apply get_col_set_col_other; reflexivity. }
    assert (Hrow1 : nrows e1 = nrows d) by (subst e1; cbn; congruence).
    assert (Hti : get_col "TotalIncome" out = Some t).
    { rewrite (kept_after_engineer fr _ _ _ _ _ _ H4 H5 H6 H7) by reflexivity.
      rewrite (applicant_to_coapp_writes _ _ _ Ha) by reflexivity.
      rewrite (income_to_loan_writes _ _ _ Hr) by reflexivity.
      subst e1; apply get_col_set_col_same. }
    assert (Hir : exists r, get_col "Income_to_Loan_Ratio" e2 = Some r
                            /\ (get_col "LoanAmount" e1 = None ->
                                r = repeat NA (nrows e1))).
    { destruct (get_col "LoanAmount" e1) as [la|].
      - destruct Hr' as [m [t' [r [_ [_ [_ ->]]]]]].
        exists r; split; [apply get_col_set_col_same|discriminate].
      - subst e2; exists (broadcast e1 NA); split;
          [apply get_col_set_col_same|reflexivity]. }
    destruct Hir as [r [Hr1 Hr2]].
    exists t, r; repeat split.
    + exact Hti.
    + rewrite (kept_after_engineer fr _ _ _ _ _ _ H4 H5 H6 H7) by reflexivity.
      rewrite (applicant_to_coapp_writes _ _ _ Ha) by reflexivity.
      exact Hr1.
    + intro Habs; rewrite <- Hinc in Habs; rewrite Habs in Ht.
      subst t; unfold broadcast; congruence.
    + intro Habs; rewrite <- Hrow1; apply Hr2.
      rewrite Hla1; rewrite <- Hla, has_col_get_col in Habs.
      destruct (get_col "LoanAmount" d2); [discriminate Habs|reflexivity].
Qed.

(** ** Blocks of guarded assignments *)

Lemma impute_assignments : forall d, impute d = assignments impute_table d.
Proof. reflexivity. Qed.

Lemma cap_outliers_assignments :
  forall d, cap_outliers d = assignments cap_table d.
Proof. reflexivity. Qed.

Lemma encode_binary_assignments :
  forall d, encode_binary d = assignments encode_table d.
Proof. reflexivity. Qed.

Lemma assignments_cons :
  forall n f t d,
    assignments ((n, f) :: t) d = (x <- on_col n f d ;; assignments t x).
Proof.
  intros n f [|p t] d; [|reflexivity].
  cbn; destruct (on_col n f d); reflexivity.
Qed.

Lemma assignments_writes :
  forall t, writes (map fst t) (assignments t).
Proof.
  induction t as [|[n f] t IH]; intros d d' m H Hm.
  - cbn in H; congruence.
  - rewrite assignments_cons in H; apply bind_ok in H.
    destruct H as [x [H1 H2]].
    cbn in Hm; apply orb_false_elim in Hm; destruct Hm as [Hn Ht].
    rewrite (IH _ _ _ H2 Ht).
    apply (on_col_writes n f _ _ m H1); cbn; rewrite Hn; reflexivity.
Qed.

Lemma mem_false_not_in :
  forall m l, ~ In m l -> mem m l = false.
Proof.
  intros m l H; unfold mem; induction l as [|a l IH]; cbn; [reflexivity|].
  destruct (String.eqb m a) eqn:E.
  - apply String.eqb_eq in E; subst a; exfalso; apply H; left; reflexivity.
  - apply IH; intro Hin; apply H; right; exact Hin.
Qed.

(** The column a block leaves under a name it assigns once: the image of
    the column the block found there. *)
Lemma assignments_column :
  forall t n f d d' s',
    NoDup (map fst t) -> In (n, f) t ->
    assignments t d = Ok d' -> get_col n d' = Some s' ->
    exists s, get_col n d = Some s /\ f s = Ok s'.
Proof.
  induction t as [|[k g] t IH]; intros n f d d' s' Hnd Hin H Hget;
    [destruct Hin|].
  rewrite assignments_cons in H; apply bind_ok in H.
  destruct H as [x [H1 H2]].
  cbn in Hnd; inversion Hnd as [|? ? Hk Hnd']; subst.
  destruct Hin as [Heq|Hin].
  - injection Heq as -> ->.
    rewrite (assignments_writes t _ _ n H2 (mem_false_not_in _ _ Hk)) in Hget.
    apply (on_col_result _ _ _ _ _ H1 Hget).
  - destruct (IH n f x d' s' Hnd' Hin H2 Hget) as [s [Hs Hf]].
    exists s; split; [|exact Hf].
    rewrite <- Hs; symmetry.
    apply (on_col_writes k g _ _ n H1).
    cbn; rewrite orb_false_r.
    destruct (String.eqb n k) eqn:E; [|reflexivity].
    apply String.eqb_eq in E; subst k.
    exfalso; apply Hk; apply (in_map fst _ _ Hin).
Qed.

Lemma NoDup_impute_table : NoDup (map fst impute_table).
Proof.
  cbn; repeat (constructor; [cbn; intuition discriminate|]); constructor.
Qed.

Lemma NoDup_cap_table : NoDup (map fst cap_table).
Proof.
  cbn; repeat (constructor; [cbn; intuition discriminate|]); constructor.
Qed.

Lemma NoDup_encode_table : NoDup (map fst encode_table).
Proof.
  cbn; repeat (constructor; [cbn; intuition discriminate|]); constructor.
Qed.

(** ** Columns *)

Lemma mapM_inv :
  forall (A B : Type) (f : A -> result B) l l',
    mapM f l = Ok l' ->
    List.length l' = List.length l
    /\ forall i a, nth_error l i = Some a ->
                   exists b, f a = Ok b /\ nth_error l' i = Some b.
Proof.
  intros A B f; induction l as [|x l IH]; intros l' H; cbn in H.
  - injection H as <-; split; [reflexivity|].
    intros [|i] a Ha; discriminate Ha.
  - apply bind_ok in H; destruct H as [b [Hb H]].
    apply bind_ok in H; destruct H as [bs [Hbs H]].
    injection H as <-; destruct (IH _ Hbs) as [Hlen Hnth].
    split; [cbn; congruence|].
    intros [|i] a Ha; cbn in Ha |- *.
    + injection Ha as <-; exists b; split; [exact Hb|reflexivity].
    + apply Hnth; exact Ha.
Qed.

Lemma mapM_forall :
  forall (A B : Type) (f : A -> result B) (P : B -> bool) l l',
    (forall a b, f a = Ok b -> P b = true) ->
    mapM f l = Ok l' -> forallb P l' = true.
Proof.
  intros A B f P; induction l as [|x l IH]; intros l' HP H; cbn in H.
  - injection H as <-; reflexivity.
  - apply bind_ok in H; destruct H as [b [Hb H]].
    apply bind_ok in H; destruct H as [bs [Hbs H]].
    injection H as <-; cbn; rewrite (HP _ _ Hb), (IH _ HP Hbs); reflexivity.
Qed.

Lemma astype_int_cell_int :
  forall c b, astype_int_cell c = Ok b -> is_int b = true.
Proof.
  intros [|z|[q| |]|s] b H; cbn in H; try discriminate H;
    injection H as <-; reflexivity.
Qed.

Lemma astype_int_ints :
  forall s s', astype_int s = Ok s' -> forallb is_int s' = true.
Proof.
  intros s s' H; apply (mapM_forall _ _ _ _ _ _ astype_int_cell_int H).
Qed.


Lemma fillna_nth :
  forall v s i c,
    nth_error s i = Some c ->
    nth_error (fillna v s) i = Some (if isnull c then v else c).
Proof.
  intros v s i c H; unfold fillna.
  apply (map_nth_error (fun c => if isnull c then v else c) _ _ H).
Qed.

(** ** Dependents *)


Lemma coerce_dependents_length :
  forall fr pn s,
    List.length (coerce_dependents fr pn s) = List.length s.
Proof.
  intros; unfold coerce_dependents, replace; rewrite !length_map; reflexivity.
Qed.

Lemma clean_dependents_inv :
  forall fr pn s s2,
    clean_dependents fr pn s = Ok s2 ->
    exists filled,
      astype_int filled = Ok s2
      /\ if any_null (coerce_dependents fr pn s)
         then exists m2, mode0 (coerce_dependents fr pn s) = Ok m2
                         /\ filled = fillna m2 (coerce_dependents fr pn s)
         else filled = coerce_dependents fr pn s.
Proof.
  intros fr pn s s2 H; unfold clean_dependents in H.
  apply bind_ok in H; destruct H as [filled [Hf H]].
  exists filled; split; [exact H|].
  destruct (any_null (coerce_dependents fr pn s)).
  - unfold fill_mode in Hf; apply bind_ok in Hf; destruct Hf as [m2 [Hm Hf]].
    exists m2; split; [exact Hm|congruence].
  - congruence.
Qed.

Lemma dependents_after_impute :
  forall d d1 dep,
    impute d = Ok d1 -> get_col "Dependents" d = Some dep ->
    exists m, mode0 dep = Ok m /\ get_col "Dependents" d1 = Some (fillna m dep).
Proof.
  intros d d1 dep H Hdep.
  assert (Hhas : has_col "Dependents" d1 = true).
  { rewrite (stable_has_col _ _ _ _ impute_stable H), has_col_get_col, Hdep.
    reflexivity. }
  rewrite has_col_get_col in Hhas.
  destruct (get_col "Dependents" d1) as [s1|] eqn:E; [|discriminate Hhas].
  rewrite impute_assignments in H.
  destruct (assignments_column impute_table "Dependents" fill_mode d d1 s1
              NoDup_impute_table) as [s [Hs Hf]];
    [cbn; tauto|exact H|exact E|].
  rewrite Hdep in Hs; injection Hs as <-.
  unfold fill_mode in Hf; apply bind_ok in Hf; destruct Hf as [m [Hm Hf]].
  exists m; split; [exact Hm|congruence].
Qed.


(** ** Categories of a column *)

Lemma cell_eqb_str :
  forall x c, cell_eqb x (Str c) = true <-> x = Str c.
Proof.
  intros x c; split.
  - destruct x as [|z|f|s]; cbn; try discriminate.
    intro H; apply String.eqb_eq in H; congruence.
  - intros ->; cbn; apply String.eqb_refl.
Qed.

Lemma in_insert_sorted :
  forall (A : Type) (leb : A -> A -> bool) x y l,
    In x (insert_sorted leb y l) <-> x = y \/ In x l.
Proof.
  intros A leb x y l; induction l as [|z l IH]; cbn; [intuition congruence|].
  destruct (leb y z); cbn; [intuition congruence|].
  rewrite IH; intuition congruence.
Qed.

Lemma in_sort :
  forall (A : Type) (leb : A -> A -> bool) x l, In x (sort leb l) <-> In x l.
Proof.
  intros A leb x l; induction l as [|y l IH]; cbn; [tauto|].
  rewrite in_insert_sorted, IH; intuition congruence.
Qed.

Lemma NoDup_insert_sorted :
  forall (A : Type) (leb : A -> A -> bool) y l,
    ~ In y l -> NoDup l -> NoDup (insert_sorted leb y l).
Proof.
  intros A leb y l; induction l as [|z l IH]; intros Hy Hl; cbn.
  - constructor; [exact Hy|constructor].
  - destruct (leb y z); [constructor; assumption|].
    inversion Hl as [|? ? Hz Hl']; subst.
    constructor.
    + rewrite in_insert_sorted; intros [->|Hin]; [|exact (Hz Hin)].
      apply Hy; left; reflexivity.
    + apply IH; [intro Hin; apply Hy; right; exact Hin|exact Hl'].
Qed.

Lemma NoDup_sort :
  forall (A : Type) (leb : A -> A -> bool) l, NoDup l -> NoDup (sort leb l).
Proof.
  intros A leb l; induction l as [|y l IH]; intro H; cbn; [constructor|].
  inversion H as [|? ? Hy Hl]; subst.
  apply NoDup_insert_sorted; [|apply IH; exact Hl].
  intro Hin; apply Hy; apply (proj1 (in_sort A leb y l)); exact Hin.
Qed.

Lemma in_distinct :
  forall x l, In x (distinct l) -> In x l.
Proof.
  intros x l; induction l as [|c l IH]; cbn; [tauto|].
  intros [->|Hin]; [left; reflexivity|].
  apply filter_In in Hin; right; apply IH; apply Hin.
Qed.

Lemma in_distinct_str :
  forall c l, In (Str c) l -> In (Str c) (distinct l).
Proof.
  intros c l; induction l as [|x l IH]; cbn; [tauto|].
  intros [->|Hin]; [left; reflexivity|].
  destruct (cell_eqb (Str c) x) eqn:E.
  - left; destruct x as [|z|f|s]; cbn in E; try discriminate E.
    apply String.eqb_eq in E; congruence.
  - right; apply filter_In; split; [apply IH; exact Hin|].
    rewrite E; reflexivity.
Qed.

Lemma cell_eqb_refl :
  forall c, isnull c = false -> cell_eqb c c = true.
Proof.
  intros [|z|[q| |]|t] H; try discriminate H; cbn; try reflexivity.
  - unfold feqb, fleb; rewrite andb_diag; apply Qle_bool_iff, Qle_refl.
  - unfold feqb, fleb; rewrite andb_diag; apply Qle_bool_iff, Qle_refl.
  - apply String.eqb_refl.
Qed.

Lemma NoDup_distinct :
  forall l, forallb (fun c => negb (isnull c)) l = true -> NoDup (distinct l).
Proof.
  induction l as [|x l IH]; cbn; intro H; [constructor|].
  apply andb_prop in H; destruct H as [Hx Hl].
  constructor.
  - intro Hin; apply filter_In in Hin; destruct Hin as [_ Hne].
    apply negb_true_iff in Hx; rewrite (cell_eqb_refl x Hx) in Hne.
    discriminate Hne.
  - apply NoDup_filter; apply IH; exact Hl.
Qed.

Lemma dropna_not_null :
  forall s, forallb (fun c => negb (isnull c)) (dropna s) = true.
Proof.
  intro s; apply forallb_forall; intros x Hx; unfold dropna in Hx.
  apply filter_In in Hx; apply Hx.
Qed.

Lemma categories_NoDup : forall s, NoDup (categories s).
Proof. intro s; apply NoDup_sort, NoDup_distinct, dropna_not_null. Qed.

(** *** Names of categories *)

Lemma str_of_Z_initial : forall z, other_initial (str_of_Z z) = true.
Proof.
  intro z; unfold str_of_Z.
  destruct (Z.to_int z) as [u|u]; cbn; [destruct u|]; reflexivity.
Qed.

Lemma other_initial_no_category :
  forall s, other_initial s = true -> mem s area_categories = false.
Proof.
  intros s H; destruct s as [|a s]; [discriminate H|].
  cbn in *; apply negb_true_iff in H.
  apply orb_false_elim in H; destruct H as [H HU].
  apply orb_false_elim in H; destruct H as [HR HS].
  rewrite HR, HS, HU; reflexivity.
Qed.

Lemma repr_decimal_no_category : prints_no_category repr_decimal.
Proof.
  intro x; apply other_initial_no_category.
  destruct x as [q| |]; try reflexivity.
  unfold repr_decimal.
  destruct (Qnum q <? 0)%Z; [reflexivity|].
  cbn [append].
  pose proof (str_of_Z_initial (Z.abs (Qnum q) / Z.pos (Qden q))) as H.
  destruct (str_of_Z (Z.abs (Qnum q) / Z.pos (Qden q))); [discriminate H|].
  exact H.
Qed.

(** A value whose dummy column bears the name of a category is that
    category. *)
Lemma label_category :
  forall fr c x,
    prints_no_category fr -> mem c area_categories = true ->
    label fr x = c -> x = Str c.
Proof.
  intros fr c x Hfr Hc Hx; subst c.
  destruct x as [|z|f|t]; cbn in Hc.
  - discriminate Hc.
  - change (mem (str_of_Z z) area_categories = true) in Hc.
    rewrite (other_initial_no_category _ (str_of_Z_initial z)) in Hc.
    discriminate Hc.
  - change (mem (fr f) area_categories = true) in Hc.
    rewrite (Hfr f) in Hc; discriminate Hc.
  - reflexivity.
Qed.

Lemma categories_has :
  forall c s, In (Str c) (categories s) <-> has_category c s = true.
Proof.
  intros c s; unfold categories, has_category.
  rewrite in_sort, existsb_exists; split.
  - intro H; apply in_distinct in H; unfold dropna in H.
    apply filter_In in H; exists (Str c); split; [apply H|].
    apply cell_eqb_str; reflexivity.
  - intros [x [Hx Hc]]; apply cell_eqb_str in Hc; subst x.
    apply in_distinct_str; unfold dropna; apply filter_In; split;
      [exact Hx|reflexivity].
Qed.

(** ** The dummy columns *)

Lemma no_category :
  forall c cats,
    ~ In (Str c) cats -> existsb (fun x => cell_eqb x (Str c)) cats = false.
Proof.
  intros c cats H; destruct (existsb _ cats) eqn:E; [|reflexivity].
  apply existsb_exists in E; destruct E as [x [Hx Hc]].
  apply cell_eqb_str in Hc; subst x; contradiction.
Qed.

Lemma named_dummies :
  forall fr area c cats,
    prints_no_category fr -> mem c area_categories = true -> NoDup cats ->
    filter (fun kv => String.eqb (fst kv) ("Property_" ++ c))
           (map (fun cat => (("Property" ++ "_" ++ label fr cat)%string,
                             map (indicator cat) area)) cats)
    = if existsb (fun x => cell_eqb x (Str c)) cats
      then [(("Property_" ++ c)%string, map (indicator (Str c)) area)]
      else [].
Proof.
  intros fr area c cats Hfr Hc; induction cats as [|x cats IH]; intro Hnd;
    [reflexivity|].
  inversion Hnd as [|? ? Hx Hnd']; subst.
  specialize (IH Hnd').
  cbn [map filter existsb fst].
  replace (String.eqb ("Property" ++ "_" ++ label fr x) ("Property_" ++ c))
    with (String.eqb (label fr x) c) by reflexivity.
  destruct (String.eqb (label fr x) c) eqn:E.
  - apply String.eqb_eq in E.
    pose proof (label_category fr c x Hfr Hc E) as ->.
    assert (Hl : label fr (Str c) = c) by reflexivity.
    rewrite Hl, IH, (no_category c cats Hx).
    cbn; rewrite String.eqb_refl; reflexivity.
  - destruct (cell_eqb x (Str c)) eqn:Ex; [|exact IH].
    apply cell_eqb_str in Ex; subst x; cbn in E.
    rewrite String.eqb_refl in E; discriminate E.
Qed.

Lemma set_assoc_absent :
  forall n s cols, lookup n cols = None -> set_assoc n s cols = cols ++ [(n, s)].
Proof.
  intros n s cols; induction cols as [|[k v] cols IH]; cbn; [reflexivity|].
  destruct (String.eqb n k); [discriminate|].
  intro H; rewrite (IH H); reflexivity.
Qed.

Lemma set_assoc_unchanged :
  forall n s cols, lookup n cols = Some s -> set_assoc n s cols = cols.
Proof.
  intros n s cols; induction cols as [|[k v] cols IH]; cbn; [discriminate|].
  destruct (String.eqb n k); [intro H; injection H as ->; reflexivity|].
  intro H; rewrite (IH H); reflexivity.
Qed.

Lemma has_col_named :
  forall n p,
    has_col n p = match named n p with [] => false | _ :: _ => true end.
Proof.
  intros n [r cols]; unfold has_col, named, names; cbn.
  induction cols as [|[k v] cols IH]; cbn; [reflexivity|].
  rewrite (String.eqb_sym k n); destruct (String.eqb n k); [reflexivity|exact IH].
Qed.

Lemma ensure_column_nrows :
  forall n p, nrows (ensure_column n p) = nrows p.
Proof. intros n p; unfold ensure_column; destruct (has_col n p); reflexivity. Qed.

Lemma ensure_column_other :
  forall x y p, String.eqb y x = false -> named x (ensure_column y p) = named x p.
Proof.
  intros x y p Hxy; unfold ensure_column.
  destruct (has_col y p) eqn:E; [reflexivity|]; cbn [negb].
  rewrite has_col_get_col in E.
  destruct (get_col y p) eqn:G; [discriminate E|].
  unfold named, set_col; cbn [columns].
  rewrite (set_assoc_absent _ _ _ G), filter_app; cbn; rewrite Hxy.
  apply app_nil_r.
Qed.

Lemma ensure_column_same :
  forall x p,
    named x (ensure_column x p)
    = if has_col x p then named x p else [(x, repeat (Int 0) (nrows p))].
Proof.
  intros x p; unfold ensure_column.
  destruct (has_col x p) eqn:E; [reflexivity|]; cbn [negb].
  pose proof E as E'; rewrite has_col_named in E'.
  rewrite has_col_get_col in E.
  destruct (get_col x p) eqn:G; [discriminate E|].
  unfold set_col; unfold named at 1; cbn [columns].
  rewrite (set_assoc_absent _ _ _ G), filter_app; cbn.
  rewrite String.eqb_refl; fold (named x p).
  destruct (named x p); [reflexivity|discriminate E'].
Qed.

Lemma categories_has_bool :
  forall c s,
    existsb (fun x => cell_eqb x (Str c)) (categories s) = has_category c s.
Proof.
  intros c s; destruct (has_category c s) eqn:E.
  - apply categories_has in E; apply existsb_exists.
    exists (Str c); split; [exact E|apply cell_eqb_str; reflexivity].
  - apply no_category; intro H; apply categories_has in H; congruence.
Qed.

Lemma named_get_dummies :
  forall fr n area c,
    prints_no_category fr -> mem c area_categories = true ->
    named ("Property_" ++ c) (get_dummies fr n area "Property")
    = if has_category c area
      then [(("Property_" ++ c)%string, map (indicator (Str c)) area)]
      else [].
Proof.
  intros fr n area c Hfr Hc; rewrite <- categories_has_bool.
  exact (named_dummies fr area c (categories area) Hfr Hc
           (categories_NoDup area)).
Qed.

(** Lines 129-135: the three columns selected from [prop_dummies]. *)
Lemma select_dummies :
  forall fr n area,
    prints_no_category fr ->
    select_cols property_columns
      (fold_left (fun p col => ensure_column col p) property_columns
                 (get_dummies fr n area "Property"))
    = mkFrame n [("Property_Rural", dummy "Rural" area n);
                 ("Property_Semiurban", dummy "Semiurban" area n);
                 ("Property_Urban", dummy "Urban" area n)].
Proof.
  intros fr n area Hfr.
  unfold select_cols, property_columns; cbn [fold_left flat_map].
  set (p0 := get_dummies fr n area "Property").
  fold (named "Property_Rural"
          (ensure_column "Property_Urban"
             (ensure_column "Property_Semiurban"
                (ensure_column "Property_Rural" p0)))).
  fold (named "Property_Semiurban"
          (ensure_column "Property_Urban"
             (ensure_column "Property_Semiurban"
                (ensure_column "Property_Rural" p0)))).
  fold (named "Property_Urban"
          (ensure_column "Property_Urban"
             (ensure_column "Property_Semiurban"
                (ensure_column "Property_Rural" p0)))).
  rewrite !ensure_column_nrows.
  rewrite (ensure_column_other "Property_Rural" "Property_Urban") by reflexivity.
  rewrite (ensure_column_other "Property_Rural" "Property_Semiurban")
    by reflexivity.
  rewrite (ensure_column_other "Property_Semiurban" "Property_Urban")
    by reflexivity.
  rewrite !ensure_column_same, !ensure_column_nrows.
  rewrite !has_col_named.
  rewrite (ensure_column_other "Property_Urban" "Property_Semiurban")
    by reflexivity.
  rewrite (ensure_column_other "Property_Urban" "Property_Rural") by reflexivity.
  rewrite (ensure_column_other "Property_Semiurban" "Property_Rural")
    by reflexivity.
  pose proof (named_get_dummies fr n area "Rural" Hfr eq_refl) as HR.
  pose proof (named_get_dummies fr n area "Semiurban" Hfr eq_refl) as HS.
  pose proof (named_get_dummies fr n area "Urban" Hfr eq_refl) as HU.
  cbn [append] in HR, HS, HU; fold p0 in HR, HS, HU.
  rewrite HR, HS, HU; unfold dummy.
  change (nrows p0) with n.
  destruct (has_category "Rural" area), (has_category "Semiurban" area),
    (has_category "Urban" area); reflexivity.
Qed.

Lemma astype_int_ints_id :
  forall s, forallb is_int s = true -> astype_int s = Ok s.
Proof.
  unfold astype_int; induction s as [|c s IH]; cbn; intro H; [reflexivity|].
  apply andb_prop in H; destruct H as [Hc Hs].
  destruct c; try discriminate Hc; cbn; rewrite (IH Hs); reflexivity.
Qed.

Lemma cast_int_ints :
  forall n d s,
    get_col n d = Some s -> forallb is_int s = true -> cast_int n d = Ok d.
Proof.
  intros n [r cols] s Hget Hint; unfold cast_int, getitem; rewrite Hget; cbn.
  rewrite (astype_int_ints_id s Hint); cbn.
  unfold set_col; cbn; unfold get_col in Hget; cbn in Hget.
  rewrite (set_assoc_unchanged _ _ _ Hget); reflexivity.
Qed.

Lemma dummy_ints :
  forall c area n, forallb is_int (dummy c area n) = true.
Proof.
  intros c area n; unfold dummy; destruct (has_category c area).
  - induction area as [|x area IH]; cbn; [reflexivity|].
    rewrite IH; unfold indicator; destruct (cell_eqb x (Str c)); reflexivity.
  - induction n as [|n IH]; cbn; [reflexivity|exact IH].
Qed.

Lemma with_dummies_column :
  forall area d n,
    mem n property_columns = true -> get_col n d = None ->
    get_col n (with_dummies area d)
    = lookup n [("Property_Rural", dummy "Rural" area (nrows d));
                ("Property_Semiurban", dummy "Semiurban" area (nrows d));
                ("Property_Urban", dummy "Urban" area (nrows d))].
Proof.
  intros area d n Hn Hd; unfold with_dummies, get_col; cbn [columns].
  rewrite lookup_app, lookup_drop_other.
  - unfold get_col in Hd; rewrite Hd; reflexivity.
  - cbn in *; rewrite orb_false_r.
    destruct (String.eqb n "Property_Area") eqn:E; [|reflexivity].
    apply String.eqb_eq in E; subst n; discriminate Hn.
Qed.

Lemma one_hot_result :
  forall fr d area,
    get_col "Property_Area" d = Some area ->
    prints_no_category fr ->
    get_col "Property_Rural" d = None ->
    get_col "Property_Semiurban" d = None ->
    get_col "Property_Urban" d = None ->
    one_hot_property_area fr d = Ok (with_dummies area d).
Proof.
  intros fr d area Hpa Hfr HR HS HU.
  unfold one_hot_property_area; rewrite Hpa.
  unfold attach_dummies; rewrite (select_dummies fr (nrows d) area Hfr).
  change (concat_cols (drop_cols ["Property_Area"] d)
            (mkFrame (nrows d)
               [("Property_Rural", dummy "Rural" area (nrows d));
                ("Property_Semiurban", dummy "Semiurban" area (nrows d));
                ("Property_Urban", dummy "Urban" area (nrows d))]))
    with (with_dummies area d).
  unfold cast_dummies.
  rewrite (cast_int_ints "Property_Rural" _ (dummy "Rural" area (nrows d)));
    [cbn [bind]| rewrite with_dummies_column by (reflexivity || assumption);
                 reflexivity | apply dummy_ints].
  rewrite (cast_int_ints "Property_Semiurban" _
             (dummy "Semiurban" area (nrows d)));
    [cbn [bind]| rewrite with_dummies_column by (reflexivity || assumption);
                 reflexivity | apply dummy_ints].
  apply (cast_int_ints "Property_Urban" _ (dummy "Urban" area (nrows d)));
    [rewrite with_dummies_column by (reflexivity || assumption); reflexivity
    |apply dummy_ints].
Qed.

Lemma dummy_nth :
  forall c area n i r,
    nth_error (dummy c area n) i = Some r ->
    r = Int 0
    \/ exists x, nth_error area i = Some x /\ r = indicator (Str c) x.
Proof.
  intros c area n i r H; unfold dummy in H.
  destruct (has_category c area).
  - right; rewrite nth_error_map in H.
    destruct (nth_error area i) as [x|]; [|discriminate H].
    exists x; split; [reflexivity|]; cbn in H; congruence.
  - left; apply nth_error_In, repeat_spec in H; exact H.
Qed.

(** A cell raises at most one of the three indicators. *)
Lemma indicators_exclusive :
  forall x,
    exists a b c : Z,
      indicator (Str "Rural") x = Int a
      /\ indicator (Str "Semiurban") x = Int b
      /\ indicator (Str "Urban") x = Int c
      /\ (a = 0 \/ a = 1) /\ (b = 0 \/ b = 1) /\ (c = 0 \/ c = 1)
      /\ a + b + c <= 1.
Proof.
  intro x; unfold indicator.
  destruct (cell_eqb x (Str "Rural")) eqn:ER;
    destruct (cell_eqb x (Str "Semiurban")) eqn:ES;
    destruct (cell_eqb x (Str "Urban")) eqn:EU;
    try (apply cell_eqb_str in ER); try (apply cell_eqb_str in ES);
    try (apply cell_eqb_str in EU); subst; try discriminate;
    do 3 eexists; repeat split; try reflexivity; try (left; reflexivity);
    try (right; reflexivity); lia.
Qed.

(** ** One-hot encoding of Property_Area *)

Lemma names_set_col_in :
  forall n k s d, In n (names (set_col k s d)) -> n = k \/ In n (names d).
Proof.
  intros n k s [r cols]; unfold names, set_col; cbn.
  induction cols as [|[k' v] cols IH]; cbn.
  - intros [H|[]]; left; congruence.
  - destruct (String.eqb k k'); cbn; intros [H|H]; tauto.
Qed.

Lemma get_col_in_names :
  forall n d s, get_col n d = Some s -> In n (names d).
Proof.
  intros n [r cols] s; unfold get_col, names; cbn.
  induction cols as [|[k v] cols IH]; cbn; [discriminate|].
  destruct (String.eqb n k) eqn:E; [|intro H; right; exact (IH H)].
  apply String.eqb_eq in E; left; congruence.
Qed.

Lemma engineer_rows_names :
  forall d d',
    engineer d = Ok d' ->
    nrows d' = nrows d
    /\ forall n, In n (names d') -> In n (names d) \/ In n derived_columns.
Proof.
  intros d d' H; apply engineer_inv in H; destruct H as [e1 [e2 [H1 [H2 H3]]]].
  apply total_income_inv in H1; destruct H1 as [t [-> _]].
  apply income_to_loan_inv in H2; apply applicant_to_coapp_inv in H3.
  assert (H2' : nrows e2 = nrows d
                /\ forall n, In n (names e2) ->
                             In n (names d) \/ In n derived_columns).
  { destruct (get_col "LoanAmount" (set_col "TotalIncome" t d)) eqn:G.
    - destruct H2 as [m [t' [r [_ [_ [_ ->]]]]]]; split; [reflexivity|].
      intros n Hn.
      apply names_set_col_in in Hn; destruct Hn as [->|Hn]; [cbn; tauto|].
      apply names_set_col_in in Hn; destruct Hn as [->|Hn].
      + left; rewrite get_col_set_col_other in G by reflexivity.
        apply (get_col_in_names _ _ _ G).
      + apply names_set_col_in in Hn; destruct Hn as [->|Hn]; cbn; tauto.
    - subst e2; split; [reflexivity|].
      intros n Hn.
      apply names_set_col_in in Hn; destruct Hn as [->|Hn]; [cbn; tauto|].
      apply names_set_col_in in Hn; destruct Hn as [->|Hn]; cbn; tauto. }
  destruct H2' as [R2 N2].
  destruct (incomes_present e2).
  - destruct H3 as [a [c [q [_ [_ [_ ->]]]]]]; split; [exact R2|].
    intros n Hn.
    apply names_set_col_in in Hn; destruct Hn as [->|Hn]; [cbn; tauto|].
    apply N2; exact Hn.
  - subst d'; split; assumption.
Qed.

Lemma map_fst_filter :
  forall (P : string -> bool) (cols : list (string * Series)),
    map fst (filter (fun kv => P (fst kv)) cols) = filter P (map fst cols).
Proof.
  intros P cols; induction cols as [|[k v] cols IH]; cbn; [reflexivity|].
  destruct (P k); cbn; rewrite IH; reflexivity.
Qed.

Lemma names_with_dummies :
  forall area d,
    names (with_dummies area d)
    = filter (fun n => negb (mem n ["Property_Area"])) (names d)
      ++ property_columns.
Proof.
  intros area [r cols]; unfold names, with_dummies; cbn [columns].
  rewrite map_app; f_equal.
  apply (map_fst_filter (fun n => negb (mem n ["Property_Area"]))).
Qed.

Lemma not_has_col :
  forall n d, has_col n d = false -> ~ In n (names d).
Proof.
  intros n d H Hin; unfold has_col in H.
  assert (E : existsb (String.eqb n) (names d) = true).
  { apply existsb_exists; exists n; split; [exact Hin|apply String.eqb_refl]. }
  congruence.
Qed.

(** C6.  On a batch with a Property_Area column, and no column under the
    name of a dummy, the output has no Property_Area column and ends with
    the three columns Property_Rural, Property_Semiurban and
    Property_Urban, the only columns the step adds.
    Each is the indicator of its category, or 0 on every row when the
    category is absent from the batch; on each row the three values are
    integers among 0 and 1 and at most one of them is 1. *)
Theorem C6_property_area_one_hot :
  forall fr pn d area out,
    prints_no_category fr ->
    get_col "Property_Area" d = Some area ->
    forallb (fun n => negb (has_col n d)) property_columns = true ->
    clean_raw_df fr pn d = Ok out ->
    has_col "Property_Area" out = false
    /\ get_col "Property_Rural" out = Some (dummy "Rural" area (nrows d))
    /\ get_col "Property_Semiurban" out
       = Some (dummy "Semiurban" area (nrows d))
    /\ get_col "Property_Urban" out = Some (dummy "Urban" area (nrows d))
    /\ (exists pre,
           names out = pre ++ property_columns
           /\ forall n, In n pre ->
                        n <> "Property_Area"%string
                        /\ ~ In n property_columns
                        /\ (In n (names d) \/ In n derived_columns))
    /\ (forall i r s u,
           nth_error (dummy "Rural" area (nrows d)) i = Some r ->
           nth_error (dummy "Semiurban" area (nrows d)) i = Some s ->
           nth_error (dummy "Urban" area (nrows d)) i = Some u ->
           exists a b c : Z,
             r = Int a /\ s = Int b /\ u = Int c
             /\ (a = 0 \/ a = 1) /\ (b = 0 \/ b = 1) /\ (c = 0 \/ c = 1)
             /\ a + b + c <= 1).
Proof.
  intros fr pn d area out Hfr Hpa Hfresh Hclean.
  cbn in Hfresh.
  apply andb_prop in Hfresh; destruct Hfresh as [FR Hfresh].
  apply andb_prop in Hfresh; destruct Hfresh as [FS Hfresh].
  apply andb_prop in Hfresh; destruct Hfresh as [FU _].
  apply negb_true_iff in FR, FS, FU.
  apply clean_raw_df_inv in Hclean.
  destruct Hclean as [d1 [d2 [d3 [d4 [d5 [d6 [H1 [H2 [H3 [H4 [H5 [H6 H7]]]]]]]]]]]].
  assert (Hkeep : forall m,
             mem m ["Property_Area"; "Property_Rural"; "Property_Semiurban";
                    "Property_Urban"] = true ->
             get_col m d5 = get_col m d).
  { intros m Hm.
    assert (Hm' : m = "Property_Area"%string \/ m = "Property_Rural"%string
                  \/ m = "Property_Semiurban"%string
                  \/ m = "Property_Urban"%string).
    { cbn in Hm; rewrite orb_false_r in Hm.
      repeat (apply orb_prop in Hm; destruct Hm as [Hm|Hm]);
        apply String.eqb_eq in Hm; tauto. }
    rewrite (encode_binary_writes _ _ m H5)
      by (destruct Hm' as [->|[->|[->| ->]]]; reflexivity).
    rewrite (cap_outliers_writes _ _ m H4)
      by (destruct Hm' as [->|[->|[->| ->]]]; reflexivity).
    rewrite (engineer_writes _ _ m H3)
      by (destruct Hm' as [->|[->|[->| ->]]]; reflexivity).
    rewrite (dependents_cleanup_writes fr pn _ _ m H2)
      by (destruct Hm' as [->|[->|[->| ->]]]; reflexivity).
    apply (impute_writes_ok _ _ m H1).
    destruct Hm' as [->|[->|[->| ->]]]; reflexivity. }
  assert (Habsent : forall m, has_col m d = false -> get_col m d = None).
  { intros m Hm; rewrite has_col_get_col in Hm.
    destruct (get_col m d); [discriminate Hm|reflexivity]. }
  destruct (impute_stable _ _ H1) as [R1 N1].
  destruct (dependents_cleanup_stable fr pn _ _ H2) as [R2 N2].
  destruct (engineer_rows_names _ _ H3) as [R3 N3].
  destruct (cap_outliers_stable _ _ H4) as [R4 N4].
  destruct (encode_binary_stable _ _ H5) as [R5 N5].
  destruct (map_target_stable _ _ H7) as [R7 N7].
  assert (Hrows : nrows d5 = nrows d) by congruence.
  assert (HA : get_col "Property_Area" d5 = Some area)
    by (rewrite Hkeep by reflexivity; exact Hpa).
  assert (HR : get_col "Property_Rural" d5 = None)
    by (rewrite Hkeep by reflexivity; apply Habsent; exact FR).
  assert (HS : get_col "Property_Semiurban" d5 = None)
    by (rewrite Hkeep by reflexivity; apply Habsent; exact FS).
  assert (HU : get_col "Property_Urban" d5 = None)
    by (rewrite Hkeep by reflexivity; apply Habsent; exact FU).
  rewrite (one_hot_result fr d5 area HA Hfr HR HS HU) in H6.
  injection H6 as <-.
  assert (Hcol : forall n,
             mem n property_columns = true -> has_col n d = false ->
             get_col n out
             = lookup n [("Property_Rural", dummy "Rural" area (nrows d));
                         ("Property_Semiurban", dummy "Semiurban" area (nrows d));
                         ("Property_Urban", dummy "Urban" area (nrows d))]).
  { intros n Hn Hd.
    rewrite (map_target_writes _ _ n H7).
    - rewrite with_dummies_column, Hrows; [reflexivity|exact Hn|].
      rewrite Hkeep; [apply Habsent; exact Hd|].
      cbn in *; rewrite Hn; apply orb_true_r.
    - cbn in *; rewrite orb_false_r.
      destruct (String.eqb n "Loan_Status") eqn:E; [|reflexivity].
      apply String.eqb_eq in E; subst n; discriminate Hn. }
  split; [|split; [|split; [|split; [|split]]]].
  - rewrite has_col_get_col, (map_target_writes _ _ _ H7) by reflexivity.
    unfold with_dummies, get_col; cbn [columns].
    rewrite lookup_app, lookup_drop_dropped by reflexivity; reflexivity.
  - rewrite Hcol by (reflexivity || assumption); reflexivity.
  - rewrite Hcol by (reflexivity || assumption); reflexivity.
  - rewrite Hcol by (reflexivity || assumption); reflexivity.
  - exists (filter (fun n => negb (mem n ["Property_Area"])) (names d5)).
    split; [rewrite N7; apply names_with_dummies|].
    intros n Hn; apply filter_In in Hn; destruct Hn as [Hn Hne].
    assert (Hsrc : In n (names d) \/ In n derived_columns).
    { rewrite N5, N4 in Hn; destruct (N3 n Hn) as [Hd|Hd]; [left|right; exact Hd].
      rewrite N2, N1 in Hd; exact Hd. }
    split; [|split; [|exact Hsrc]].
    + intros ->; discriminate Hne.
    + intros [<-|[<-|[<-|[]]]]; destruct Hsrc as [Hd|Hd];
        try (cbn in Hd; intuition discriminate).
      * exact (not_has_col _ _ FR Hd).
      * exact (not_has_col _ _ FS Hd).
      * exact (not_has_col _ _ FU Hd).
  - intros i r s u Hr Hs Hu.
    apply dummy_nth in Hr, Hs, Hu.
    destruct (nth_error area i) as [x|].
    + destruct (indicators_exclusive x)
        as [a [b [c [Ha [Hb [Hc [A [B [C Hsum]]]]]]]]].
      assert (Hr' : exists a', r = Int a' /\ (a' = 0 \/ a' = 1) /\ a' <= a).
      { destruct Hr as [->|[x' [Hx ->]]];
          [exists 0; repeat split; [left; reflexivity|lia]|].
        injection Hx as <-; exists a; repeat split; [exact Ha|exact A|lia]. }
      assert (Hs' : exists b', s = Int b' /\ (b' = 0 \/ b' = 1) /\ b' <= b).
      { destruct Hs as [->|[x' [Hx ->]]];
          [exists 0; repeat split; [left; reflexivity|lia]|].
        injection Hx as <-; exists b; repeat split; [exact Hb|exact B|lia]. }
      assert (Hu' : exists c', u = Int c' /\ (c' = 0 \/ c' = 1) /\ c' <= c).
      { destruct Hu as [->|[x' [Hx ->]]];
          [exists 0; repeat split; [left; reflexivity|lia]|].
        injection Hx as <-; exists c; repeat split; [exact Hc|exact C|lia]. }
      destruct Hr' as [a' [-> [A' La]]]; destruct Hs' as [b' [-> [B' Lb]]];
        destruct Hu' as [c' [-> [C' Lc]]].
      exists a', b', c'; repeat split; try assumption; lia.
    + destruct Hr as [->|[x [Hx _]]]; [|discriminate Hx].
      destruct Hs as [->|[x [Hx _]]]; [|discriminate Hx].
      destruct Hu as [->|[x [Hx _]]]; [|discriminate Hx].
      exists 0, 0, 0; repeat split; try (left; reflexivity); lia.
Qed.

(** ** Numeric columns *)

Lemma lookup_in :
  forall (n : string) (cols : list (string * Series)) s,
    lookup n cols = Some s -> In (n, s) cols.
Proof.
  intros n cols s; induction cols as [|[k v] cols IH]; cbn; [discriminate|].
  destruct (String.eqb n k) eqn:E; [|intro H; right; exact (IH H)].
  apply String.eqb_eq in E; intro H; left; congruence.
Qed.

Lemma raw_schema_column :
  forall d n s,
    raw_schema d = true -> get_col n d = Some s ->
    mem n raw_fields = true
    /\ (mem n numeric_fields = true -> forallb finite_cell s = true).
Proof.
  intros d n s Hraw Hget; unfold raw_schema in Hraw.
  rewrite forallb_forall in Hraw.
  specialize (Hraw (n, s) (lookup_in _ _ _ Hget)); cbn [fst snd] in Hraw.
  apply andb_prop in Hraw; destruct Hraw as [H1 H2]; split; [exact H1|].
  intro Hn; rewrite Hn in H2; exact H2.
Qed.

Lemma raw_schema_absent :
  forall d n,
    raw_schema d = true -> mem n raw_fields = false -> get_col n d = None.
Proof.
  intros d n Hraw Hn; destruct (get_col n d) as [s|] eqn:E; [|reflexivity].
  destruct (raw_schema_column d n s Hraw E) as [H _]; congruence.
Qed.

Lemma ints_are_numbers :
  forall s, forallb is_int s = true -> forallb is_number s = true.
Proof.
  induction s as [|c s IH]; cbn; [reflexivity|].
  intro H; apply andb_prop in H; destruct H as [Hc Hs].
  rewrite (IH Hs); destruct c; try discriminate Hc; reflexivity.
Qed.

Lemma finite_are_numbers :
  forall s, forallb finite_number s = true -> forallb is_number s = true.
Proof.
  induction s as [|c s IH]; cbn; [reflexivity|].
  intro H; apply andb_prop in H; destruct H as [Hc Hs].
  rewrite (IH Hs); destruct c as [| |[| |]|]; try discriminate Hc; reflexivity.
Qed.

Lemma fillna_finite :
  forall v s,
    finite_number v = true -> forallb finite_cell s = true ->
    forallb finite_number (fillna v s) = true.
Proof.
  intros v s Hv; unfold fillna; induction s as [|c s IH];
    cbn [map forallb]; [reflexivity|].
  intro H; apply andb_prop in H; destruct H as [Hc Hs].
  rewrite (IH Hs), andb_true_r.
  destruct c as [| |[| |]|]; try discriminate Hc; cbn; try reflexivity.
  exact Hv.
Qed.

Lemma mode0_in :
  forall s m, mode0 s = Ok m -> In m s /\ isnull m = false.
Proof.
  intros s m H; unfold mode0 in H.
  destruct (mode s) as [|x l] eqn:E; [discriminate H|].
  injection H as ->.
  assert (Hin : In m (mode s)) by (rewrite E; left; reflexivity).
  unfold mode in Hin; rewrite in_sort in Hin.
  apply filter_In in Hin; destruct Hin as [Hin _].
  apply in_distinct in Hin; unfold dropna in Hin.
  apply filter_In in Hin; destruct Hin as [Hin Hnull]; split; [exact Hin|].
  apply negb_true_iff in Hnull; exact Hnull.
Qed.

Lemma mode0_finite :
  forall s m,
    forallb finite_cell s = true -> mode0 s = Ok m -> finite_number m = true.
Proof.
  intros s m Hs Hm; destruct (mode0_in _ _ Hm) as [Hin Hnull].
  rewrite forallb_forall in Hs; specialize (Hs m Hin).
  destruct m as [| |[| |]|]; try discriminate; reflexivity.
Qed.

Lemma fill_mode_finite :
  forall s s',
    forallb finite_cell s = true -> fill_mode s = Ok s' ->
    forallb finite_number s' = true.
Proof.
  intros s s' Hs H; unfold fill_mode in H.
  apply bind_ok in H; destruct H as [m [Hm H]]; injection H as <-.
  apply fillna_finite; [apply (mode0_finite _ _ Hs Hm)|exact Hs].
Qed.

Lemma fill_credit_history_finite :
  forall s s',
    forallb finite_cell s = true -> fill_credit_history s = Ok s' ->
    forallb finite_number s' = true.
Proof.
  intros s s' Hs H; unfold fill_credit_history in H.
  destruct (mode s).
  - injection H as <-; apply fillna_finite; [reflexivity|exact Hs].
  - apply (fill_mode_finite _ _ Hs H).
Qed.

Lemma zipM_forall :
  forall (f : cell -> cell -> result cell) (P Q R : cell -> bool) a c t,
    (forall x y z, P x = true -> Q y = true -> f x y = Ok z -> R z = true) ->
    forallb P a = true -> forallb Q c = true ->
    zipM f a c = Ok t -> forallb R t = true.
Proof.
  intros f P Q R a; induction a as [|x a IH]; intros c t Hf Ha Hc H.
  - cbn in H; injection H as <-; reflexivity.
  - destruct c as [|y c]; [cbn in H; injection H as <-; reflexivity|].
    cbn in H, Ha, Hc.
    apply andb_prop in Ha; destruct Ha as [Hx Ha].
    apply andb_prop in Hc; destruct Hc as [Hy Hc].
    apply bind_ok in H; destruct H as [z [Hz H]].
    apply bind_ok in H; destruct H as [zs [Hzs H]]; injection H as <-.
    cbn; rewrite (Hf _ _ _ Hx Hy Hz), (IH _ _ Hf Ha Hc Hzs); reflexivity.
Qed.

Lemma cell_add_finite :
  forall x y z,
    finite_number x = true -> finite_number y = true ->
    cell_add x y = Ok z -> finite_number z = true.
Proof.
  intros x y r Hx Hy H.
  destruct x as [|a|[qa| |]|sa]; try discriminate Hx;
    destruct y as [|b|[qb| |]|sb]; try discriminate Hy;
    cbn in H; injection H as <-; reflexivity.
Qed.

Lemma Qzero_eqb :
  forall q, Qzero q = true -> feqb (Fin q) (Fin 0) = true.
Proof.
  intros q H; unfold Qzero in H; apply Qeq_bool_iff in H.
  unfold feqb, fleb; apply andb_true_intro; split; apply Qle_bool_iff;
    rewrite H; apply Qle_refl.
Qed.

Lemma ratio_cell_number :
  forall x y z,
    finite_number x = true -> finite_number y = true ->
    cell_div x y = Ok z ->
    is_number (as_float (if cell_eqb y (Int 0) then x else z)) = true.
Proof.
  intros x y r Hx Hy H.
  destruct (cell_eqb y (Int 0)) eqn:E.
  - destruct x as [|a|[qa| |]|sa]; try discriminate Hx; reflexivity.
  - assert (Hq : forall qa qb,
               feqb (Fin qb) (Fin 0) = false ->
               is_number (as_float (of_nan (fdiv (Fin qa) (Fin qb)))) = true).
    { intros qa qb Hne; unfold fdiv.
      destruct (Qzero qb) eqn:Z; [|reflexivity].
      rewrite (Qzero_eqb _ Z) in Hne; discriminate Hne. }
    destruct x as [|a|[qa| |]|sa]; try discriminate Hx;
      destruct y as [|b|[qb| |]|sb]; try discriminate Hy;
      cbn in H; injection H as <-; apply Hq; exact E.
Qed.

Lemma np_where_numbers :
  forall a c q,
    forallb finite_number a = true -> forallb finite_number c = true ->
    zipM cell_div a c = Ok q ->
    forallb is_number (np_where (map (fun x => cell_eqb x (Int 0)) c) a q)
    = true.
Proof.
  induction a as [|x a IH]; intros c q Ha Hc H.
  - destruct c; reflexivity.
  - destruct c as [|y c]; [reflexivity|].
    cbn in H, Ha, Hc.
    apply andb_prop in Ha; destruct Ha as [Hx Ha].
    apply andb_prop in Hc; destruct Hc as [Hy Hc].
    apply bind_ok in H; destruct H as [z [Hz H]].
    apply bind_ok in H; destruct H as [zs [Hzs H]]; injection H as <-.
    cbn [map np_where forallb].
    rewrite (IH _ _ Ha Hc Hzs), andb_true_r.
    set (k := cell_eqb y (Int 0)).
    replace (as_float (if k then x else z))
      with (as_float (if cell_eqb y (Int 0) then x else z)) by reflexivity.
    apply (ratio_cell_number _ _ _ Hx Hy Hz).
Qed.

Lemma cap_above_numbers :
  forall bound v s s',
    is_number v = true -> forallb is_number s = true ->
    cap_above bound v s = Ok s' -> forallb is_number s' = true.
Proof.
  intros bound v s s' Hv; revert s'; unfold cap_above.
  induction s as [|c s IH]; intros s' Hs H; cbn in H.
  - injection H as <-; reflexivity.
  - cbn in Hs; apply andb_prop in Hs; destruct Hs as [Hc Hs].
    apply bind_ok in H; destruct H as [b [Hb H]].
    apply bind_ok in H; destruct H as [bs [Hbs H]]; injection H as <-.
    apply bind_ok in Hb; destruct Hb as [k [_ Hb]]; injection Hb as <-.
    cbn; rewrite (IH _ Hs Hbs), andb_true_r.
    destruct k; assumption.
Qed.

Lemma cap_applicant_income_numbers :
  forall s s',
    forallb finite_number s = true -> cap_applicant_income s = Ok s' ->
    forallb is_number s' = true.
Proof.
  intros s s' Hs H; unfold cap_applicant_income in H.
  apply bind_ok in H; destruct H as [cap [_ H]].
  apply bind_ok in H; destruct H as [k [_ H]].
  apply (cap_above_numbers cap (Int k) s s' eq_refl (finite_are_numbers _ Hs) H).
Qed.

(** *** The median and the quantiles of finite values are finite *)

Lemma numeric_values_finite :
  forall s,
    forallb finite_cell s = true ->
    exists vs,
      numeric_values s = Ok vs /\ forallb ffinite vs = true
      /\ (all_null s = false -> vs <> []).
Proof.
  induction s as [|c s IH]; intro H; cbn in H.
  - exists []; repeat split; discriminate.
  - apply andb_prop in H; destruct H as [Hc Hs].
    destruct (IH Hs) as [vs [Hvs [Hfin Hne]]].
    destruct c as [|z|[q| |]|t]; try discriminate Hc; cbn; rewrite Hvs; cbn.
    + exists vs; repeat split; assumption.
    + exists (Fin (inject_Z z) :: vs); repeat split; [exact Hfin|discriminate].
    + exists (Fin q :: vs); repeat split; [exact Hfin|discriminate].
Qed.

Lemma forallb_insert_sorted :
  forall (A : Type) (leb : A -> A -> bool) (P : A -> bool) x l,
    forallb P (insert_sorted leb x l) = P x && forallb P l.
Proof.
  intros A leb P x l; induction l as [|y l IH]; cbn; [reflexivity|].
  destruct (leb x y); cbn; [reflexivity|].
  rewrite IH; destruct (P x), (P y); reflexivity.
Qed.

Lemma forallb_sort :
  forall (A : Type) (leb : A -> A -> bool) (P : A -> bool) l,
    forallb P (sort leb l) = forallb P l.
Proof.
  intros A leb P l; induction l as [|y l IH]; [reflexivity|].
  change (sort leb (y :: l)) with (insert_sorted leb y (sort leb l)).
  rewrite forallb_insert_sorted, IH; reflexivity.
Qed.

Lemma length_insert_sorted :
  forall (A : Type) (leb : A -> A -> bool) x l,
    List.length (insert_sorted leb x l) = S (List.length l).
Proof.
  intros A leb x l; induction l as [|y l IH]; cbn; [reflexivity|].
  destruct (leb x y); cbn; [reflexivity|rewrite IH; reflexivity].
Qed.

Lemma length_sort :
  forall (A : Type) (leb : A -> A -> bool) l,
    List.length (sort leb l) = List.length l.
Proof.
  intros A leb l; induction l as [|y l IH]; [reflexivity|].
  change (sort leb (y :: l)) with (insert_sorted leb y (sort leb l)).
  rewrite length_insert_sorted, IH; reflexivity.
Qed.

Lemma nth_finite :
  forall l i,
    forallb ffinite l = true -> exists q, nth i l (Fin 0) = Fin q.
Proof.
  induction l as [|x l IH]; intros i H.
  - exists 0%Q; destruct i; reflexivity.
  - cbn in H; apply andb_prop in H; destruct H as [Hx Hl].
    destruct i as [|i]; cbn; [|apply IH; exact Hl].
    destruct x as [q| |]; try discriminate Hx; exists q; reflexivity.
Qed.

Lemma sorted_values :
  forall s,
    forallb finite_cell s = true -> all_null s = false ->
    exists vs n,
      numeric_values s = Ok vs
      /\ List.length (sort fleb vs) = S n
      /\ forallb ffinite (sort fleb vs) = true.
Proof.
  intros s Hs Hnull.
  destruct (numeric_values_finite s Hs) as [vs [Hvs [Hfin Hne]]].
  specialize (Hne Hnull).
  destruct vs as [|v vs]; [contradiction|].
  exists (v :: vs), (List.length vs); repeat split.
  - exact Hvs.
  - rewrite length_sort; reflexivity.
  - rewrite forallb_sort; exact Hfin.
Qed.

Lemma median_finite :
  forall s,
    forallb finite_cell s = true -> all_null s = false ->
    exists q, median s = Ok (Flt (Fin q)).
Proof.
  intros s Hs Hnull.
  destruct (sorted_values s Hs Hnull) as [vs [n [Hvs [Hlen Hfin]]]].
  unfold median; rewrite Hvs; cbn [bind]; rewrite Hlen.
  destruct (Nat.odd (S n)).
  - destruct (nth_finite _ (S n / 2) Hfin) as [q ->]; exists q; reflexivity.
  - destruct (nth_finite _ (S n / 2 - 1) Hfin) as [a ->].
    destruct (nth_finite _ (S n / 2) Hfin) as [b ->].
    eexists; reflexivity.
Qed.

Lemma quantile_finite :
  forall p s,
    forallb finite_cell s = true -> all_null s = false ->
    exists q, quantile p s = Ok (Flt (Fin q)).
Proof.
  intros p s Hs Hnull.
  destruct (sorted_values s Hs Hnull) as [vs [n [Hvs [Hlen Hfin]]]].
  unfold quantile; rewrite Hvs; cbn [bind]; rewrite Hlen.
  cbv zeta.
  destruct (nth_finite _ (Z.to_nat (Qfloor (inject_Z (Z.of_nat n) * p))) Hfin)
    as [a ->].
  destruct (nth_finite _
              (Nat.min (Z.to_nat (Qfloor (inject_Z (Z.of_nat n) * p)) + 1) n)
              Hfin) as [b ->].
  destruct (Qle_bool (1 # 2)
              (inject_Z (Z.of_nat n) * p
               - inject_Z (Qfloor (inject_Z (Z.of_nat n) * p))));
    eexists; reflexivity.
Qed.

Lemma finite_number_cell :
  forall s, forallb finite_number s = true -> forallb finite_cell s = true.
Proof.
  induction s as [|c s IH]; cbn; [reflexivity|].
  intro H; apply andb_prop in H; destruct H as [Hc Hs].
  rewrite (IH Hs); destruct c as [| |[| |]|]; try discriminate Hc; reflexivity.
Qed.

Lemma finite_number_not_null :
  forall c s, forallb finite_number (c :: s) = true -> all_null (c :: s) = false.
Proof.
  intros c s H; cbn in H; apply andb_prop in H; destruct H as [Hc _].
  destruct c; try discriminate Hc; reflexivity.
Qed.

Lemma replace_finite :
  forall a m s,
    finite_number m = true -> forallb finite_number s = true ->
    forallb finite_number (replace a m s) = true.
Proof.
  intros a m s Hm; unfold replace; induction s as [|c s IH];
    cbn [map forallb]; [reflexivity|].
  intro H; apply andb_prop in H; destruct H as [Hc Hs].
  rewrite (IH Hs), andb_true_r; destruct (cell_eqb c a); assumption.
Qed.

Lemma cap_below_numbers :
  forall bound v s s',
    is_number v = true -> forallb is_number s = true ->
    cap_below bound v s = Ok s' -> forallb is_number s' = true.
Proof.
  intros bound v s s' Hv; revert s'; unfold cap_below.
  induction s as [|c s IH]; intros s' Hs H; cbn in H.
  - injection H as <-; reflexivity.
  - cbn in Hs; apply andb_prop in Hs; destruct Hs as [Hc Hs].
    apply bind_ok in H; destruct H as [b [Hb H]].
    apply bind_ok in H; destruct H as [bs [Hbs H]]; injection H as <-.
    apply bind_ok in Hb; destruct Hb as [k [_ Hb]]; injection Hb as <-.
    cbn; rewrite (IH _ Hs Hbs), andb_true_r.
    destruct k; assumption.
Qed.

Lemma cap_loan_amount_numbers :
  forall s s',
    forallb finite_number s = true -> cap_loan_amount s = Ok s' ->
    forallb is_number s' = true.
Proof.
  intros s s' Hs H; unfold cap_loan_amount in H.
  apply bind_ok in H; destruct H as [Q1 [H1 H]].
  apply bind_ok in H; destruct H as [Q3 [H3 H]].
  apply bind_ok in H; destruct H as [s1 [Hlow Hup]].
  destruct s as [|c s].
  - cbn in Hlow; injection Hlow as <-; cbn in Hup; injection Hup as <-.
    reflexivity.
  - pose proof (finite_number_cell _ Hs) as Hcell.
    pose proof (finite_number_not_null _ _ Hs) as Hnull.
    destruct (quantile_finite (1 # 4) _ Hcell Hnull) as [q1 E1].
    destruct (quantile_finite (3 # 4) _ Hcell Hnull) as [q3 E3].
    rewrite E1 in H1; injection H1 as <-.
    rewrite E3 in H3; injection H3 as <-.
    refine (cap_above_numbers _ _ _ _ _ _ Hup); [reflexivity|].
    refine (cap_below_numbers _ _ _ _ _ (finite_are_numbers _ Hs) Hlow).
    reflexivity.
Qed.

(** The LoanAmount column after lines 22 and 76-77, on a batch with a
    LoanAmount. *)
Lemma fill_median_finite :
  forall s s',
    forallb finite_cell s = true -> all_null s = false ->
    fill_median s = Ok s' ->
    forallb finite_number s' = true /\ all_null s' = false.
Proof.
  intros s s' Hs Hnull H; unfold fill_median in H.
  destruct (median_finite s Hs Hnull) as [q Hq]; rewrite Hq in H.
  injection H as <-; split; [apply fillna_finite; [reflexivity|exact Hs]|].
  destruct s as [|c s]; [discriminate Hnull|].
  apply finite_number_not_null with (c := if isnull c then Flt (Fin q) else c)
                                    (s := fillna (Flt (Fin q)) s).
  exact (fillna_finite (Flt (Fin q)) (c :: s) eq_refl Hs).
Qed.

(** The numeric fields after the imputations of lines 24-38. *)
Lemma impute_finite :
  forall d d1 n s1,
    raw_schema d = true -> impute d = Ok d1 ->
    In n ["ApplicantIncome"; "CoapplicantIncome"; "Loan_Amount_Term";
          "Credit_History"] ->
    get_col n d1 = Some s1 -> forallb finite_number s1 = true.
Proof.
  intros d d1 n s1 Hraw H Hn Hget; rewrite impute_assignments in H.
  assert (Hcol : forall f,
             In (n, f) impute_table ->
             exists s, forallb finite_cell s = true /\ f s = Ok s1).
  { intros f Hf.
    destruct (assignments_column impute_table n f d d1 s1 NoDup_impute_table
                Hf H Hget) as [s [Hs Hfs]].
    exists s; split; [|exact Hfs].
    apply (raw_schema_column d n s Hraw Hs).
    destruct Hn as [<-|[<-|[<-|[<-|[]]]]]; reflexivity. }
  destruct Hn as [<-|[<-|[<-|[<-|[]]]]].
  - destruct (Hcol (fill_const (Int 0))) as [s [Hs Hf]]; [cbn; tauto|].
    injection Hf as <-; apply fillna_finite; [reflexivity|exact Hs].
  - destruct (Hcol (fill_const (Int 0))) as [s [Hs Hf]]; [cbn; tauto|].
    injection Hf as <-; apply fillna_finite; [reflexivity|exact Hs].
  - destruct (Hcol fill_mode) as [s [Hs Hf]]; [cbn; tauto|].
    apply (fill_mode_finite _ _ Hs Hf).
  - destruct (Hcol fill_credit_history) as [s [Hs Hf]]; [cbn; tauto|].
    apply (fill_credit_history_finite _ _ Hs Hf).
Qed.

Lemma cast_dummies_ints :
  forall d d' n s,
    cast_dummies d = Ok d' -> In n property_columns ->
    get_col n d' = Some s -> forallb is_int s = true.
Proof.
  intros d d' n s H Hn Hget; unfold cast_dummies in H.
  apply bind_ok in H; destruct H as [a1 [H1 H]].
  apply bind_ok in H; destruct H as [a2 [H2 H3]].
  apply cast_int_inv in H1; destruct H1 as [r [r' [_ [Hr ->]]]].
  apply cast_int_inv in H2; destruct H2 as [u [u' [_ [Hu ->]]]].
  apply cast_int_inv in H3; destruct H3 as [v [v' [_ [Hv ->]]]].
  destruct Hn as [<-|[<-|[<-|[]]]].
  - rewrite !get_col_set_col_other, get_col_set_col_same in Hget by reflexivity.
    injection Hget as <-; apply (astype_int_ints _ _ Hr).
  - rewrite get_col_set_col_other, get_col_set_col_same in Hget by reflexivity.
    injection Hget as <-; apply (astype_int_ints _ _ Hu).
  - rewrite get_col_set_col_same in Hget.
    injection Hget as <-; apply (astype_int_ints _ _ Hv).
Qed.

Lemma encode_ints :
  forall table s s', encode table s = Ok s' -> forallb is_int s' = true.
Proof. intros table s s' H; apply (astype_int_ints _ _ H). Qed.

(** A column none of the blocks after outlier capping writes. *)
Lemma kept_after_cap :
  forall fr d4 d5 d6 out m,
    encode_binary d4 = Ok d5 ->
    one_hot_property_area fr d5 = Ok d6 ->
    map_target d6 = Ok out ->
    mem m ["Gender"; "Married"; "Education"; "Self_Employed"; "Property_Area";
           "Property_Rural"; "Property_Semiurban"; "Property_Urban";
           "Loan_Status"] = false ->
    get_col m out = get_col m d4.
Proof.
  intros fr d4 d5 d6 out m H5 H6 H7 Hm; split_mem Hm.
  rewrite (map_target_writes _ _ m H7) by (cbn; rewrite E7; reflexivity).
  rewrite (one_hot_writes fr _ _ m H6)
    by (cbn; rewrite E3, E4, E5, E6; reflexivity).
  rewrite (encode_binary_writes _ _ m H5)
    by (cbn; rewrite E, E0, E1, E2; reflexivity).
  reflexivity.
Qed.

(** A column written by neither the Dependents cleanup nor the feature
    engineering. *)
Lemma kept_until_cap :
  forall fr pn d1 d2 d3 m,
    dependents_cleanup fr pn d1 = Ok d2 ->
    engineer d2 = Ok d3 ->
    mem m ["Dependents"; "TotalIncome"; "LoanAmount"; "Income_to_Loan_Ratio";
           "Applicant_to_Coapp_Ratio"] = false ->
    get_col m d3 = get_col m d1.
Proof.
  intros fr pn d1 d2 d3 m H2 H3 Hm; split_mem Hm.
  rewrite (engineer_writes _ _ m H3)
    by (cbn; rewrite E0, E1, E2, E3; reflexivity).
  apply (dependents_cleanup_writes fr pn _ _ m H2).
  cbn; rewrite E; reflexivity.
Qed.

(** C3.  On a batch with the raw schema, whenever the transformer
    returns, every value of the feature columns Gender, Married, Dependents,
    Education, Self_Employed, ApplicantIncome, CoapplicantIncome,
    Loan_Amount_Term, Credit_History, Applicant_to_Coapp_Ratio and of the
    three Property dummies is a number; so is every value of TotalIncome
    when both income columns are present, and every value of LoanAmount when
    some LoanAmount of the batch is not null. *)
Theorem C3_feature_columns_numeric :
  forall fr pn d out,
    raw_schema d = true ->
    clean_raw_df fr pn d = Ok out ->
    (forall n, In n numeric_features -> numeric_column n out)
    /\ (incomes_present d = true -> numeric_column "TotalIncome" out)
    /\ (forall la,
           get_col "LoanAmount" d = Some la -> all_null la = false ->
           numeric_column "LoanAmount" out).
Proof.
  intros fr pn d out Hraw Hclean.
  apply clean_raw_df_inv in Hclean.
  destruct Hclean as [d1 [d2 [d3 [d4 [d5 [d6 [H1 [H2 [H3 [H4 [H5 [H6 H7]]]]]]]]]]]].
  pose proof (fun m => kept_after_engineer fr _ _ _ _ _ m H4 H5 H6 H7) as K3.
  pose proof (fun m => kept_after_cap fr _ _ _ _ m H5 H6 H7) as K4.
  pose proof (fun m => kept_until_cap fr pn _ _ _ m H2 H3) as K1.
  pose proof (engineer_inv _ _ H3) as [e1 [e2 [Ht [Hr Ha]]]].
  assert (Kd : forall m, mem m impute_writes = false ->
                         get_col m d1 = get_col m d)
    by (intros m Hm; apply (impute_writes_ok _ _ m H1 Hm)).
  assert (Ke : forall m,
             mem m ["TotalIncome"; "LoanAmount"; "Income_to_Loan_Ratio"]
             = false -> get_col m e2 = get_col m d2).
  { intros m Hm; split_mem Hm.
    rewrite (income_to_loan_writes _ _ m Hr) by (cbn; rewrite E0, E1; reflexivity).
    apply (total_income_writes _ _ m Ht); cbn; rewrite E; reflexivity. }
  assert (Kdep : forall m, mem m ["Dependents"] = false ->
                           get_col m d2 = get_col m d1)
    by (intros m Hm; apply (dependents_cleanup_writes fr pn _ _ m H2 Hm)).
  assert (Hinc : forall n s,
             In n ["ApplicantIncome"; "CoapplicantIncome"] ->
             get_col n d2 = Some s -> forallb finite_number s = true).
  { intros n s Hn Hs.
    apply (impute_finite d d1 n s Hraw H1);
      [destruct Hn as [<-|[<-|[]]]; cbn; tauto|].
    rewrite <- Hs; symmetry; apply Kdep.
    destruct Hn as [<-|[<-|[]]]; reflexivity. }
  split; [|split].
  - intros n Hn s Hs.
    destruct Hn as [<-|[<-|[<-|[<-|[<-|[<-|[<-|[<-|[<-|[<-|Hn]]]]]]]]]].
    + rewrite (map_target_writes _ _ _ H7), (one_hot_writes fr _ _ _ H6) in Hs
        by reflexivity.
      rewrite encode_binary_assignments in H5.
      destruct (assignments_column encode_table _ _ _ _ _ NoDup_encode_table
                  (or_introl eq_refl) H5 Hs) as [s0 [_ Hf]].
      apply ints_are_numbers, (encode_ints _ _ _ Hf).
    + rewrite (map_target_writes _ _ _ H7), (one_hot_writes fr _ _ _ H6) in Hs
        by reflexivity.
      rewrite encode_binary_assignments in H5.
      destruct (assignments_column encode_table _ _ _ _ _ NoDup_encode_table
                  (or_intror (or_introl eq_refl)) H5 Hs) as [s0 [_ Hf]].
      apply ints_are_numbers, (encode_ints _ _ _ Hf).
    + rewrite K3, (engineer_writes _ _ _ H3) in Hs by reflexivity.
      destruct (on_col_result _ _ _ _ _ H2 Hs) as [s0 [_ Hf]].
      apply clean_dependents_inv in Hf; destruct Hf as [filled [Hcast _]].
      apply ints_are_numbers, (astype_int_ints _ _ Hcast).
    + rewrite (map_target_writes _ _ _ H7), (one_hot_writes fr _ _ _ H6) in Hs
        by reflexivity.
      rewrite encode_binary_assignments in H5.
      destruct (assignments_column encode_table _ _ _ _ _ NoDup_encode_table
                  (or_intror (or_intror (or_introl eq_refl))) H5 Hs)
        as [s0 [_ Hf]].
      apply ints_are_numbers, (encode_ints _ _ _ Hf).
    + rewrite (map_target_writes _ _ _ H7), (one_hot_writes fr _ _ _ H6) in Hs
        by reflexivity.
      rewrite encode_binary_assignments in H5.
      destruct (assignments_column encode_table _ _ _ _ _ NoDup_encode_table
                  (or_intror (or_intror (or_intror (or_introl eq_refl)))) H5 Hs)
        as [s0 [_ Hf]].
      apply ints_are_numbers, (encode_ints _ _ _ Hf).
    + rewrite K4 in Hs by reflexivity.
      rewrite cap_outliers_assignments in H4.
      destruct (assignments_column cap_table _ _ _ _ _ NoDup_cap_table
                  (or_introl eq_refl) H4 Hs) as [s0 [Hs0 Hf]].
      apply (cap_applicant_income_numbers s0 s); [|exact Hf].
      rewrite K1 in Hs0 by reflexivity.
      apply (impute_finite d d1 "ApplicantIncome"%string s0 Hraw H1);
        [cbn; tauto|exact Hs0].
    + rewrite K3, K1 in Hs by reflexivity.
      apply finite_are_numbers.
      apply (impute_finite d d1 "CoapplicantIncome"%string s Hraw H1);
        [cbn; tauto|exact Hs].
    + rewrite K3, K1 in Hs by reflexivity.
      apply finite_are_numbers.
      apply (impute_finite d d1 "Loan_Amount_Term"%string s Hraw H1);
        [cbn; tauto|exact Hs].
    + rewrite K3, K1 in Hs by reflexivity.
      apply finite_are_numbers.
      apply (impute_finite d d1 "Credit_History"%string s Hraw H1);
        [cbn; tauto|exact Hs].
    + rewrite K3 in Hs by reflexivity.
      pose proof (applicant_to_coapp_inv _ _ Ha) as Hinv.
      destruct (incomes_present e2).
      * destruct Hinv as [a [c [q [Ga [Gc [Hq ->]]]]]].
        rewrite get_col_set_col_same in Hs; injection Hs as <-.
        rewrite Ke in Ga, Gc by reflexivity.
        apply (np_where_numbers a c q); [| |exact Hq].
        -- apply (Hinc "ApplicantIncome"%string a); [cbn; tauto|exact Ga].
        -- apply (Hinc "CoapplicantIncome"%string c); [cbn; tauto|exact Gc].
      * subst d3.
        rewrite Ke, Kdep, Kd in Hs by reflexivity.
        rewrite (raw_schema_absent d _ Hraw) in Hs by reflexivity.
        discriminate Hs.
    + rewrite (map_target_writes _ _ _ H7) in Hs
        by (destruct Hn as [<-|[<-|[<-|[]]]]; reflexivity).
      unfold one_hot_property_area in H6.
      destruct (get_col "Property_Area" d5).
      * apply ints_are_numbers, (cast_dummies_ints _ _ n s H6 Hn Hs).
      * injection H6 as <-.
        rewrite (encode_binary_writes _ _ _ H5), (cap_outliers_writes _ _ _ H4),
          K1, Kd in Hs
          by (destruct Hn as [<-|[<-|[<-|[]]]]; reflexivity).
        rewrite (raw_schema_absent d _ Hraw) in Hs
          by (destruct Hn as [<-|[<-|[<-|[]]]]; reflexivity).
        discriminate Hs.
  - intros Hpresent s Hs.
    rewrite K3 in Hs by reflexivity.
    rewrite (applicant_to_coapp_writes _ _ _ Ha),
      (income_to_loan_writes _ _ _ Hr) in Hs by reflexivity.
    apply total_income_inv in Ht; destruct Ht as [t [-> Ht]].
    rewrite get_col_set_col_same in Hs; injection Hs as <-.
    assert (Hp2 : incomes_present d2 = true).
    { unfold incomes_present.
      rewrite !(stable_has_col _ _ _ _ (dependents_cleanup_stable fr pn) H2).
      rewrite !(stable_has_col _ _ _ _ impute_stable H1); exact Hpresent. }
    rewrite Hp2 in Ht; destruct Ht as [a [c [Ga [Gc Hsum]]]].
    apply finite_are_numbers.
    apply (zipM_forall cell_add finite_number finite_number finite_number a c t);
      [intros x y z; apply cell_add_finite| | |exact Hsum].
    + apply (Hinc "ApplicantIncome"%string a); [cbn; tauto|exact Ga].
    + apply (Hinc "CoapplicantIncome"%string c); [cbn; tauto|exact Gc].
  - intros la Hla Hnull s Hs.
    rewrite K4 in Hs by reflexivity.
    rewrite cap_outliers_assignments in H4.
    destruct (assignments_column cap_table _ _ _ _ _ NoDup_cap_table
                (or_intror (or_introl eq_refl)) H4 Hs) as [s3 [Hs3 Hcap]].
    apply (cap_loan_amount_numbers s3 s); [|exact Hcap].
    rewrite (applicant_to_coapp_writes _ _ _ Ha) in Hs3 by reflexivity.
    assert (Hla1 : exists la1,
               get_col "LoanAmount" d1 = Some la1
               /\ forallb finite_number la1 = true /\ all_null la1 = false).
    { assert (Hhas : has_col "LoanAmount" d1 = true).
      { rewrite (stable_has_col _ _ _ _ impute_stable H1), has_col_get_col, Hla.
        reflexivity. }
      rewrite has_col_get_col in Hhas.
      destruct (get_col "LoanAmount" d1) as [la1|] eqn:G; [|discriminate Hhas].
      rewrite impute_assignments in H1.
      destruct (assignments_column impute_table _ _ _ _ _ NoDup_impute_table
                  (or_introl eq_refl) H1 G) as [la0 [Hla0 Hfill]].
      rewrite Hla in Hla0; injection Hla0 as <-.
      exists la1; split; [reflexivity|].
      apply (fill_median_finite la la1); [|exact Hnull|exact Hfill].
      apply (raw_schema_column d "LoanAmount"%string la Hraw Hla); reflexivity. }
    destruct Hla1 as [la1 [G1 [Hfin1 Hnull1]]].
    assert (Ge1 : get_col "LoanAmount" e1 = Some la1).
    { rewrite (total_income_writes _ _ _ Ht) by reflexivity.
      rewrite Kdep by reflexivity; exact G1. }
    pose proof (income_to_loan_inv _ _ Hr) as Hinv; rewrite Ge1 in Hinv.
    destruct Hinv as [m [t [r [Hm [_ [_ ->]]]]]].
    rewrite get_col_set_col_other, get_col_set_col_same in Hs3 by reflexivity.
    injection Hs3 as <-.
    unfold loan_median in Hm; rewrite Hnull1 in Hm; cbn [negb] in Hm.
    destruct (median_finite la1 (finite_number_cell _ Hfin1) Hnull1) as [q Hq].
    rewrite Hq in Hm; injection Hm as <-.
    apply replace_finite; [reflexivity|exact Hfin1].
Qed.

(** ** Runs on the example data *)

Lemma clean_sample :
  clean (record_frame sample_application) = Ok sample_output.
Proof. vm_compute; reflexivity. Qed.

Lemma clean_bare : clean bare_batch = Ok bare_output.
Proof. vm_compute; reflexivity. Qed.


(** C3, for the whole output: not every value is a number.  On the sample
    application the identifier column keeps its string, and on a batch
    without income and loan columns TotalIncome and Income_to_Loan_Ratio
    are null on every row. *)
Lemma C3_every_value_numeric_counterexample :
  ~ (forall d out, clean d = Ok out -> all_numeric out = true)
  /\ clean (record_frame sample_application) = Ok sample_output
  /\ get_col "Loan_ID" sample_output = Some [Str "LP001002"]
  /\ clean bare_batch = Ok bare_output
  /\ get_col "TotalIncome" bare_output = Some [NA; NA]
  /\ get_col "Income_to_Loan_Ratio" bare_output = Some [NA; NA].
Proof.
  split; [|repeat split; vm_compute; reflexivity].
  intro H; specialize (H _ _ clean_sample); discriminate H.
Qed.

Lemma C3_feature_columns_numeric_witness :
  raw_schema (record_frame sample_application) = true
  /\ forallb is_number [Int 1] = true
  /\ forallb is_number [Flt (Fin 5000)] = true
  /\ forallb is_number [Flt (Fin 128)] = true.
Proof.
  split; [reflexivity|].
  destruct (C3_feature_columns_numeric repr_decimal parse_decimal
              (record_frame sample_application) sample_output
              eq_refl clean_sample) as [Hall [Htotal Hloan]].
  split; [|split].
  - apply (Hall "Gender"%string); [cbn; tauto|reflexivity].
  - apply (Htotal eq_refl); reflexivity.
  - apply (Hloan [Flt (Fin 128)] eq_refl eq_refl); reflexivity.
Defined.

Lemma C6_property_area_one_hot_witness :
  has_col "Property_Area" sample_output = false
  /\ get_col "Property_Rural" sample_output = Some [Int 0]
  /\ get_col "Property_Semiurban" sample_output = Some [Int 0]
  /\ get_col "Property_Urban" sample_output = Some [Int 1]
  /\ exists a b c : Z,
      Int 0 = Int a /\ Int 0 = Int b /\ Int 1 = Int c /\ a + b + c <= 1.
Proof.
  destruct (C6_property_area_one_hot repr_decimal parse_decimal
              (record_frame sample_application) [Str "Urban"] sample_output
              repr_decimal_no_category eq_refl eq_refl clean_sample)
    as [Harea [HR [HS [HU [_ Hrow]]]]].
  repeat (split; [assumption|]).
  destruct (Hrow 0%nat (Int 0) (Int 0) (Int 1) eq_refl eq_refl eq_refl)
    as [a [b [c [Ha [Hb [Hc [_ [_ [_ Hsum]]]]]]]]].
  exists a, b, c; repeat split; assumption.
Defined.


Lemma C10_derived_columns_always_added_witness :
  total_income bare_batch
  = Ok (set_col "TotalIncome" [NA; NA] bare_batch)
  /\ income_to_loan bare_batch
     = Ok (set_col "Income_to_Loan_Ratio" [NA; NA] bare_batch)
  /\ exists t r,
      get_col "TotalIncome" bare_output = Some t
      /\ get_col "Income_to_Loan_Ratio" bare_output = Some r
      /\ t = [NA; NA] /\ r = [NA; NA].
Proof.
  destruct (C10_derived_columns_always_added repr_decimal parse_decimal
              bare_batch) as [Hsum [Hratio Hout]].
  split; [apply Hsum; reflexivity|].
  split; [apply Hratio; reflexivity|].
  destruct (Hout bare_output clean_bare) as [t [r [Ht [Hr [Htn Hrn]]]]].
  exists t, r; repeat split;
    [exact Ht|exact Hr|apply Htn; reflexivity|apply Hrn; reflexivity].
Defined.


(* ================================================================== *)
(** * Further properties of the transformer *)

(** ** Columns the transformer does not name *)

Lemma clean_raw_df_writes :
  forall fr pn, writes transformer_columns (clean_raw_df fr pn).
Proof.
  intros fr pn d out m Hclean Hm.
  apply clean_raw_df_inv in Hclean.
  destruct Hclean as [d1 [d2 [d3 [d4 [d5 [d6 [H1 [H2 [H3 [H4 [H5 [H6 H7]]]]]]]]]]]].
  split_mem Hm.
  rewrite (map_target_writes _ _ m H7) by (cbn; rewrite E16; reflexivity).
  rewrite (one_hot_writes fr _ _ m H6)
    by (cbn; rewrite E12, E13, E14, E15; reflexivity).
  rewrite (encode_binary_writes _ _ m H5)
    by (cbn; rewrite E5, E6, E8, E4; reflexivity).
  rewrite (cap_outliers_writes _ _ m H4) by (cbn; rewrite E0, E; reflexivity).
  rewrite (engineer_writes _ _ m H3)
    by (cbn; rewrite E9, E, E10, E11; reflexivity).
  rewrite (dependents_cleanup_writes fr pn _ _ m H2)
    by (cbn; rewrite E7; reflexivity).
  apply (impute_writes_ok _ _ m H1).
  cbn; rewrite E, E0, E1, E2, E3, E4, E5, E6, E7; reflexivity.
Qed.

(** X1.  A column the transformer does not name, the identifier Loan_ID
    among them, is returned as it came: present with the same cells, or
    absent. *)
Theorem X1_other_columns_pass_through :
  forall fr pn d out m,
    clean_raw_df fr pn d = Ok out ->
    mem m transformer_columns = false ->
    get_col m out = get_col m d.
Proof. intros fr pn d out m H Hm; apply (clean_raw_df_writes fr pn d out m H Hm). Qed.

Lemma X1_other_columns_pass_through_witness :
  get_col "Loan_ID" sample_output = Some [Str "LP001002"].
Proof.
  rewrite (X1_other_columns_pass_through repr_decimal parse_decimal
             (record_frame sample_application) sample_output "Loan_ID"
             clean_sample eq_refl).
  reflexivity.
Defined.

(** ** The shape of the frame *)

Lemma all_length_lookup :
  forall n cols m s,
    all_length n cols = true -> lookup m cols = Some s -> List.length s = n.
Proof.
  induction cols as [|[k v] cols IH]; intros m s H L; [discriminate|].
  cbn in H, L. apply andb_true_iff in H. destruct H as [Hv Hc].
  destruct (String.eqb m k).
  - injection L as <-. apply Nat.eqb_eq, Hv.
  - exact (IH m s Hc L).
Qed.

Lemma all_length_set_assoc :
  forall n cols m s,
    all_length n cols = true -> List.length s = n ->
    all_length n (set_assoc m s cols) = true.
Proof.
  induction cols as [|[k v] cols IH]; intros m s H L.
  - cbn. rewrite L, Nat.eqb_refl. reflexivity.
  - cbn in H. apply andb_true_iff in H. destruct H as [Hv Hc].
    cbn [set_assoc]. destruct (String.eqb m k); cbn.
    + rewrite L, Nat.eqb_refl. exact Hc.
    + rewrite Hv. exact (IH m s Hc L).
Qed.

Lemma well_formed_get_col :
  forall d m s,
    well_formed d = true -> get_col m d = Some s -> List.length s = nrows d.
Proof. intros d m s H G. exact (all_length_lookup _ _ m s H G). Qed.

Lemma well_formed_set_col :
  forall d m s,
    well_formed d = true -> List.length s = nrows d ->
    well_formed (set_col m s d) = true.
Proof. intros d m s H L. exact (all_length_set_assoc _ _ m s H L). Qed.

Lemma on_col_well_formed :
  forall n f d d',
    length_preserving f -> well_formed d = true -> on_col n f d = Ok d' ->
    well_formed d' = true.
Proof.
  intros n f d d' Hf Hd H. pose proof (on_col_inv _ _ _ _ H) as Hi.
  destruct (get_col n d) as [s|] eqn:G.
  - destruct Hi as [s' [Hs ->]]. apply well_formed_set_col; [exact Hd|].
    rewrite (Hf _ _ Hs). exact (well_formed_get_col _ _ _ Hd G).
  - subst d'. exact Hd.
Qed.

Lemma assignments_well_formed :
  forall t d d',
    Forall (fun nf => length_preserving (snd nf)) t ->
    well_formed d = true -> assignments t d = Ok d' -> well_formed d' = true.
Proof.
  induction t as [|[n f] t IH]; intros d d' Ht Hd H.
  - cbn in H. injection H as <-. exact Hd.
  - rewrite assignments_cons in H. apply bind_ok in H.
    destruct H as [x [Hx H]]. inversion Ht; subst.
    apply (IH x d'); [assumption| |exact H].
    exact (on_col_well_formed n f d x H2 Hd Hx).
Qed.

Lemma fillna_length : forall v s, List.length (fillna v s) = List.length s.
Proof. intros; apply length_map. Qed.

Lemma fill_median_length : length_preserving fill_median.
Proof.
  intros s s' H. unfold fill_median in H. apply bind_ok in H.
  destruct H as [m [_ H]]. injection H as <-. apply fillna_length.
Qed.

Lemma fill_mode_length : length_preserving fill_mode.
Proof.
  intros s s' H. unfold fill_mode in H. apply bind_ok in H.
  destruct H as [m [_ H]]. injection H as <-. apply fillna_length.
Qed.

Lemma fill_credit_history_length : length_preserving fill_credit_history.
Proof.
  intros s s' H. unfold fill_credit_history in H.
  destruct (mode s).
  - injection H as <-. apply fillna_length.
  - apply bind_ok in H. destruct H as [m [_ H]]. injection H as <-.
    apply fillna_length.
Qed.

Lemma fill_const_length : forall v, length_preserving (fill_const v).
Proof. intros v s s' H. injection H as <-. apply fillna_length. Qed.

Lemma impute_well_formed :
  forall d d', well_formed d = true -> impute d = Ok d' -> well_formed d' = true.
Proof.
  intros d d' Hd H. rewrite impute_assignments in H.
  refine (assignments_well_formed impute_table d d' _ Hd H).
  repeat constructor; cbn [snd];
    auto using fill_median_length, fill_mode_length,
               fill_credit_history_length, fill_const_length.
Qed.

Lemma astype_int_length : length_preserving astype_int.
Proof. intros s s' H. exact (proj1 (mapM_inv _ _ _ _ _ H)). Qed.

Lemma clean_dependents_length :
  forall fr pn, length_preserving (clean_dependents fr pn).
Proof.
  intros fr pn s s' H. unfold clean_dependents in H. apply bind_ok in H.
  destruct H as [s1 [H1 H]]. rewrite (astype_int_length _ _ H).
  rewrite <- (coerce_dependents_length fr pn s).
  destruct (any_null (coerce_dependents fr pn s)).
  - exact (fill_mode_length _ _ H1).
  - injection H1 as <-. reflexivity.
Qed.

Lemma zipM_length :
  forall (A B C : Type) (f : A -> B -> result C) l r t,
    zipM f l r = Ok t -> List.length t = Nat.min (List.length l) (List.length r).
Proof.
  induction l as [|a l IH]; intros r t H.
  - cbn in H. injection H as <-. reflexivity.
  - destruct r as [|b r].
    + cbn in H. injection H as <-. reflexivity.
    + cbn [zipM] in H. apply bind_ok in H. destruct H as [c [_ H]].
      apply bind_ok in H. destruct H as [cs [Hcs H]]. injection H as <-.
      cbn. rewrite (IH r cs Hcs). reflexivity.
Qed.

Lemma np_where_length :
  forall cond a b,
    List.length (np_where cond a b)
    = Nat.min (List.length cond) (Nat.min (List.length a) (List.length b)).
Proof.
  induction cond as [|k cond IH]; intros a b; [reflexivity|].
  destruct a as [|x a]; [reflexivity|]. destruct b as [|y b]; [reflexivity|].
  cbn. rewrite IH. reflexivity.
Qed.

Lemma broadcast_length : forall d c, List.length (broadcast d c) = nrows d.
Proof. intros; apply repeat_length. Qed.

Lemma total_income_well_formed :
  forall d d',
    well_formed d = true -> total_income d = Ok d' -> well_formed d' = true.
Proof.
  intros d d' Hd H. apply total_income_inv in H. destruct H as [t [-> H]].
  apply well_formed_set_col; [exact Hd|].
  destruct (incomes_present d).
  - destruct H as [a [c [Ga [Gc Hz]]]]. rewrite (zipM_length _ _ _ _ _ _ _ Hz).
    rewrite (well_formed_get_col _ _ _ Hd Ga), (well_formed_get_col _ _ _ Hd Gc).
    apply Nat.min_id.
  - subst t. apply broadcast_length.
Qed.

Lemma replace_length : forall a b s, List.length (replace a b s) = List.length s.
Proof. intros; apply length_map. Qed.

Lemma income_to_loan_well_formed :
  forall d d',
    well_formed d = true -> income_to_loan d = Ok d' -> well_formed d' = true.
Proof.
  intros d d' Hd H. apply income_to_loan_inv in H.
  destruct (get_col "LoanAmount" d) as [la|] eqn:G.
  - destruct H as [m [t [r [_ [Gt [Hz ->]]]]]].
    assert (Hla : List.length (replace (Int 0) m la) = nrows d)
      by (rewrite replace_length; exact (well_formed_get_col _ _ _ Hd G)).
    assert (Hd1 : well_formed (set_col "LoanAmount" (replace (Int 0) m la) d) = true)
      by (apply well_formed_set_col; assumption).
    apply well_formed_set_col; [exact Hd1|].
    rewrite (zipM_length _ _ _ _ _ _ _ Hz), Hla.
    rewrite (well_formed_get_col _ _ _ Hd1 Gt). apply Nat.min_id.
  - subst d'. apply well_formed_set_col; [exact Hd|apply broadcast_length].
Qed.

Lemma applicant_to_coapp_well_formed :
  forall d d',
    well_formed d = true -> applicant_to_coapp d = Ok d' -> well_formed d' = true.
Proof.
  intros d d' Hd H. apply applicant_to_coapp_inv in H.
  destruct (incomes_present d); [|subst d'; exact Hd].
  destruct H as [a [c [q [Ga [Gc [Hz ->]]]]]].
  apply well_formed_set_col; [exact Hd|].
  rewrite np_where_length, length_map, (zipM_length _ _ _ _ _ _ _ Hz).
  rewrite (well_formed_get_col _ _ _ Hd Ga), (well_formed_get_col _ _ _ Hd Gc).
  rewrite !Nat.min_id. reflexivity.
Qed.

Lemma engineer_well_formed :
  forall d d', well_formed d = true -> engineer d = Ok d' -> well_formed d' = true.
Proof.
  intros d d' Hd H. apply engineer_inv in H. destruct H as [e1 [e2 [H1 [H2 H3]]]].
  eauto using total_income_well_formed, income_to_loan_well_formed,
              applicant_to_coapp_well_formed.
Qed.

Lemma cap_above_length : forall bound v, length_preserving (cap_above bound v).
Proof. intros bound v s s' H. exact (proj1 (mapM_inv _ _ _ _ _ H)). Qed.

Lemma cap_below_length : forall bound v, length_preserving (cap_below bound v).
Proof. intros bound v s s' H. exact (proj1 (mapM_inv _ _ _ _ _ H)). Qed.

Lemma cap_applicant_income_length : length_preserving cap_applicant_income.
Proof.
  intros s s' H. unfold cap_applicant_income in H.
  apply bind_ok in H. destruct H as [cap [_ H]].
  apply bind_ok in H. destruct H as [k [_ H]].
  exact (cap_above_length _ _ _ _ H).
Qed.

Lemma cap_loan_amount_length : length_preserving cap_loan_amount.
Proof.
  intros s s' H. unfold cap_loan_amount in H.
  apply bind_ok in H. destruct H as [Q1 [_ H]].
  apply bind_ok in H. destruct H as [Q3 [_ H]].
  apply bind_ok in H. destruct H as [s1 [H1 H]].
  rewrite (cap_above_length _ _ _ _ H). exact (cap_below_length _ _ _ _ H1).
Qed.

Lemma map_dict_length :
  forall table s, List.length (map_dict table s) = List.length s.
Proof. intros; apply length_map. Qed.

Lemma encode_length : forall table, length_preserving (encode table).
Proof.
  intros table s s' H. unfold encode in H.
  rewrite (astype_int_length _ _ H), fillna_length. apply map_dict_length.
Qed.

Lemma cap_outliers_well_formed :
  forall d d',
    well_formed d = true -> cap_outliers d = Ok d' -> well_formed d' = true.
Proof.
  intros d d' Hd H. rewrite cap_outliers_assignments in H.
  refine (assignments_well_formed cap_table d d' _ Hd H).
  repeat constructor; cbn [snd];
    auto using cap_applicant_income_length, cap_loan_amount_length.
Qed.

Lemma encode_binary_well_formed :
  forall d d',
    well_formed d = true -> encode_binary d = Ok d' -> well_formed d' = true.
Proof.
  intros d d' Hd H. rewrite encode_binary_assignments in H.
  refine (assignments_well_formed encode_table d d' _ Hd H).
  repeat constructor; cbn [snd]; auto using encode_length.
Qed.

Lemma map_target_well_formed :
  forall d d',
    well_formed d = true -> map_target d = Ok d' -> well_formed d' = true.
Proof.
  intros d d' Hd H. refine (on_col_well_formed _ _ d d' _ Hd H).
  intros s s' Hs. injection Hs as <-. apply map_dict_length.
Qed.

Lemma all_length_app :
  forall n a b, all_length n (a ++ b) = all_length n a && all_length n b.
Proof. intros; apply forallb_app. Qed.

Lemma all_length_filter :
  forall n (P : string * Series -> bool) cols,
    all_length n cols = true -> all_length n (filter P cols) = true.
Proof.
  induction cols as [|kv cols IH]; intros H; [reflexivity|].
  cbn in H. apply andb_true_iff in H. destruct H as [Hv Hc].
  cbn [filter]. destruct (P kv); [cbn; rewrite Hv|]; exact (IH Hc).
Qed.

Lemma all_length_select :
  forall n cols ns,
    all_length n cols = true ->
    all_length n
      (flat_map (fun m => filter (fun kv => String.eqb (fst kv) m) cols) ns)
    = true.
Proof.
  intros n cols ns H. induction ns as [|m ns IH]; [reflexivity|].
  cbn [flat_map]. rewrite all_length_app, IH, all_length_filter by exact H.
  reflexivity.
Qed.

Lemma get_dummies_lengths :
  forall fr n s p,
    all_length (List.length s) (columns (get_dummies fr n s p)) = true.
Proof.
  intros. unfold get_dummies; cbn [columns].
  induction (sort cell_leb (distinct (dropna s))) as [|c cats IH]; [reflexivity|].
  cbn. rewrite length_map, Nat.eqb_refl. exact IH.
Qed.

Lemma ensure_column_lengths :
  forall col p,
    all_length (nrows p) (columns p) = true ->
    all_length (nrows (ensure_column col p)) (columns (ensure_column col p))
    = true.
Proof.
  intros col p H. unfold ensure_column. destruct (negb (has_col col p)).
  - apply (well_formed_set_col p); [exact H|apply broadcast_length].
  - exact H.
Qed.

Lemma attach_dummies_well_formed :
  forall fr area d,
    well_formed d = true -> List.length area = nrows d ->
    well_formed (attach_dummies fr area d) = true.
Proof.
  intros fr area d Hd Ha. unfold attach_dummies, well_formed.
  cbn [concat_cols drop_cols select_cols nrows columns fold_left property_columns].
  rewrite all_length_app. apply andb_true_iff. split.
  - apply all_length_filter. exact Hd.
  - apply all_length_select.
    pose proof (get_dummies_lengths fr (nrows d) area "Property") as H0.
    rewrite Ha in H0.
    set (p0 := get_dummies fr (nrows d) area "Property") in *.
    assert (H1 : well_formed p0 = true) by exact H0.
    pose proof (ensure_column_lengths "Property_Rural" p0 H1) as H2.
    pose proof (ensure_column_lengths "Property_Semiurban" _ H2) as H3.
    pose proof (ensure_column_lengths "Property_Urban" _ H3) as H4.
    rewrite !ensure_column_nrows in H4. exact H4.
Qed.

Lemma cast_int_well_formed :
  forall n d d',
    well_formed d = true -> cast_int n d = Ok d' -> well_formed d' = true.
Proof.
  intros n d d' Hd H. apply cast_int_inv in H.
  destruct H as [s [s' [G [Hs ->]]]].
  apply well_formed_set_col; [exact Hd|].
  rewrite (astype_int_length _ _ Hs). exact (well_formed_get_col _ _ _ Hd G).
Qed.

Lemma one_hot_well_formed :
  forall fr d d',
    well_formed d = true -> one_hot_property_area fr d = Ok d' ->
    well_formed d' = true /\ nrows d' = nrows d.
Proof.
  intros fr d d' Hd H. unfold one_hot_property_area in H.
  destruct (get_col "Property_Area" d) as [area|] eqn:G.
  - pose proof (attach_dummies_well_formed fr area d Hd
                  (well_formed_get_col _ _ _ Hd G)) as Ha.
    unfold cast_dummies in H.
    apply bind_ok in H. destruct H as [x1 [H1 H]].
    apply bind_ok in H. destruct H as [x2 [H2 H3]].
    split.
    + eauto using cast_int_well_formed.
    + apply cast_int_inv in H1, H2, H3.
      destruct H1 as [? [? [_ [_ ->]]]]. destruct H2 as [? [? [_ [_ ->]]]].
      destruct H3 as [? [? [_ [_ ->]]]]. reflexivity.
  - injection H as <-. split; [exact Hd|reflexivity].
Qed.

Lemma one_hot_nrows :
  forall fr d d', one_hot_property_area fr d = Ok d' -> nrows d' = nrows d.
Proof.
  intros fr d d' H. unfold one_hot_property_area in H.
  destruct (get_col "Property_Area" d) as [area|].
  - unfold cast_dummies in H.
    apply bind_ok in H. destruct H as [x1 [H1 H]].
    apply bind_ok in H. destruct H as [x2 [H2 H3]].
    apply cast_int_inv in H1, H2, H3.
    destruct H1 as [? [? [_ [_ ->]]]]. destruct H2 as [? [? [_ [_ ->]]]].
    destruct H3 as [? [? [_ [_ ->]]]]. reflexivity.
  - injection H as <-. reflexivity.
Qed.

(** X2.  The transformer returns one output row per input row, and on a
    frame whose columns all have one cell per row so does every column of
    the frame it returns. *)
Theorem X2_rows_preserved :
  forall fr pn d out,
    clean_raw_df fr pn d = Ok out ->
    nrows out = nrows d
    /\ (well_formed d = true -> well_formed out = true).
Proof.
  intros fr pn d out H. apply clean_raw_df_inv in H.
  destruct H as [d1 [d2 [d3 [d4 [d5 [d6 [H1 [H2 [H3 [H4 [H5 [H6 H7]]]]]]]]]]]].
  split.
  - rewrite (proj1 (map_target_stable _ _ H7)), (one_hot_nrows fr _ _ H6).
    rewrite (proj1 (encode_binary_stable _ _ H5)).
    rewrite (proj1 (cap_outliers_stable _ _ H4)).
    rewrite (proj1 (engineer_rows_names _ _ H3)).
    rewrite (proj1 (dependents_cleanup_stable fr pn _ _ H2)).
    exact (proj1 (impute_stable _ _ H1)).
  - intros Hd.
    pose proof (impute_well_formed _ _ Hd H1) as W1.
    pose proof (on_col_well_formed _ _ _ _ (clean_dependents_length fr pn) W1 H2)
      as W2.
    pose proof (engineer_well_formed _ _ W2 H3) as W3.
    pose proof (cap_outliers_well_formed _ _ W3 H4) as W4.
    pose proof (encode_binary_well_formed _ _ W4 H5) as W5.
    destruct (one_hot_well_formed fr _ _ W5 H6) as [W6 _].
    exact (map_target_well_formed _ _ W6 H7).
Qed.

Lemma X2_rows_preserved_witness :
  nrows sample_output = nrows (record_frame sample_application)
  /\ (well_formed (record_frame sample_application) = true ->
      well_formed sample_output = true).
Proof.
  exact (X2_rows_preserved repr_decimal parse_decimal
           (record_frame sample_application) sample_output clean_sample).
Defined.

(** ** The columns of the output *)

Lemma names_set_col :
  forall n s d, names (set_col n s d) = append_absent n (names d).
Proof.
  intros n s d. unfold append_absent. change (mem n (names d)) with (has_col n d).
  rewrite has_col_get_col. unfold names, set_col, get_col; cbn [columns].
  destruct (lookup n (columns d)) eqn:L.
  - exact (names_set_assoc_present n s _ _ L).
  - exact (names_set_assoc_absent n s _ L).
Qed.

Lemma names_set_col_present :
  forall n s d s0, get_col n d = Some s0 -> names (set_col n s d) = names d.
Proof. intros n s d s0 G. exact (names_set_assoc_present n s _ _ G). Qed.

Lemma clean_raw_df_nrows :
  forall fr pn d out, clean_raw_df fr pn d = Ok out -> nrows out = nrows d.
Proof.
  intros fr pn d out H. apply clean_raw_df_inv in H.
  destruct H as [d1 [d2 [d3 [d4 [d5 [d6 [H1 [H2 [H3 [H4 [H5 [H6 H7]]]]]]]]]]]].
  rewrite (proj1 (map_target_stable _ _ H7)), (one_hot_nrows fr _ _ H6).
  rewrite (proj1 (encode_binary_stable _ _ H5)).
  rewrite (proj1 (cap_outliers_stable _ _ H4)).
  rewrite (proj1 (engineer_rows_names _ _ H3)).
  rewrite (proj1 (dependents_cleanup_stable fr pn _ _ H2)).
  exact (proj1 (impute_stable _ _ H1)).
Qed.

Lemma engineer_names :
  forall d d',
    engineer d = Ok d' ->
    let ns := append_absent "Income_to_Loan_Ratio"
                (append_absent "TotalIncome" (names d)) in
    names d'
    = if mem "ApplicantIncome" ns && mem "CoapplicantIncome" ns
      then append_absent "Applicant_to_Coapp_Ratio" ns
      else ns.
Proof.
  intros d d' H. apply engineer_inv in H. destruct H as [e1 [e2 [H1 [H2 H3]]]].
  apply total_income_inv in H1. destruct H1 as [t [-> _]].
  assert (N2 : names e2
               = append_absent "Income_to_Loan_Ratio"
                   (append_absent "TotalIncome" (names d))).
  { apply income_to_loan_inv in H2.
    destruct (get_col "LoanAmount" (set_col "TotalIncome" t d)) as [la|] eqn:G.
    - destruct H2 as [m [t' [r [_ [_ [_ ->]]]]]].
      rewrite names_set_col.
      rewrite (names_set_col_present _ (replace (Int 0) m la) _ _ G).
      rewrite names_set_col. reflexivity.
    - subst e2. rewrite !names_set_col. reflexivity. }
  apply applicant_to_coapp_inv in H3. cbn zeta. rewrite <- N2.
  change (mem "ApplicantIncome" (names e2) && mem "CoapplicantIncome" (names e2))
    with (incomes_present e2).
  destruct (incomes_present e2).
  - destruct H3 as [a [c [q [_ [_ [_ ->]]]]]]. apply names_set_col.
  - subst d'. reflexivity.
Qed.

Lemma kept_before_one_hot :
  forall fr pn d d1 d2 d3 d4 d5 m,
    impute d = Ok d1 ->
    dependents_cleanup fr pn d1 = Ok d2 ->
    engineer d2 = Ok d3 ->
    cap_outliers d3 = Ok d4 ->
    encode_binary d4 = Ok d5 ->
    mem m ["LoanAmount"; "ApplicantIncome"; "CoapplicantIncome";
           "Loan_Amount_Term"; "Credit_History"; "Self_Employed"; "Gender";
           "Married"; "Dependents"; "Education"; "TotalIncome";
           "Income_to_Loan_Ratio"; "Applicant_to_Coapp_Ratio"] = false ->
    get_col m d5 = get_col m d.
Proof.
  intros fr pn d d1 d2 d3 d4 d5 m H1 H2 H3 H4 H5 Hm. split_mem Hm.
  rewrite (encode_binary_writes _ _ m H5)
    by (cbn; rewrite E5, E6, E8, E4; reflexivity).
  rewrite (cap_outliers_writes _ _ m H4) by (cbn; rewrite E0, E; reflexivity).
  rewrite (engineer_writes _ _ m H3)
    by (cbn; rewrite E9, E, E10, E11; reflexivity).
  rewrite (dependents_cleanup_writes fr pn _ _ m H2)
    by (cbn; rewrite E7; reflexivity).
  apply (impute_writes_ok _ _ m H1).
  cbn; rewrite E, E0, E1, E2, E3, E4, E5, E6, E7; reflexivity.
Qed.

Lemma fresh_dummy_names :
  forall d n,
    forallb (fun n => negb (has_col n d)) property_columns = true ->
    In n property_columns -> get_col n d = None.
Proof.
  intros d n H Hn. rewrite forallb_forall in H. specialize (H n Hn).
  rewrite has_col_get_col in H. destruct (get_col n d); [discriminate|reflexivity].
Qed.

Lemma names_clean_raw_df :
  forall fr pn d out,
    prints_no_category fr ->
    forallb (fun n => negb (has_col n d)) property_columns = true ->
    clean_raw_df fr pn d = Ok out ->
    names out = output_columns (names d).
Proof.
  intros fr pn d out Hfr Hfresh H. apply clean_raw_df_inv in H.
  destruct H as [d1 [d2 [d3 [d4 [d5 [d6 [H1 [H2 [H3 [H4 [H5 [H6 H7]]]]]]]]]]]].
  assert (N5 : names d5
               = let ns := append_absent "Income_to_Loan_Ratio"
                             (append_absent "TotalIncome" (names d)) in
                 if mem "ApplicantIncome" ns && mem "CoapplicantIncome" ns
                 then append_absent "Applicant_to_Coapp_Ratio" ns
                 else ns).
  { rewrite (proj2 (encode_binary_stable _ _ H5)).
    rewrite (proj2 (cap_outliers_stable _ _ H4)).
    rewrite (engineer_names _ _ H3).
    rewrite (proj2 (dependents_cleanup_stable fr pn _ _ H2)).
    rewrite (proj2 (impute_stable _ _ H1)). reflexivity. }
  rewrite (proj2 (map_target_stable _ _ H7)).
  unfold output_columns. cbn zeta in N5 |- *. rewrite <- N5.
  change (mem "Property_Area" (names d5)) with (has_col "Property_Area" d5).
  rewrite has_col_get_col.
  assert (K : forall n, In n property_columns -> get_col n d5 = None).
  { intros n Hn.
    rewrite (kept_before_one_hot fr pn d d1 d2 d3 d4 d5 n H1 H2 H3 H4 H5).
    - exact (fresh_dummy_names d n Hfresh Hn).
    - cbn in Hn. destruct Hn as [<-|[<-|[<-|[]]]]; reflexivity. }
  destruct (get_col "Property_Area" d5) as [area|] eqn:G.
  - rewrite (one_hot_result fr d5 area G Hfr) in H6
      by (apply K; cbn; tauto).
    injection H6 as <-. apply names_with_dummies.
  - unfold one_hot_property_area in H6. rewrite G in H6.
    injection H6 as <-. reflexivity.
Qed.

(** X3.  The columns of the returned frame, and their order, are determined
    by the columns of the frame given: the derived features are appended
    where absent, and Property_Area gives way to the three dummies, which
    come last.  The values of the cells play no part. *)
Theorem X3_output_columns :
  forall fr pn d out,
    prints_no_category fr ->
    forallb (fun n => negb (has_col n d)) property_columns = true ->
    clean_raw_df fr pn d = Ok out ->
    names out = output_columns (names d).
Proof. exact names_clean_raw_df. Qed.

Lemma X3_output_columns_witness :
  names sample_output = output_columns (names (record_frame sample_application)).
Proof.
  exact (X3_output_columns repr_decimal parse_decimal
           (record_frame sample_application) sample_output
           repr_decimal_no_category eq_refl clean_sample).
Defined.

Lemma names_drop_cols :
  forall ns d,
    names (drop_cols ns d) = filter (fun n => negb (mem n ns)) (names d).
Proof.
  intros ns d. unfold names, drop_cols; cbn [columns].
  exact (map_fst_filter (fun n => negb (mem n ns)) (columns d)).
Qed.

Lemma model_input_inv :
  forall fr pn a X,
    model_input fr pn a = Ok X ->
    exists out,
      clean_raw_df fr pn (record_frame a) = Ok out
      /\ X = drop_cols ["Loan_ID"; "Loan_Status"] out.
Proof.
  intros fr pn a X H. unfold model_input in H. apply bind_ok in H.
  destruct H as [out [Hc H]]. injection H as <-. exists out. split; auto.
Qed.

(** X4.  Whatever the request, the batch the endpoint hands to the model
    has one row and the same sixteen columns in the same order, without
    the identifier and without a label. *)
Theorem X4_inference_columns :
  forall fr pn a X,
    prints_no_category fr ->
    model_input fr pn a = Ok X ->
    nrows X = 1%nat /\ names X = sample_features.
Proof.
  intros fr pn a X Hfr H. apply model_input_inv in H.
  destruct H as [out [Hc ->]]. split.
  - cbn [drop_cols nrows]. exact (clean_raw_df_nrows fr pn _ _ Hc).
  - rewrite names_drop_cols.
    rewrite (names_clean_raw_df fr pn (record_frame a) out Hfr eq_refl Hc).
    reflexivity.
Qed.

Lemma model_input_sample :
  model_input repr_decimal parse_decimal sample_application
  = Ok (drop_cols ["Loan_ID"; "Loan_Status"] sample_output).
Proof. unfold model_input. fold clean. rewrite clean_sample. reflexivity. Qed.

Lemma X4_inference_columns_witness :
  nrows (drop_cols ["Loan_ID"; "Loan_Status"] sample_output) = 1%nat
  /\ names (drop_cols ["Loan_ID"; "Loan_Status"] sample_output)
     = sample_features.
Proof.
  exact (X4_inference_columns repr_decimal parse_decimal sample_application _
           repr_decimal_no_category model_input_sample).
Defined.

Lemma standard_csv_clean : clean standard_csv = Ok standard_clean.
Proof. vm_compute. reflexivity. Qed.

Lemma prepare_inv :
  forall fr df X y fc,
    prepare fr df = Ok (X, y, fc) ->
    exists ls,
      get_col "Loan_Status" df = Some ls
      /\ target ls = Ok y
      /\ fc = names X
      /\ object_columns X = []
      /\ X = match object_columns (drop_cols ["Loan_ID"; "Loan_Status"] df) with
             | [] => drop_cols ["Loan_ID"; "Loan_Status"] df
             | _ :: _ =>
                 get_dummies_columns fr
                   (object_columns (drop_cols ["Loan_ID"; "Loan_Status"] df))
                   (drop_cols ["Loan_ID"; "Loan_Status"] df)
             end.
Proof.
  intros fr df X y fc H. unfold prepare in H.
  destruct (negb (has_col "Loan_Status" df)); [discriminate|].
  apply bind_ok in H. destruct H as [ls [Hls H]].
  apply bind_ok in H. destruct H as [y' [Hy H]].
  cbn zeta in H.
  destruct (object_columns
              match object_columns (drop_cols ["Loan_ID"; "Loan_Status"] df) with
              | [] => drop_cols ["Loan_ID"; "Loan_Status"] df
              | _ :: _ =>
                  get_dummies_columns fr
                    (object_columns (drop_cols ["Loan_ID"; "Loan_Status"] df))
                    (drop_cols ["Loan_ID"; "Loan_Status"] df)
              end) eqn:O; [|discriminate].
  injection H as <- <- <-. exists ls.
  repeat split; auto using getitem_ok.
Qed.

(** X5.  Training on a file with the columns of the raw schema, in its
    order, persists as feature list the column list of every inference
    batch, provided the transformer left no text column behind: on such
    files the missing alignment of the endpoint changes nothing. *)
Theorem X5_training_columns_match_inference :
  forall fr pn d df X y fc,
    prints_no_category fr ->
    names d = raw_fields ->
    clean_raw_df fr pn d = Ok df ->
    object_columns (drop_cols ["Loan_ID"; "Loan_Status"] df) = [] ->
    prepare fr df = Ok (X, y, fc) ->
    fc = sample_features
    /\ forall a X_new, model_input fr pn a = Ok X_new -> names X_new = fc.
Proof.
  intros fr pn d df X y fc Hfr Hn Hc Ho Hp.
  assert (Hfc : fc = sample_features).
  { apply prepare_inv in Hp.
    destruct Hp as [ls [_ [_ [-> [_ ->]]]]]. rewrite Ho.
    rewrite names_drop_cols.
    rewrite (names_clean_raw_df fr pn d df Hfr); [rewrite Hn; reflexivity| |exact Hc].
    unfold has_col. rewrite Hn. reflexivity. }
  split; [exact Hfc|].
  intros a X_new Hm. rewrite Hfc.
  apply model_input_inv in Hm. destruct Hm as [out [Hout ->]].
  rewrite names_drop_cols.
  rewrite (names_clean_raw_df fr pn (record_frame a) out Hfr eq_refl Hout).
  reflexivity.
Qed.

Lemma prepare_standard :
  prepare repr_decimal standard_clean
  = Ok (drop_cols ["Loan_ID"; "Loan_Status"] standard_clean, [Int 1; Int 0],
        sample_features).
Proof. vm_compute. reflexivity. Qed.

Lemma X5_training_columns_match_inference_witness :
  names (drop_cols ["Loan_ID"; "Loan_Status"] sample_output) = sample_features.
Proof.
  exact (proj2 (X5_training_columns_match_inference repr_decimal parse_decimal
                  standard_csv standard_clean _ _ _ repr_decimal_no_category
                  eq_refl standard_csv_clean eq_refl prepare_standard)
               sample_application _ model_input_sample).
Defined.

(** ** The binary encodings *)

Lemma assignments_forward :
  forall t n f d d' s,
    NoDup (map fst t) -> In (n, f) t ->
    assignments t d = Ok d' -> get_col n d = Some s ->
    exists s', f s = Ok s' /\ get_col n d' = Some s'.
Proof.
  induction t as [|[m g] t IH]; intros n f d d' s Hnd Hin H G; [destruct Hin|].
  rewrite assignments_cons in H. apply bind_ok in H. destruct H as [x [Hx H]].
  inversion Hnd as [|? ? Hm Hnd']; subst.
  pose proof (assignments_writes t x d' m H (mem_false_not_in _ _ Hm)) as Hkeep.
  destruct Hin as [Heq|Hin].
  - injection Heq as -> ->.
    pose proof (on_col_inv _ _ _ _ Hx) as Hi. rewrite G in Hi.
    destruct Hi as [s' [Hs ->]]. exists s'. split; [exact Hs|].
    rewrite Hkeep. apply get_col_set_col_same.
  - assert (Hnm : String.eqb n m = false).
    { apply String.eqb_neq. intros ->. apply Hm.
      exact (in_map fst _ _ Hin). }
    apply (IH n f x d' s Hnd' Hin H).
    rewrite (on_col_writes m g d x n Hx) by (cbn; rewrite Hnm; reflexivity).
    exact G.
Qed.

Lemma encode_indicator :
  forall k1 k0 s,
    encode [(k1, 1); (k0, 0)] s = Ok (map (indicator (Str k1)) s).
Proof.
  intros k1 k0 s. unfold encode, astype_int, fillna, map_dict.
  induction s as [|c s IH]; [reflexivity|].
  cbn [map mapM]. rewrite IH.
  destruct c as [|z|x|k]; try reflexivity.
  unfold indicator. cbn [lookup cell_eqb].
  destruct (String.eqb k k1); [reflexivity|].
  destruct (String.eqb k k0); reflexivity.
Qed.

Lemma indicator_fillna :
  forall k v s,
    indicator (Str k) v = Int 0 ->
    map (indicator (Str k)) (fillna v s) = map (indicator (Str k)) s.
Proof.
  intros k v s Hv. unfold fillna. rewrite map_map. apply map_ext.
  intros c. destruct c; cbn [isnull]; [exact Hv|reflexivity..].
Qed.

Lemma kept_after_encode :
  forall fr d5 d6 out m,
    one_hot_property_area fr d5 = Ok d6 ->
    map_target d6 = Ok out ->
    mem m ["Property_Area"; "Property_Rural"; "Property_Semiurban";
           "Property_Urban"; "Loan_Status"] = false ->
    get_col m out = get_col m d5.
Proof.
  intros fr d5 d6 out m H6 H7 Hm. split_mem Hm.
  rewrite (map_target_writes _ _ m H7) by (cbn; rewrite E3; reflexivity).
  apply (one_hot_writes fr _ _ m H6). cbn. rewrite E, E0, E1, E2. reflexivity.
Qed.

Lemma encoded_column :
  forall fr pn d1 d2 d3 d4 d5 d6 out n k1 k0 s1,
    dependents_cleanup fr pn d1 = Ok d2 ->
    engineer d2 = Ok d3 ->
    cap_outliers d3 = Ok d4 ->
    encode_binary d4 = Ok d5 ->
    one_hot_property_area fr d5 = Ok d6 ->
    map_target d6 = Ok out ->
    In (n, encode [(k1, 1); (k0, 0)]) encode_table ->
    get_col n d1 = Some s1 ->
    get_col n out = Some (map (indicator (Str k1)) s1).
Proof.
  intros fr pn d1 d2 d3 d4 d5 d6 out n k1 k0 s1 H2 H3 H4 H5 H6 H7 Hin G1.
  assert (Hn : mem n ["Dependents"; "TotalIncome"; "LoanAmount";
                      "Income_to_Loan_Ratio"; "Applicant_to_Coapp_Ratio";
                      "ApplicantIncome"; "Property_Area"; "Property_Rural";
                      "Property_Semiurban"; "Property_Urban"; "Loan_Status"]
               = false).
  { cbn in Hin.
    destruct Hin as [Hin|[Hin|[Hin|[Hin|[]]]]]; injection Hin as <- _;
      reflexivity. }
  split_mem Hn.
  assert (G4 : get_col n d4 = Some s1).
  { rewrite (cap_outliers_writes _ _ n H4) by (cbn; rewrite E4, E1; reflexivity).
    rewrite (kept_until_cap fr pn d1 d2 d3 n H2 H3)
      by (cbn; rewrite E, E0, E1, E2, E3; reflexivity).
    exact G1. }
  rewrite encode_binary_assignments in H5.
  destruct (assignments_forward encode_table n _ d4 d5 s1 NoDup_encode_table
              Hin H5 G4) as [s' [Hs G5]].
  rewrite encode_indicator in Hs. injection Hs as <-.
  rewrite (kept_after_encode fr d5 d6 out n H6 H7)
    by (cbn; rewrite E5, E6, E7, E8, E9; reflexivity).
  exact G5.
Qed.

(** X6.  The four binary columns are encoded against one value each: a
    row of Education is 1 exactly when it reads Graduate and a row of
    Self_Employed exactly when it reads Yes, every other value and a null
    giving 0; a row of Gender is 1 exactly when it reads Male and a row of
    Married exactly when it reads Yes, a null counting as the most frequent
    value of its column.  Female and No are not told apart from a value
    that is no category. *)
Theorem X6_binary_encodings :
  forall fr pn d out,
    clean_raw_df fr pn d = Ok out ->
    (forall s, get_col "Education" d = Some s ->
               get_col "Education" out
               = Some (map (indicator (Str "Graduate")) s))
    /\ (forall s, get_col "Self_Employed" d = Some s ->
                  get_col "Self_Employed" out
                  = Some (map (indicator (Str "Yes")) s))
    /\ (forall s, get_col "Gender" d = Some s ->
                  exists m,
                    mode0 s = Ok m
                    /\ get_col "Gender" out
                       = Some (map (indicator (Str "Male")) (fillna m s)))
    /\ (forall s, get_col "Married" d = Some s ->
                  exists m,
                    mode0 s = Ok m
                    /\ get_col "Married" out
                       = Some (map (indicator (Str "Yes")) (fillna m s))).
Proof.
  intros fr pn d out H. apply clean_raw_df_inv in H.
  destruct H as [d1 [d2 [d3 [d4 [d5 [d6 [H1 [H2 [H3 [H4 [H5 [H6 H7]]]]]]]]]]]].
  pose proof (encoded_column fr pn d1 d2 d3 d4 d5 d6 out) as Henc.
  specialize (fun n k1 k0 s1 => Henc n k1 k0 s1 H2 H3 H4 H5 H6 H7).
  rewrite impute_assignments in H1.
  repeat split.
  - intros s G. apply (Henc _ _ "Not Graduate"); [cbn; tauto|].
    rewrite <- impute_assignments in H1.
    rewrite (impute_writes_ok _ _ "Education" H1 eq_refl). exact G.
  - intros s G.
    destruct (assignments_forward impute_table "Self_Employed" _ d d1 s
                NoDup_impute_table
                (or_intror (or_intror (or_intror (or_intror (or_intror
                   (or_introl eq_refl)))))) H1 G) as [s1 [Hs G1]].
    injection Hs as <-.
    rewrite (Henc _ _ "No" _ (or_intror (or_intror (or_intror
                                (or_introl eq_refl)))) G1).
    rewrite indicator_fillna by reflexivity. reflexivity.
  - intros s G.
    destruct (assignments_forward impute_table "Gender" _ d d1 s
                NoDup_impute_table
                (or_intror (or_intror (or_intror (or_intror (or_intror
                   (or_intror (or_introl eq_refl))))))) H1 G) as [s1 [Hs G1]].
    unfold fill_mode in Hs. apply bind_ok in Hs. destruct Hs as [m [Hm Hs]].
    injection Hs as <-. exists m. split; [exact Hm|].
    exact (Henc _ _ "Female" _ (or_introl eq_refl) G1).
  - intros s G.
    destruct (assignments_forward impute_table "Married" _ d d1 s
                NoDup_impute_table
                (or_intror (or_intror (or_intror (or_intror (or_intror
                   (or_intror (or_intror (or_introl eq_refl)))))))) H1 G)
      as [s1 [Hs G1]].
    unfold fill_mode in Hs. apply bind_ok in Hs. destruct Hs as [m [Hm Hs]].
    injection Hs as <-. exists m. split; [exact Hm|].
    exact (Henc _ _ "No" _ (or_intror (or_introl eq_refl)) G1).
Qed.

Lemma X6_binary_encodings_witness :
  get_col "Education" sample_output
  = Some (map (indicator (Str "Graduate")) [Str "Graduate"])
  /\ get_col "Self_Employed" sample_output
     = Some (map (indicator (Str "Yes")) [Str "No"]).
Proof.
  split.
  - exact (proj1 (X6_binary_encodings repr_decimal parse_decimal
                    (record_frame sample_application) sample_output
                    clean_sample) [Str "Graduate"] eq_refl).
  - exact (proj1 (proj2 (X6_binary_encodings repr_decimal parse_decimal
                           (record_frame sample_application) sample_output
                           clean_sample)) [Str "No"] eq_refl).
Defined.

(** ** The engineered features *)

Lemma zipM_nth :
  forall (A B C : Type) (f : A -> B -> result C) l r t i x y,
    zipM f l r = Ok t -> nth_error l i = Some x -> nth_error r i = Some y ->
    exists z, f x y = Ok z /\ nth_error t i = Some z.
Proof.
  induction l as [|a l IH]; intros r t i x y H Hx Hy.
  - destruct i; discriminate.
  - destruct r as [|b r]; [destruct i; discriminate|].
    cbn [zipM] in H. apply bind_ok in H. destruct H as [c [Hc H]].
    apply bind_ok in H. destruct H as [cs [Hcs H]]. injection H as <-.
    destruct i as [|i].
    + cbn in Hx, Hy. injection Hx as <-. injection Hy as <-.
      exists c. split; [exact Hc|reflexivity].
    + cbn in Hx, Hy. exact (IH r cs i x y Hcs Hx Hy).
Qed.

Lemma np_where_nth :
  forall cond a b i k x y,
    nth_error cond i = Some k -> nth_error a i = Some x ->
    nth_error b i = Some y ->
    nth_error (np_where cond a b) i = Some (as_float (if k then x else y)).
Proof.
  induction cond as [|k0 cond IH]; intros a b i k x y Hk Hx Hy.
  - destruct i; discriminate.
  - destruct a as [|x0 a]; [destruct i; discriminate|].
    destruct b as [|y0 b]; [destruct i; discriminate|].
    destruct i as [|i].
    + cbn in Hk, Hx, Hy. injection Hk as <-. injection Hx as <-.
      injection Hy as <-. reflexivity.
    + cbn in Hk, Hx, Hy. cbn [np_where nth_error]. exact (IH a b i k x y Hk Hx Hy).
Qed.

Lemma incomes_present_columns :
  forall d a c,
    get_col "ApplicantIncome" d = Some a ->
    get_col "CoapplicantIncome" d = Some c ->
    incomes_present d = true.
Proof.
  intros d a c Ga Gc. unfold incomes_present.
  rewrite !has_col_get_col, Ga, Gc. reflexivity.
Qed.

Lemma engineer_from_incomes :
  forall d d' a c,
    get_col "ApplicantIncome" d = Some a ->
    get_col "CoapplicantIncome" d = Some c ->
    engineer d = Ok d' ->
    exists t q,
      zipM cell_add a c = Ok t
      /\ get_col "TotalIncome" d' = Some t
      /\ zipM cell_div a c = Ok q
      /\ get_col "Applicant_to_Coapp_Ratio" d'
         = Some (np_where (map (fun x => cell_eqb x (Int 0)) c) a q).
Proof.
  intros d d' a c Ga Gc H. apply engineer_inv in H.
  destruct H as [e1 [e2 [H1 [H2 H3]]]].
  pose proof (total_income_inv _ _ H1) as I1. destruct I1 as [t [E1 I1]].
  rewrite (incomes_present_columns d a c Ga Gc) in I1.
  destruct I1 as [a1 [c1 [Ga1 [Gc1 Ht]]]].
  rewrite Ga in Ga1. injection Ga1 as <-. rewrite Gc in Gc1. injection Gc1 as <-.
  assert (Ga2 : get_col "ApplicantIncome" e2 = Some a).
  { rewrite (income_to_loan_writes _ _ "ApplicantIncome" H2 eq_refl).
    rewrite (total_income_writes _ _ "ApplicantIncome" H1 eq_refl). exact Ga. }
  assert (Gc2 : get_col "CoapplicantIncome" e2 = Some c).
  { rewrite (income_to_loan_writes _ _ "CoapplicantIncome" H2 eq_refl).
    rewrite (total_income_writes _ _ "CoapplicantIncome" H1 eq_refl). exact Gc. }
  pose proof (applicant_to_coapp_inv _ _ H3) as I3.
  rewrite (incomes_present_columns e2 a c Ga2 Gc2) in I3.
  destruct I3 as [a3 [c3 [q [Ga3 [Gc3 [Hq E3]]]]]].
  rewrite Ga2 in Ga3. injection Ga3 as <-. rewrite Gc2 in Gc3. injection Gc3 as <-.
  exists t, q. repeat split; try assumption.
  - rewrite (applicant_to_coapp_writes _ _ "TotalIncome" H3 eq_refl).
    rewrite (income_to_loan_writes _ _ "TotalIncome" H2 eq_refl).
    subst e1. apply get_col_set_col_same.
  - subst d'. apply get_col_set_col_same.
Qed.

Lemma features_from_incomes :
  forall fr pn d a c out,
    get_col "ApplicantIncome" d = Some a ->
    get_col "CoapplicantIncome" d = Some c ->
    clean_raw_df fr pn d = Ok out ->
    exists t q,
      zipM cell_add (fillna (Int 0) a) (fillna (Int 0) c) = Ok t
      /\ get_col "TotalIncome" out = Some t
      /\ zipM cell_div (fillna (Int 0) a) (fillna (Int 0) c) = Ok q
      /\ get_col "Applicant_to_Coapp_Ratio" out
         = Some (np_where (map (fun x => cell_eqb x (Int 0)) (fillna (Int 0) c))
                          (fillna (Int 0) a) q)
      /\ forall i x y r,
           nth_error a i = Some x -> nth_error c i = Some y ->
           cell_eqb (if isnull y then Int 0 else y) (Int 0) = true ->
           nth_error (np_where (map (fun x => cell_eqb x (Int 0))
                                    (fillna (Int 0) c))
                               (fillna (Int 0) a) q) i = Some r ->
           r = as_float (if isnull x then Int 0 else x).
Proof.
  intros fr pn d a c out Ga Gc H. apply clean_raw_df_inv in H.
  destruct H as [d1 [d2 [d3 [d4 [d5 [d6 [H1 [H2 [H3 [H4 [H5 [H6 H7]]]]]]]]]]]].
  rewrite impute_assignments in H1.
  destruct (assignments_forward impute_table "ApplicantIncome" _ d d1 a
              NoDup_impute_table (or_intror (or_introl eq_refl)) H1 Ga)
    as [a1 [Ha Ga1]].
  destruct (assignments_forward impute_table "CoapplicantIncome" _ d d1 c
              NoDup_impute_table (or_intror (or_intror (or_introl eq_refl)))
              H1 Gc) as [c1 [Hc Gc1]].
  injection Ha as <-. injection Hc as <-.
  rewrite <- (dependents_cleanup_writes fr pn _ _ "ApplicantIncome" H2 eq_refl)
    in Ga1.
  rewrite <- (dependents_cleanup_writes fr pn _ _ "CoapplicantIncome" H2 eq_refl)
    in Gc1.
  destruct (engineer_from_incomes d2 d3 _ _ Ga1 Gc1 H3) as [t [q [Ht [Gt [Hq Gq]]]]].
  exists t, q. repeat split; try assumption.
  - rewrite (kept_after_engineer fr d3 d4 d5 d6 out "TotalIncome" H4 H5 H6 H7
               eq_refl). exact Gt.
  - rewrite (kept_after_engineer fr d3 d4 d5 d6 out "Applicant_to_Coapp_Ratio"
               H4 H5 H6 H7 eq_refl). exact Gq.
  - intros i x y r Hx Hy Hzero Hr.
    pose proof (fillna_nth (Int 0) a i x Hx) as Fx.
    pose proof (fillna_nth (Int 0) c i y Hy) as Fy.
    destruct (zipM_nth _ _ _ _ _ _ _ i _ _ Hq Fx Fy) as [z [_ Hz]].
    assert (Hk : nth_error (map (fun x => cell_eqb x (Int 0)) (fillna (Int 0) c)) i
                 = Some true).
    { rewrite nth_error_map, Fy. cbn [option_map]. rewrite Hzero. reflexivity. }
    rewrite (np_where_nth _ _ _ i true _ z Hk Fx Hz) in Hr.
    injection Hr as <-. reflexivity.
Qed.

Lemma whole_sum :
  forall x y s,
    whole_amount x = true -> whole_amount y = true ->
    cell_add (if isnull x then Int 0 else x) (if isnull y then Int 0 else y)
    = Ok s ->
    cell_eqb s (Int (whole_value x + whole_value y)) = true.
Proof.
  assert (E : forall a b,
             feqb (Fin (Qred (inject_Z a + inject_Z b))) (Fin (inject_Z (a + b)))
             = true).
  { intros a b. unfold feqb, fleb.
    apply andb_true_intro; split; apply Qle_bool_iff;
      rewrite Qred_correct, <- inject_Z_plus; apply Qle_refl. }
  intros x y s Wx Wy H.
  assert (Hadd : cell_add (if isnull x then Int 0 else x)
                          (if isnull y then Int 0 else y)
                 = Ok (Flt (Fin (Qred (inject_Z (whole_value x)
                                       + inject_Z (whole_value y)))))).
  { destruct x as [|a|[[a p]| |]|sa]; try discriminate Wx;
      destruct y as [|b|[[b r]| |]|sb]; try discriminate Wy;
      cbn [whole_amount Qden Qnum] in Wx, Wy;
      repeat match goal with
             | W : (_ && _)%bool = true |- _ =>
                 apply andb_prop in W; destruct W as [?P _];
                 apply Pos.eqb_eq in P; subst
             end;
      reflexivity. }
  replace s with (Flt (Fin (Qred (inject_Z (whole_value x)
                                  + inject_Z (whole_value y)))))
    by congruence.
  apply E.
Qed.

Lemma whole_zero :
  forall y,
    whole_amount y = true -> whole_value y = 0 ->
    cell_eqb (if isnull y then Int 0 else y) (Int 0) = true.
Proof.
  intros [|b|[[b r]| |]|sb] W Hz; try discriminate W; cbn in Hz |- *.
  - reflexivity.
  - subst b. reflexivity.
  - subst b. reflexivity.
Qed.

Lemma whole_as_float :
  forall x,
    whole_amount x = true ->
    as_float (if isnull x then Int 0 else x)
    = Flt (Fin (inject_Z (whole_value x))).
Proof.
  intros [|a|[[a p]| |]|sa] W; try discriminate W; try reflexivity.
  cbn [whole_amount Qden Qnum] in W. apply andb_prop in W. destruct W as [P _].
  apply Pos.eqb_eq in P. subst p. reflexivity.
Qed.

Lemma whole_finite :
  forall s, forallb whole_amount s = true -> forallb finite_cell s = true.
Proof.
  intros s H. rewrite forallb_forall in *. intros c Hc.
  specialize (H c Hc). destruct c as [|z|[q| |]|t]; try discriminate H;
    reflexivity.
Qed.

(** X7.  TotalIncome and Applicant_to_Coapp_Ratio are computed from the two
    incomes with their nulls read as 0 and before ApplicantIncome is
    capped.  On a batch whose incomes are whole amounts, TotalIncome equals
    on each row the sum of the two incomes, and on a row whose coapplicant
    income is 0 or missing the ratio is the applicant income itself, as a
    float. *)
Theorem X7_features_from_uncapped_incomes :
  forall fr pn d a c out,
    get_col "ApplicantIncome" d = Some a ->
    get_col "CoapplicantIncome" d = Some c ->
    forallb whole_amount a = true ->
    forallb whole_amount c = true ->
    clean_raw_df fr pn d = Ok out ->
    exists t ratio,
      get_col "TotalIncome" out = Some t
      /\ get_col "Applicant_to_Coapp_Ratio" out = Some ratio
      /\ forall i x y,
           nth_error a i = Some x -> nth_error c i = Some y ->
           (exists s, nth_error t i = Some s
                      /\ cell_eqb s (Int (whole_value x + whole_value y)) = true)
           /\ (whole_value y = 0 ->
               nth_error ratio i = Some (Flt (Fin (inject_Z (whole_value x))))).
Proof.
  intros fr pn d a c out Ga Gc Wa Wc H.
  destruct (features_from_incomes fr pn d a c out Ga Gc H)
    as [t [q [Ht [Gt [Hq [Gq _]]]]]].
  exists t. eexists. split; [exact Gt|]. split; [exact Gq|].
  intros i x y Hx Hy.
  assert (Wx : whole_amount x = true).
  { rewrite forallb_forall in Wa. apply Wa. exact (nth_error_In _ _ Hx). }
  assert (Wy : whole_amount y = true).
  { rewrite forallb_forall in Wc. apply Wc. exact (nth_error_In _ _ Hy). }
  pose proof (fillna_nth (Int 0) a i x Hx) as Fx.
  pose proof (fillna_nth (Int 0) c i y Hy) as Fy.
  split.
  - destruct (zipM_nth _ _ _ _ _ _ _ i _ _ Ht Fx Fy) as [s [Hs Ns]].
    exists s. split; [exact Ns|]. exact (whole_sum x y s Wx Wy Hs).
  - intros Hz.
    destruct (zipM_nth _ _ _ _ _ _ _ i _ _ Hq Fx Fy) as [z [_ Nz]].
    assert (Hk : nth_error (map (fun x => cell_eqb x (Int 0)) (fillna (Int 0) c)) i
                 = Some true).
    { rewrite nth_error_map, Fy. cbn [option_map].
      rewrite (whole_zero y Wy Hz). reflexivity. }
    rewrite (np_where_nth _ _ _ i true _ z Hk Fx Nz).
    rewrite (whole_as_float x Wx). reflexivity.
Qed.

Lemma X7_features_from_uncapped_incomes_witness :
  exists t ratio,
    get_col "TotalIncome" standard_clean = Some t
    /\ get_col "Applicant_to_Coapp_Ratio" standard_clean = Some ratio
    /\ forall i x y,
         nth_error [Int 5849; Int 4583] i = Some x ->
         nth_error [Flt (Fin 0); Flt (Fin 1508)] i = Some y ->
         (exists s, nth_error t i = Some s
                    /\ cell_eqb s (Int (whole_value x + whole_value y)) = true)
         /\ (whole_value y = 0 ->
             nth_error ratio i = Some (Flt (Fin (inject_Z (whole_value x))))).
Proof.
  exact (X7_features_from_uncapped_incomes repr_decimal parse_decimal
           standard_csv [Int 5849; Int 4583] [Flt (Fin 0); Flt (Fin 1508)]
           standard_clean eq_refl eq_refl eq_refl eq_refl standard_csv_clean).
Defined.

(** ** Columns without a value *)

Lemma on_col_raise :
  forall n f d e,
    on_col n f d = Raise e -> exists s, get_col n d = Some s /\ f s = Raise e.
Proof.
  intros n f d e H. unfold on_col in H.
  destruct (get_col n d) as [s|]; [|discriminate].
  exists s. split; [reflexivity|]. destruct (f s); [discriminate|].
  cbn in H. congruence.
Qed.

Lemma assignments_raise :
  forall t n f d s e,
    Forall (fun nf => forall s e', snd nf s = Raise e' -> e' = e) t ->
    NoDup (map fst t) -> In (n, f) t ->
    get_col n d = Some s -> f s = Raise e ->
    assignments t d = Raise e.
Proof.
  induction t as [|[m g] t IH]; intros n f d s e Hall Hnd Hin G Hf;
    [destruct Hin|].
  rewrite assignments_cons. inversion Hall as [|? ? Hg Hall']; subst.
  inversion Hnd as [|? ? Hm Hnd']; subst. cbn [snd] in Hg.
  destruct (on_col m g d) as [x|e'] eqn:Hx.
  - cbn [bind]. destruct Hin as [Heq|Hin].
    + injection Heq as -> ->. unfold on_col in Hx. rewrite G, Hf in Hx.
      discriminate.
    + assert (Hnm : String.eqb n m = false).
      { apply String.eqb_neq. intros ->. apply Hm. exact (in_map fst _ _ Hin). }
      apply (IH n f x s e Hall' Hnd' Hin); [|exact Hf].
      rewrite (on_col_writes m g d x n Hx) by (cbn; rewrite Hnm; reflexivity).
      exact G.
  - cbn [bind]. apply on_col_raise in Hx. destruct Hx as [s0 [_ Hs0]].
    rewrite (Hg _ _ Hs0). reflexivity.
Qed.

Lemma dropna_all_null : forall s, all_null s = true -> dropna s = [].
Proof.
  induction s as [|c s IH]; intros H; [reflexivity|].
  cbn in H. apply andb_true_iff in H. destruct H as [Hc Hs].
  unfold dropna. cbn [filter]. rewrite Hc. exact (IH Hs).
Qed.

Lemma mode_all_null : forall s, all_null s = true -> mode s = [].
Proof. intros s H. unfold mode. rewrite (dropna_all_null s H). reflexivity. Qed.

Lemma fill_mode_all_null :
  forall s, all_null s = true -> fill_mode s = Raise KeyError.
Proof.
  intros s H. unfold fill_mode, mode0. rewrite (mode_all_null s H). reflexivity.
Qed.

Lemma fill_mode_raises_key_error :
  forall s e, fill_mode s = Raise e -> e = KeyError.
Proof.
  intros s e H. unfold fill_mode, mode0 in H.
  destruct (mode s); cbn in H; congruence.
Qed.

Lemma fill_credit_history_returns :
  forall s, exists s', fill_credit_history s = Ok s'.
Proof.
  intros s. unfold fill_credit_history, mode0.
  destruct (mode s); eexists; reflexivity.
Qed.

Lemma numeric_values_returns :
  forall s, existsb is_str s = false -> exists vs, numeric_values s = Ok vs.
Proof.
  induction s as [|c s IH]; intros H; [eexists; reflexivity|].
  cbn in H. apply orb_false_elim in H. destruct H as [Hc Hs].
  destruct (IH Hs) as [vs Hvs].
  destruct c; try discriminate; cbn [numeric_values]; rewrite Hvs;
    eexists; reflexivity.
Qed.

Lemma median_returns :
  forall s, existsb is_str s = false -> exists m, median s = Ok m.
Proof.
  intros s H. destruct (numeric_values_returns s H) as [vs Hvs].
  unfold median. rewrite Hvs. cbn [bind].
  destruct (List.length (sort fleb vs)); [eexists; reflexivity|].
  destruct (Nat.odd (S n)); eexists; reflexivity.
Qed.

(** The imputations after the one of LoanAmount. *)
Lemma impute_after_loan_amount :
  forall d,
    impute d = (x <- on_col "LoanAmount" fill_median d ;;
                assignments (tl impute_table) x).
Proof. reflexivity. Qed.

Lemma clean_raw_df_key_error :
  forall fr pn d n s,
    (forall la, get_col "LoanAmount" d = Some la -> existsb is_str la = false) ->
    In n ["Loan_Amount_Term"; "Gender"; "Married"; "Dependents"] ->
    get_col n d = Some s ->
    all_null s = true ->
    clean_raw_df fr pn d = Raise KeyError.
Proof.
  intros fr pn d n s Hla Hn G Hs.
  assert (Himp : impute d = Raise KeyError).
  { rewrite impute_after_loan_amount.
    assert (H1 : exists d1, on_col "LoanAmount" fill_median d = Ok d1).
    { unfold on_col. destruct (get_col "LoanAmount" d) as [la|] eqn:GL;
        [|eexists; reflexivity].
      destruct (median_returns la (Hla la eq_refl)) as [m Hm].
      unfold fill_median. rewrite Hm. eexists; reflexivity. }
    destruct H1 as [d1 H1]. rewrite H1. cbn [bind].
    assert (Hnl : String.eqb n "LoanAmount" = false).
    { cbn in Hn. destruct Hn as [<-|[<-|[<-|[<-|[]]]]]; reflexivity. }
    apply (assignments_raise (tl impute_table) n fill_mode d1 s KeyError).
    - cbn [tl impute_table]. repeat constructor; cbn [snd]; intros s0 e' H0;
        try discriminate; try exact (fill_mode_raises_key_error _ _ H0).
      destruct (fill_credit_history_returns s0) as [s' Hs']. congruence.
    - pose proof NoDup_impute_table as Hnd. inversion Hnd; assumption.
    - cbn in Hn |- *. intuition (subst; auto 10).
    - rewrite (on_col_writes _ _ d d1 n H1) by (cbn; rewrite Hnl; reflexivity).
      exact G.
    - exact (fill_mode_all_null s Hs). }
  unfold clean_raw_df. rewrite Himp. reflexivity.
Qed.

(** X8.  A batch whose Loan_Amount_Term, Gender, Married or Dependents
    column holds no value at all (every cell null, or no row) makes the
    transformer raise KeyError, from the subscript [mode()[0]] of lines
    31, 44, 47 and 50; only a string in LoanAmount, a TypeError of its
    median, comes first. *)
Theorem X8_column_without_value_raises :
  forall fr pn d n s,
    (forall la, get_col "LoanAmount" d = Some la -> existsb is_str la = false) ->
    In n ["Loan_Amount_Term"; "Gender"; "Married"; "Dependents"] ->
    get_col n d = Some s ->
    all_null s = true ->
    clean_raw_df fr pn d = Raise KeyError.
Proof. exact clean_raw_df_key_error. Qed.

Lemma X8_column_without_value_raises_witness :
  clean (record_frame no_term_application) = Raise KeyError.
Proof.
  apply (X8_column_without_value_raises repr_decimal parse_decimal
           (record_frame no_term_application) "Loan_Amount_Term" [NA]).
  - intros la Hla. injection Hla as <-. reflexivity.
  - cbn. tauto.
  - reflexivity.
  - reflexivity.
Defined.

Lemma fillna_no_null :
  forall v s, isnull v = false -> any_null (fillna v s) = false.
Proof.
  intros v s Hv. unfold any_null, fillna.
  induction s as [|c s IH]; [reflexivity|].
  cbn [map existsb]. rewrite IH.
  destruct (isnull c) eqn:Hc; [rewrite Hv|rewrite Hc]; reflexivity.
Qed.

Lemma fill_credit_history_inv :
  forall s s',
    fill_credit_history s = Ok s' ->
    exists v,
      s' = fillna v s /\ isnull v = false
      /\ (all_null s = true -> v = Flt (Fin 1))
      /\ (forall m, mode0 s = Ok m -> v = m).
Proof.
  intros s s' H. unfold fill_credit_history in H.
  destruct (mode s) as [|m ms] eqn:M.
  - injection H as <-. exists (Flt (Fin 1)). repeat split.
    intros m Hm. unfold mode0 in Hm. rewrite M in Hm. discriminate.
  - apply bind_ok in H. destruct H as [v [Hv H]]. injection H as <-.
    exists v. repeat split.
    + exact (proj2 (mode0_in _ _ Hv)).
    + intros Hn. rewrite (mode_all_null s Hn) in M. discriminate.
    + intros m' Hm'. congruence.
Qed.

(** X9.  The Credit_History column of the output holds no null, whatever
    the input: its nulls are replaced by the most frequent value of the
    column, and by 1.0 when the column holds no value.  Unlike the other
    mode imputations, this one cannot raise. *)
Theorem X9_credit_history_filled :
  forall fr pn d s out,
    get_col "Credit_History" d = Some s ->
    clean_raw_df fr pn d = Ok out ->
    exists v,
      get_col "Credit_History" out = Some (fillna v s)
      /\ any_null (fillna v s) = false
      /\ (all_null s = true -> v = Flt (Fin 1))
      /\ (forall m, mode0 s = Ok m -> v = m).
Proof.
  intros fr pn d s out G H. apply clean_raw_df_inv in H.
  destruct H as [d1 [d2 [d3 [d4 [d5 [d6 [H1 [H2 [H3 [H4 [H5 [H6 H7]]]]]]]]]]]].
  rewrite impute_assignments in H1.
  destruct (assignments_forward impute_table "Credit_History" _ d d1 s
              NoDup_impute_table
              (or_intror (or_intror (or_intror (or_intror (or_introl eq_refl)))))
              H1 G) as [s1 [Hs G1]].
  destruct (fill_credit_history_inv s s1 Hs) as [v [-> [Hv [Hall Hmode]]]].
  exists v. repeat split; try assumption.
  - rewrite (kept_after_engineer fr d3 d4 d5 d6 out "Credit_History" H4 H5 H6 H7
               eq_refl).
    rewrite (kept_until_cap fr pn d1 d2 d3 "Credit_History" H2 H3 eq_refl).
    exact G1.
  - exact (fillna_no_null v s Hv).
Qed.

Lemma X9_credit_history_filled_witness :
  exists v,
    get_col "Credit_History" sample_output = Some (fillna v [Flt (Fin 1)])
    /\ any_null (fillna v [Flt (Fin 1)]) = false
    /\ (all_null [Flt (Fin 1)] = true -> v = Flt (Fin 1))
    /\ (forall m, mode0 [Flt (Fin 1)] = Ok m -> v = m).
Proof.
  exact (X9_credit_history_filled repr_decimal parse_decimal
           (record_frame sample_application) [Flt (Fin 1)] sample_output
           eq_refl clean_sample).
Defined.

(** ** The label *)

Lemma target_of_mapped :
  forall ls,
    target (map_dict [("Y", 1); ("N", 0)] ls)
    = astype_int (map_dict [("Y", 1); ("N", 0)] ls).
Proof.
  intros ls. unfold target.
  assert (H : is_object (map_dict [("Y", 1); ("N", 0)] ls)
              || existsb (fun c => cell_eqb c (Str "Y") || cell_eqb c (Str "N"))
                         (dropna (map_dict [("Y", 1); ("N", 0)] ls)) = false).
  { apply orb_false_intro.
    - unfold is_object, map_dict. induction ls as [|c ls IH]; [reflexivity|].
      cbn [map existsb]. rewrite IH.
      destruct c as [| | |k]; try reflexivity.
      cbn [lookup]. destruct (String.eqb k "Y"); [reflexivity|].
      destruct (String.eqb k "N"); reflexivity.
    - unfold dropna, map_dict. induction ls as [|c ls IH]; [reflexivity|].
      cbn [map]. destruct c as [| | |k]; cbn [filter isnull negb]; try exact IH.
      cbn [lookup]. destruct (String.eqb k "Y");
        [cbn [filter isnull negb existsb cell_eqb num_of orb]; exact IH|].
      destruct (String.eqb k "N");
        [cbn [filter isnull negb existsb cell_eqb num_of orb]; exact IH
        |exact IH]. }
  rewrite H. reflexivity.
Qed.

Lemma labels_cast :
  forall ls,
    astype_int (map_dict [("Y", 1); ("N", 0)] ls)
    = if forallb known_label ls
      then Ok (map (indicator (Str "Y")) ls)
      else Raise ValueError.
Proof.
  unfold astype_int, map_dict. induction ls as [|c ls IH]; [reflexivity|].
  cbn [map mapM forallb]. rewrite IH. clear IH.
  destruct (forallb known_label ls); destruct c as [| | |k]; try reflexivity;
    unfold known_label, indicator; cbn [cell_eqb lookup];
    destruct (String.eqb k "Y"); try reflexivity;
    destruct (String.eqb k "N"); reflexivity.
Qed.

Lemma label_after_clean :
  forall fr pn d ls df,
    get_col "Loan_Status" d = Some ls ->
    clean_raw_df fr pn d = Ok df ->
    get_col "Loan_Status" df = Some (map_dict [("Y", 1); ("N", 0)] ls).
Proof.
  intros fr pn d ls df G H. apply clean_raw_df_inv in H.
  destruct H as [d1 [d2 [d3 [d4 [d5 [d6 [H1 [H2 [H3 [H4 [H5 [H6 H7]]]]]]]]]]]].
  assert (G6 : get_col "Loan_Status" d6 = Some ls).
  { rewrite (one_hot_writes fr _ _ "Loan_Status" H6 eq_refl).
    rewrite (kept_before_one_hot fr pn d d1 d2 d3 d4 d5 "Loan_Status"
               H1 H2 H3 H4 H5 eq_refl).
    exact G. }
  pose proof (on_col_inv _ _ _ _ H7) as I7. rewrite G6 in I7.
  destruct I7 as [s' [Hs ->]]. injection Hs as <-.
  apply get_col_set_col_same.
Qed.

(** X10.  Training demands that every label is the text Y or N.  The
    transformer maps Y to 1, N to 0 and anything else to null; on a file
    with a label that is neither, the cast of line 53 raises ValueError
    before the features are looked at, and on the other files the target
    is 1 exactly on the rows labelled Y. *)
Theorem X10_labels :
  forall fr pn d ls df,
    get_col "Loan_Status" d = Some ls ->
    clean_raw_df fr pn d = Ok df ->
    (forallb known_label ls = false -> prepare fr df = Raise ValueError)
    /\ (forallb known_label ls = true ->
        forall X y fc,
          prepare fr df = Ok (X, y, fc) -> y = map (indicator (Str "Y")) ls).
Proof.
  intros fr pn d ls df G H.
  pose proof (label_after_clean fr pn d ls df G H) as GL.
  split.
  - intros Hbad. unfold prepare, getitem.
    rewrite has_col_get_col, GL. cbn [negb bind].
    rewrite target_of_mapped, labels_cast, Hbad. reflexivity.
  - intros Hgood X y fc Hp. apply prepare_inv in Hp.
    destruct Hp as [ls' [GL' [Hy _]]]. rewrite GL in GL'. injection GL' as <-.
    rewrite target_of_mapped, labels_cast, Hgood in Hy. congruence.
Qed.

Lemma mislabelled_csv_clean : clean mislabelled_csv = Ok mislabelled_clean.
Proof. vm_compute. reflexivity. Qed.

Lemma X10_labels_witness :
  prepare repr_decimal mislabelled_clean = Raise ValueError
  /\ [Int 1; Int 0] = map (indicator (Str "Y")) [Str "Y"; Str "N"].
Proof.
  split.
  - exact (proj1 (X10_labels repr_decimal parse_decimal mislabelled_csv
                    [Str "Y"; Str "y"] mislabelled_clean eq_refl
                    mislabelled_csv_clean) eq_refl).
  - exact (proj2 (X10_labels repr_decimal parse_decimal standard_csv
                    [Str "Y"; Str "N"] standard_clean eq_refl
                    standard_csv_clean) eq_refl _ _ _ prepare_standard).
Defined.

(* ================================================================== *)
(** * Further properties of the trainer *)

Section TrainerRuns.

Variable float_repr : float -> string.
Variable parse_number : string -> option float.
Variable Estimator : Type.
Variable train_test_split :
  DataFrame -> Series -> result (DataFrame * DataFrame * Series * Series).
Variable grid_search_fit : DataFrame -> Series -> result Estimator.
Variable proba_of : Estimator -> DataFrame -> result (list Q).
Variable roc_auc_score : Series -> list Q -> result Q.
Variable predict_of : Estimator -> DataFrame -> result (list Z).
Variable classification_report : Series -> list Z -> result unit.
Variable os_makedirs : string -> result unit.
Variable joblib_dump : file Estimator -> string -> outcome.

Let run :=
  train_and_save float_repr parse_number train_test_split grid_search_fit
                 proba_of roc_auc_score predict_of classification_report
                 os_makedirs joblib_dump.

Lemma no_dump_before :
  forall raw_csv_path out_model_path k path,
    (exists t, [ReadCsv raw_csv_path; Split; Fit; Score; Makedirs out_model_path]
               = k ++ t) ->
    ~ In (Dump path) k.
Proof.
  intros csv mp k path [t Ht] Hin.
  assert (H : In (Dump path) [ReadCsv csv; Split; Fit; Score; Makedirs mp])
    by (rewrite Ht; apply in_or_app; left; exact Hin).
  cbn in H. intuition discriminate.
Qed.

(** A run that raised before the first dump, with the calls [k] made. *)
Lemma raised_early :
  forall (w : world Estimator) raw_csv_path out_model_path out_features_path
         k,
    (exists t, [ReadCsv raw_csv_path; Split; Fit; Score; Makedirs out_model_path]
               = k ++ t) ->
    let w' := mkWorld (files w) (trace w ++ k) in
    (forall path,
        String.eqb path out_model_path = false ->
        String.eqb path out_features_path = false ->
        lookup path (files w') = lookup path (files w))
    /\ ((files w' = files w
         /\ exists k0, trace w' = trace w ++ k0
                       /\ forall path, ~ In (Dump path) k0)
        \/ (trace w' = trace w ++ [ReadCsv raw_csv_path; Split; Fit; Score;
                                   Makedirs out_model_path;
                                   Dump out_model_path]
            /\ (files w' = files w
                \/ files w' = (out_model_path, Truncated) :: files w))
        \/ (trace w' = trace w ++ [ReadCsv raw_csv_path; Split; Fit; Score;
                                   Makedirs out_model_path;
                                   Dump out_model_path;
                                   Dump out_features_path]
            /\ exists clf : Estimator,
                files w' = (out_model_path, ModelPkl clf) :: files w
                \/ files w' = (out_features_path, Truncated)
                              :: (out_model_path, ModelPkl clf) :: files w)).
Proof.
  intros w csv mp fp k Hk w'. split; [reflexivity|]. left.
  split; [reflexivity|]. exists k. split; [reflexivity|].
  intros path. exact (no_dump_before csv mp k path Hk).
Qed.

(** X11.  A run of the trainer writes its two artifacts last.  When it
    returns, the feature file holds the feature list returned, which is
    the column list of the feature matrix, the model file holds the
    estimator returned unless both paths are the same, in which case the
    feature list has overwritten it, and the calls were read, split, fit,
    score, makedirs, dump, dump in this order.  When it raises before the
    first dump, no file was written.  The two artifacts are not written as
    one: when the dump of the feature list raises, the model file stays
    written without its feature list.  A path other than the two output
    paths holds what it held, however the run ends. *)
Theorem X11_artifacts_written_last :
  forall (w w' : world Estimator) raw_csv_path out_model_path out_features_path
         r,
    run raw_csv_path out_model_path out_features_path w = (r, w') ->
    (forall path,
        String.eqb path out_model_path = false ->
        String.eqb path out_features_path = false ->
        lookup path (files w') = lookup path (files w))
    /\ match r with
       | Ok (clf, feature_cols, auc) =>
           files w' = (out_features_path, FeaturesPkl feature_cols)
                      :: (out_model_path, ModelPkl clf) :: files w
           /\ lookup out_model_path (files w')
              = Some (if String.eqb out_model_path out_features_path
                      then FeaturesPkl feature_cols
                      else ModelPkl clf)
           /\ trace w' = trace w ++ [ReadCsv raw_csv_path; Split; Fit; Score;
                                     Makedirs out_model_path;
                                     Dump out_model_path;
                                     Dump out_features_path]
           /\ exists df_raw df X y,
               lookup raw_csv_path (files w) = Some (CsvFile df_raw)
               /\ clean_raw_df float_repr parse_number df_raw = Ok df
               /\ prepare float_repr df = Ok (X, y, feature_cols)
               /\ feature_cols = names X
       | Raise e =>
           (files w' = files w
            /\ exists k, trace w' = trace w ++ k
                         /\ forall path, ~ In (Dump path) k)
           \/ (trace w' = trace w ++ [ReadCsv raw_csv_path; Split; Fit; Score;
                                      Makedirs out_model_path;
                                      Dump out_model_path]
               /\ (files w' = files w
                   \/ files w' = (out_model_path, Truncated) :: files w))
           \/ (trace w' = trace w ++ [ReadCsv raw_csv_path; Split; Fit; Score;
                                      Makedirs out_model_path;
                                      Dump out_model_path;
                                      Dump out_features_path]
               /\ exists clf,
                   files w' = (out_model_path, ModelPkl clf) :: files w
                   \/ files w' = (out_features_path, Truncated)
                                 :: (out_model_path, ModelPkl clf) :: files w)
       end.
Proof.
  intros w w' csv mp fp r H.
  unfold run, train_and_save, iobind, path_exists, read_csv, iobind, emit, lift,
    makedirs, dump, ret, throw in H.
  destruct (lookup csv (files w)) as [f|] eqn:L; cbn [negb files trace] in H.
  2:{ injection H as <- <-. split; [reflexivity|]. left.
      split; [reflexivity|]. exists [].
      split; [symmetry; apply app_nil_r|intros path []]. }
  rewrite L in H.
  destruct f as [df_raw|m|c|];
    try (injection H as <- <-; apply (raised_early w csv mp fp [ReadCsv csv]);
         eexists; reflexivity).
  destruct (clean_raw_df float_repr parse_number df_raw) as [df|e] eqn:Hclean.
  2:{ injection H as <- <-. apply (raised_early w csv mp fp [ReadCsv csv]).
      eexists; reflexivity. }
  destruct (prepare float_repr df) as [[[X y] fc]|e] eqn:Hprep.
  2:{ injection H as <- <-. apply (raised_early w csv mp fp [ReadCsv csv]).
      eexists; reflexivity. }
  cbn [files trace] in H. rewrite <- ?app_assoc in H. cbn [app] in H.
  destruct (train_test_split X y) as [[[[X_train X_test] y_train] y_test]|e].
  2:{ injection H as <- <-.
      apply (raised_early w csv mp fp [ReadCsv csv; Split]).
      eexists; reflexivity. }
  cbn [files trace] in H. rewrite <- ?app_assoc in H. cbn [app] in H.
  destruct (grid_search_fit X_train y_train) as [clf|e].
  2:{ injection H as <- <-.
      apply (raised_early w csv mp fp [ReadCsv csv; Split; Fit]).
      eexists; reflexivity. }
  cbn [files trace] in H. rewrite <- ?app_assoc in H. cbn [app] in H.
  destruct (proba_of clf X_test) as [probs|e].
  2:{ injection H as <- <-.
      apply (raised_early w csv mp fp [ReadCsv csv; Split; Fit; Score]).
      eexists; reflexivity. }
  destruct (roc_auc_score y_test probs) as [auc|e].
  2:{ injection H as <- <-.
      apply (raised_early w csv mp fp [ReadCsv csv; Split; Fit; Score]).
      eexists; reflexivity. }
  destruct (predict_of clf X_test) as [preds|e].
  2:{ injection H as <- <-.
      apply (raised_early w csv mp fp [ReadCsv csv; Split; Fit; Score]).
      eexists; reflexivity. }
  destruct (classification_report y_test preds) as [u|e].
  2:{ injection H as <- <-.
      apply (raised_early w csv mp fp [ReadCsv csv; Split; Fit; Score]).
      eexists; reflexivity. }
  cbn [files trace] in H. rewrite <- ?app_assoc in H. cbn [app] in H.
  destruct (os_makedirs mp) as [u'|e].
  2:{ injection H as <- <-.
      apply (raised_early w csv mp fp
               [ReadCsv csv; Split; Fit; Score; Makedirs mp]).
      exists []; reflexivity. }
  cbn [files trace] in H. rewrite <- ?app_assoc in H. cbn [app] in H.
  destruct (joblib_dump (ModelPkl clf) mp) as [|e [|]].
  - cbn [files trace] in H. rewrite <- ?app_assoc in H. cbn [app] in H.
    destruct (joblib_dump (FeaturesPkl fc) fp) as [|e [|]];
      injection H as <- <-; cbn [files trace].
    + split.
      { intros path Hm Hf. cbn [lookup]. rewrite Hf, Hm. reflexivity. }
      split; [reflexivity|].
      split.
      { cbn [lookup]. destruct (String.eqb mp fp); [reflexivity|].
        rewrite String.eqb_refl. reflexivity. }
      split; [reflexivity|].
      exists df_raw, df, X, y. repeat split; try assumption.
      apply prepare_inv in Hprep. destruct Hprep as [ls [_ [_ [Hfc _]]]].
      exact Hfc.
    + split.
      { intros path Hm Hf. cbn [lookup]. rewrite Hf, Hm. reflexivity. }
      right. right. split; [reflexivity|]. exists clf. right. reflexivity.
    + split.
      { intros path Hm Hf. cbn [lookup]. rewrite Hm. reflexivity. }
      right. right. split; [reflexivity|]. exists clf. left. reflexivity.
  - injection H as <- <-. cbn [files trace]. split.
    { intros path Hm Hf. cbn [lookup]. rewrite Hm. reflexivity. }
    right. left. split; [reflexivity|]. right. reflexivity.
  - injection H as <- <-. cbn [files trace]. split; [reflexivity|].
    right. left. split; [reflexivity|]. left. reflexivity.
Qed.

End TrainerRuns.

Lemma train_standard :
  stub_train "data/raw/loan_train.csv" "models/model.pkl" "models/features.pkl"
             (training_disk standard_csv)
  = (Ok (tt, sample_features, 1 # 2),
     snd (stub_train "data/raw/loan_train.csv" "models/model.pkl"
                     "models/features.pkl" (training_disk standard_csv))).
Proof. vm_compute. reflexivity. Qed.

Lemma X11_artifacts_written_last_witness :
  files (snd (stub_train "data/raw/loan_train.csv" "models/model.pkl"
                         "models/features.pkl" (training_disk standard_csv)))
  = [("models/features.pkl", FeaturesPkl sample_features);
     ("models/model.pkl", ModelPkl tt);
     ("data/raw/loan_train.csv", CsvFile standard_csv)].
Proof.
  exact (proj1 (proj2 (X11_artifacts_written_last repr_decimal parse_decimal
                         unit stub_split stub_fit stub_proba stub_auc
                         stub_predict stub_report stub_makedirs stub_dump
                         _ _ _ _ _ _ train_standard))).
Defined.

(** A run on a disk that fills up while the feature list is written: the
    model file is there, the feature file is truncated. *)
Lemma model_without_feature_list :
  train_and_save repr_decimal parse_decimal stub_split stub_fit stub_proba
                 stub_auc stub_predict stub_report stub_makedirs full_disk_dump
                 "data/raw/loan_train.csv" "models/model.pkl"
                 "models/features.pkl" (training_disk standard_csv)
  = (Raise OSError,
     mkWorld [("models/features.pkl", Truncated);
              ("models/model.pkl", ModelPkl tt);
              ("data/raw/loan_train.csv", CsvFile standard_csv)]
             [ReadCsv "data/raw/loan_train.csv"; Split; Fit; Score;
              Makedirs "models/model.pkl"; Dump "models/model.pkl";
              Dump "models/features.pkl"]).
Proof. vm_compute. reflexivity. Qed.

(* ================================================================== *)
(** * When the transformer returns *)

(** ** The mode of a column with a value *)

Lemma fleb_trans :
  forall a b c, fleb a b = true -> fleb b c = true -> fleb a c = true.
Proof.
  intros [p| |] [q| |] [r| |]; cbn; intros H1 H2;
    try reflexivity; try discriminate.
  apply Qle_bool_iff. apply Qle_bool_iff in H1, H2. exact (Qle_trans _ _ _ H1 H2).
Qed.

Lemma feqb_congr :
  forall a b x, feqb a b = true -> feqb a x = feqb b x.
Proof.
  intros a b x H. unfold feqb in *. apply andb_true_iff in H.
  destruct H as [Hab Hba].
  assert (H1 : fleb a x = fleb b x).
  { destruct (fleb a x) eqn:E1, (fleb b x) eqn:E2; try reflexivity.
    - rewrite (fleb_trans b a x Hba E1) in E2. discriminate.
    - rewrite (fleb_trans a b x Hab E2) in E1. discriminate. }
  assert (H2 : fleb x a = fleb x b).
  { destruct (fleb x a) eqn:E1, (fleb x b) eqn:E2; try reflexivity.
    - rewrite (fleb_trans x a b E1 Hab) in E2. discriminate.
    - rewrite (fleb_trans x b a E2 Hba) in E1. discriminate. }
  rewrite H1, H2. reflexivity.
Qed.

Lemma cell_eqb_congr :
  forall a b x, cell_eqb a b = true -> cell_eqb a x = cell_eqb b x.
Proof.
  intros a b x H.
  destruct a as [|za|fa|sa], b as [|zb|fb|sb]; cbn in H; try discriminate;
    try (apply String.eqb_eq in H; subst; reflexivity);
    destruct x as [|zx|fx|sx]; cbn; try reflexivity;
    exact (feqb_congr _ _ _ H).
Qed.

Lemma count_congr :
  forall a b l, cell_eqb a b = true -> count a l = count b l.
Proof.
  intros a b l H. unfold count. f_equal. apply filter_ext.
  intros x. exact (cell_eqb_congr a b x H).
Qed.

Lemma distinct_representative :
  forall c l,
    In c l -> isnull c = false ->
    exists r, In r (distinct l) /\ cell_eqb r c = true.
Proof.
  intros c l. induction l as [|h l IH]; intros Hin Hc; [destruct Hin|].
  cbn [distinct]. destruct Hin as [->|Hin].
  - exists c. split; [left; reflexivity|exact (cell_eqb_refl c Hc)].
  - destruct (IH Hin Hc) as [r [Hr Hrc]].
    destruct (cell_eqb r h) eqn:Hrh.
    + exists h. split; [left; reflexivity|].
      rewrite <- (cell_eqb_congr r h c Hrh). exact Hrc.
    + exists r. split; [|exact Hrc]. right.
      apply filter_In. split; [exact Hr|]. rewrite Hrh. reflexivity.
Qed.

Lemma max_attained :
  forall (f : cell -> nat) l,
    l <> [] -> exists c, In c l /\ f c = fold_right Nat.max O (map f l).
Proof.
  intros f l. induction l as [|h l IH]; intros Hl; [congruence|].
  cbn [map fold_right]. destruct l as [|h' l'].
  - exists h. split; [left; reflexivity|]. cbn. symmetry. apply Nat.max_0_r.
  - destruct IH as [c [Hc Hf]]; [discriminate|].
    destruct (Nat.max_dec (f h) (fold_right Nat.max O (map f (h' :: l'))))
      as [E|E]; rewrite E.
    + exists h. split; [left; reflexivity|reflexivity].
    + exists c. split; [right; exact Hc|exact Hf].
Qed.

Lemma dropna_value :
  forall s, all_null s = false -> dropna s <> [].
Proof.
  induction s as [|c s IH]; intros H; [discriminate|].
  unfold dropna. cbn [filter]. cbn in H.
  destruct (isnull c); cbn [negb andb] in *; [exact (IH H)|discriminate].
Qed.

Lemma mode0_returns :
  forall s, all_null s = false -> exists m, mode0 s = Ok m.
Proof.
  intros s H. unfold mode0, mode.
  set (vs := dropna s).
  set (best := fold_right Nat.max O (map (fun c => count c vs) vs)).
  destruct (max_attained (fun c => count c vs) vs (dropna_value s H))
    as [c [Hc Hbest]].
  assert (Hnn : isnull c = false).
  { pose proof (dropna_not_null s) as Hd. rewrite forallb_forall in Hd.
    specialize (Hd c Hc). destruct (isnull c); [discriminate|reflexivity]. }
  destruct (distinct_representative c vs Hc Hnn) as [r [Hr Hrc]].
  assert (Hin : In r (sort cell_leb
                        (filter (fun c => Nat.eqb (count c vs) best)
                                (distinct vs)))).
  { apply in_sort. apply filter_In. split; [exact Hr|].
    rewrite (count_congr r c vs Hrc), Hbest. apply Nat.eqb_refl. }
  destruct (sort cell_leb
              (filter (fun c => Nat.eqb (count c vs) best) (distinct vs)))
    as [|m ms]; [destruct Hin|].
  exists m. reflexivity.
Qed.

(** ** Blocks of assignments that return *)

Lemma assignments_returns :
  forall t d,
    NoDup (map fst t) ->
    (forall n f s, In (n, f) t -> get_col n d = Some s -> exists s', f s = Ok s') ->
    exists d', assignments t d = Ok d'.
Proof.
  induction t as [|[m g] t IH]; intros d Hnd Hall; [eexists; reflexivity|].
  rewrite assignments_cons. inversion Hnd as [|? ? Hm Hnd']; subst.
  assert (Hx : exists x, on_col m g d = Ok x).
  { unfold on_col. destruct (get_col m d) as [s|] eqn:G; [|eexists; reflexivity].
    destruct (Hall m g s (or_introl eq_refl) G) as [s' Hs'].
    rewrite Hs'. eexists; reflexivity. }
  destruct Hx as [x Hx]. rewrite Hx. cbn [bind].
  apply (IH x Hnd'). intros n f s Hin G.
  apply (Hall n f s (or_intror Hin)).
  assert (Hnm : String.eqb n m = false).
  { apply String.eqb_neq. intros ->. apply Hm. exact (in_map fst _ _ Hin). }
  rewrite <- (on_col_writes m g d x n Hx) by (cbn; rewrite Hnm; reflexivity).
  exact G.
Qed.

Lemma finite_cell_no_text :
  forall s, forallb finite_cell s = true -> existsb is_str s = false.
Proof.
  induction s as [|c s IH]; intros H; [reflexivity|].
  cbn in H. apply andb_true_iff in H. destruct H as [Hc Hs].
  cbn. rewrite (IH Hs). destruct c as [| |[]|]; try discriminate; reflexivity.
Qed.

Lemma has_value_column :
  forall n d s,
    has_value n d = true -> get_col n d = Some s -> all_null s = false.
Proof.
  intros n d s H G. unfold has_value in H. rewrite G in H.
  destruct (all_null s); [discriminate|reflexivity].
Qed.

Lemma impute_returns :
  forall d,
    raw_schema d = true ->
    forallb (fun n => has_value n d) mode_imputed = true ->
    exists d1, impute d = Ok d1.
Proof.
  intros d Hraw Hval.
  assert (Hmode : forall n s, In n mode_imputed -> get_col n d = Some s ->
                              exists s', fill_mode s = Ok s').
  { intros n s Hn G. rewrite forallb_forall in Hval.
    destruct (mode0_returns s (has_value_column n d s (Hval n Hn) G)) as [m Hm].
    unfold fill_mode. rewrite Hm. eexists; reflexivity. }
  destruct (assignments_returns impute_table d NoDup_impute_table) as [d1 H1].
  - intros n f s Hin G. cbn in Hin.
    destruct Hin as [E|[E|[E|[E|[E|[E|[E|[E|[E|[]]]]]]]]]];
      injection E as <- <-;
      try (eexists; reflexivity);
      try (refine (Hmode _ s _ G); cbn; tauto).
    + destruct (raw_schema_column d _ s Hraw G) as [_ Hfin].
      destruct (median_returns s (finite_cell_no_text s (Hfin eq_refl)))
        as [m Hm].
      unfold fill_median. rewrite Hm. eexists; reflexivity.
    + exact (fill_credit_history_returns s).
  - exists d1. rewrite impute_assignments. exact H1.
Qed.

(** ** The Dependents column *)

Lemma coerce_dependents_map :
  forall fr pn s,
    coerce_dependents fr pn s
    = map (fun c => to_numeric_cell pn
                      (if cell_eqb (astype_str_cell fr c) (Str "3+")
                       then Str "3" else astype_str_cell fr c)) s.
Proof.
  intros. unfold coerce_dependents, replace. rewrite !map_map. reflexivity.
Qed.

Lemma coerce_filled_finite :
  forall fr pn dep m,
    forallb finite_number (coerce_dependents fr pn (dropna dep)) = true ->
    mode0 dep = Ok m ->
    forallb finite_number (coerce_dependents fr pn (fillna m dep)) = true.
Proof.
  intros fr pn dep m H Hm. rewrite coerce_dependents_map in *.
  set (g := fun c => to_numeric_cell pn
                       (if cell_eqb (astype_str_cell fr c) (Str "3+")
                        then Str "3" else astype_str_cell fr c)) in *.
  rewrite forallb_forall in *. intros x Hx.
  apply in_map_iff in Hx. destruct Hx as [c [<- Hc]].
  apply H. apply (in_map g). unfold dropna. apply filter_In.
  unfold fillna in Hc. apply in_map_iff in Hc. destruct Hc as [c0 [<- Hc0]].
  destruct (mode0_in dep m Hm) as [Hin Hnn].
  destruct (isnull c0) eqn:N.
  - split; [exact Hin|]. rewrite Hnn. reflexivity.
  - split; [exact Hc0|]. rewrite N. reflexivity.
Qed.

Lemma finite_number_any_null :
  forall s, forallb finite_number s = true -> any_null s = false.
Proof.
  induction s as [|c s IH]; intros H; [reflexivity|].
  cbn in H. apply andb_true_iff in H. destruct H as [Hc Hs].
  unfold any_null. cbn [existsb]. fold (any_null s). rewrite (IH Hs).
  destruct c; try discriminate; reflexivity.
Qed.

Lemma astype_int_returns :
  forall s, forallb finite_number s = true -> exists s', astype_int s = Ok s'.
Proof.
  unfold astype_int. induction s as [|c s IH]; intros H; [eexists; reflexivity|].
  cbn in H. apply andb_true_iff in H. destruct H as [Hc Hs].
  destruct (IH Hs) as [s' Hs']. cbn [mapM]. rewrite Hs'.
  destruct c as [| |[]|]; try discriminate; eexists; reflexivity.
Qed.

Lemma dependents_cleanup_returns :
  forall fr pn d d1,
    dependents_readable fr pn d = true ->
    impute d = Ok d1 ->
    exists d2, dependents_cleanup fr pn d1 = Ok d2.
Proof.
  intros fr pn d d1 Hdep H1. unfold dependents_cleanup, on_col.
  destruct (get_col "Dependents" d1) as [s1|] eqn:G1; [|eexists; reflexivity].
  assert (G : exists dep, get_col "Dependents" d = Some dep).
  { pose proof (stable_has_col impute d d1 "Dependents" impute_stable H1) as Hh.
    rewrite !has_col_get_col, G1 in Hh.
    destruct (get_col "Dependents" d) as [dep|]; [eauto|discriminate]. }
  destruct G as [dep G].
  destruct (dependents_after_impute d d1 dep H1 G) as [m [Hm G1']].
  rewrite G1 in G1'. injection G1' as ->.
  unfold dependents_readable in Hdep. rewrite G in Hdep.
  pose proof (coerce_filled_finite fr pn dep m Hdep Hm) as Hfin.
  unfold clean_dependents.
  rewrite (finite_number_any_null _ Hfin). cbn [bind].
  destruct (astype_int_returns _ Hfin) as [s' Hs']. rewrite Hs'.
  eexists; reflexivity.
Qed.

(** ** The engineered features *)

Lemma zipM_returns :
  forall (f : cell -> cell -> result cell) (P Q : cell -> bool) a c,
    (forall x y, P x = true -> Q y = true -> exists z, f x y = Ok z) ->
    forallb P a = true -> forallb Q c = true ->
    exists t, zipM f a c = Ok t.
Proof.
  intros f P Q a c Hf. revert c.
  induction a as [|x a IH]; intros c Ha Hc; [eexists; reflexivity|].
  destruct c as [|y c]; [eexists; reflexivity|].
  cbn in Ha, Hc. apply andb_true_iff in Ha, Hc.
  destruct Ha as [Hx Ha], Hc as [Hy Hc].
  destruct (Hf x y Hx Hy) as [z Hz]. destruct (IH c Ha Hc) as [t Ht].
  cbn [zipM]. rewrite Hz, Ht. eexists; reflexivity.
Qed.

Lemma cell_add_returns :
  forall x y,
    finite_cell x = true -> finite_cell y = true ->
    exists z, cell_add x y = Ok z.
Proof.
  intros [| |[]|] [| |[]|]; intros Hx Hy; try discriminate;
    eexists; reflexivity.
Qed.

Lemma cell_add_finite_cell :
  forall x y z,
    finite_cell x = true -> finite_cell y = true ->
    cell_add x y = Ok z -> finite_cell z = true.
Proof.
  intros x y r Hx Hy H.
  destruct x as [|a|[p| |]|s], y as [|b|[q| |]|t]; try discriminate;
    cbn in H; injection H as <-; reflexivity.
Qed.

Lemma cell_div_returns :
  forall x y,
    finite_cell x = true -> finite_cell y = true ->
    exists z, cell_div x y = Ok z.
Proof.
  intros [| |[]|] [| |[]|]; intros Hx Hy; try discriminate;
    eexists; reflexivity.
Qed.

Lemma numeric_values_all_null :
  forall s, all_null s = true -> numeric_values s = Ok [].
Proof.
  induction s as [|c s IH]; intros H; [reflexivity|].
  cbn in H. apply andb_true_iff in H. destruct H as [Hc Hs].
  destruct c; try discriminate. cbn [numeric_values]. rewrite (IH Hs).
  reflexivity.
Qed.

Lemma median_finite_cell :
  forall s m,
    forallb finite_cell s = true -> median s = Ok m -> finite_cell m = true.
Proof.
  intros s m Hs Hm. destruct (all_null s) eqn:N.
  - unfold median in Hm. rewrite (numeric_values_all_null s N) in Hm.
    cbn in Hm. injection Hm as <-. reflexivity.
  - destruct (median_finite s Hs N) as [q Hq]. rewrite Hq in Hm.
    injection Hm as <-. reflexivity.
Qed.

Lemma fillna_finite_cell :
  forall v s,
    finite_cell v = true -> forallb finite_cell s = true ->
    forallb finite_cell (fillna v s) = true.
Proof.
  intros v s Hv. unfold fillna. induction s as [|c s IH]; intros H; [reflexivity|].
  cbn in H. apply andb_true_iff in H. destruct H as [Hc Hs].
  cbn [map forallb]. rewrite (IH Hs).
  destruct (isnull c); [rewrite Hv|rewrite Hc]; reflexivity.
Qed.

Lemma replace_finite_cell :
  forall a v s,
    finite_cell v = true -> forallb finite_cell s = true ->
    forallb finite_cell (replace a v s) = true.
Proof.
  intros a v s Hv. unfold replace. induction s as [|c s IH]; intros H;
    [reflexivity|].
  cbn in H. apply andb_true_iff in H. destruct H as [Hc Hs].
  cbn [map forallb]. rewrite (IH Hs).
  destruct (cell_eqb c a); [rewrite Hv|rewrite Hc]; reflexivity.
Qed.

Lemma loan_amount_after_impute :
  forall d d1 la1,
    raw_schema d = true -> impute d = Ok d1 ->
    get_col "LoanAmount" d1 = Some la1 -> forallb finite_cell la1 = true.
Proof.
  intros d d1 la1 Hraw H1 G1. rewrite impute_assignments in H1.
  destruct (assignments_column impute_table "LoanAmount" fill_median d d1 la1
              NoDup_impute_table (or_introl eq_refl) H1 G1) as [la [G Hf]].
  destruct (raw_schema_column d _ la Hraw G) as [_ Hfin].
  specialize (Hfin eq_refl).
  unfold fill_median in Hf. apply bind_ok in Hf. destruct Hf as [m [Hm Hf]].
  injection Hf as <-.
  exact (fillna_finite_cell m la (median_finite_cell la m Hfin Hm) Hfin).
Qed.

Lemma repeat_finite_cell :
  forall n, forallb finite_cell (repeat NA n) = true.
Proof. induction n as [|n IH]; [reflexivity|exact IH]. Qed.

Lemma total_income_returns :
  forall d,
    (forall a, get_col "ApplicantIncome" d = Some a ->
               forallb finite_number a = true) ->
    (forall c, get_col "CoapplicantIncome" d = Some c ->
               forallb finite_number c = true) ->
    exists t, total_income d = Ok (set_col "TotalIncome" t d)
              /\ forallb finite_cell t = true.
Proof.
  intros d Ha Hc. unfold total_income.
  destruct (incomes_present d) eqn:IP.
  - unfold incomes_present in IP. rewrite !has_col_get_col in IP.
    unfold getitem.
    destruct (get_col "ApplicantIncome" d) as [a|]; [|discriminate].
    destruct (get_col "CoapplicantIncome" d) as [c|]; [|discriminate].
    pose proof (finite_number_cell a (Ha a eq_refl)) as Fa.
    pose proof (finite_number_cell c (Hc c eq_refl)) as Fc.
    destruct (zipM_returns cell_add finite_cell finite_cell a c
                cell_add_returns Fa Fc) as [t Ht].
    exists t. cbn [bind]. rewrite Ht. split; [reflexivity|].
    exact (zipM_forall cell_add finite_cell finite_cell finite_cell a c t
             cell_add_finite_cell Fa Fc Ht).
  - exists (broadcast d NA). split; [reflexivity|apply repeat_finite_cell].
Qed.

Lemma loan_median_returns :
  forall la,
    forallb finite_cell la = true ->
    exists m, loan_median la = Ok m /\ finite_cell m = true.
Proof.
  intros la Hla. unfold loan_median.
  destruct (all_null la); cbn [negb].
  - exists (Flt (Fin 1)). split; reflexivity.
  - destruct (median_returns la (finite_cell_no_text la Hla)) as [m Hm].
    exists m. split; [exact Hm|exact (median_finite_cell la m Hla Hm)].
Qed.

Lemma income_to_loan_returns :
  forall d t,
    get_col "TotalIncome" d = Some t -> forallb finite_cell t = true ->
    (forall la, get_col "LoanAmount" d = Some la ->
                forallb finite_cell la = true) ->
    exists d', income_to_loan d = Ok d'
               /\ forall la', get_col "LoanAmount" d' = Some la' ->
                              forallb finite_cell la' = true.
Proof.
  intros d t Gt Ft Hla. unfold income_to_loan.
  destruct (get_col "LoanAmount" d) as [la|] eqn:G.
  - destruct (loan_median_returns la (Hla la eq_refl)) as [m [Hm Fm]].
    rewrite Hm. cbn [bind]. unfold getitem.
    rewrite (get_col_set_col_other "TotalIncome" "LoanAmount") by reflexivity.
    rewrite Gt. cbn [bind].
    pose proof (replace_finite_cell (Int 0) m la Fm (Hla la eq_refl)) as Fla.
    destruct (zipM_returns cell_div finite_cell finite_cell t _
                cell_div_returns Ft Fla) as [r Hr].
    rewrite Hr. eexists. split; [reflexivity|].
    intros la' G'.
    rewrite (get_col_set_col_other "LoanAmount" "Income_to_Loan_Ratio")
      in G' by reflexivity.
    rewrite get_col_set_col_same in G'. injection G' as <-. exact Fla.
  - eexists. split; [reflexivity|]. intros la' G'.
    rewrite (get_col_set_col_other "LoanAmount" "Income_to_Loan_Ratio")
      in G' by reflexivity.
    rewrite G in G'. discriminate.
Qed.

Lemma applicant_to_coapp_returns :
  forall d,
    (forall a, get_col "ApplicantIncome" d = Some a ->
               forallb finite_number a = true) ->
    (forall c, get_col "CoapplicantIncome" d = Some c ->
               forallb finite_number c = true) ->
    exists d', applicant_to_coapp d = Ok d'.
Proof.
  intros d Ha Hc. unfold applicant_to_coapp.
  destruct (incomes_present d) eqn:IP; [|eexists; reflexivity].
  unfold incomes_present in IP. rewrite !has_col_get_col in IP.
  unfold getitem.
  destruct (get_col "ApplicantIncome" d) as [a|]; [|discriminate].
  destruct (get_col "CoapplicantIncome" d) as [c|]; [|discriminate].
  destruct (zipM_returns cell_div finite_cell finite_cell a c cell_div_returns
              (finite_number_cell a (Ha a eq_refl))
              (finite_number_cell c (Hc c eq_refl))) as [q Hq].
  cbn [bind]. rewrite Hq. eexists; reflexivity.
Qed.

Lemma engineer_returns :
  forall d,
    (forall a, get_col "ApplicantIncome" d = Some a ->
               forallb finite_number a = true) ->
    (forall c, get_col "CoapplicantIncome" d = Some c ->
               forallb finite_number c = true) ->
    (forall la, get_col "LoanAmount" d = Some la ->
                forallb finite_cell la = true) ->
    exists d', engineer d = Ok d'
               /\ forall la', get_col "LoanAmount" d' = Some la' ->
                              forallb finite_cell la' = true.
Proof.
  intros d Ha Hc Hla. unfold engineer.
  destruct (total_income_returns d Ha Hc) as [t [H1 Ft]]. rewrite H1.
  cbn [bind].
  destruct (income_to_loan_returns (set_col "TotalIncome" t d) t
              (get_col_set_col_same _ _ _) Ft) as [e2 [H2 Fla]].
  { intros la G.
    rewrite (get_col_set_col_other "LoanAmount" "TotalIncome") in G
      by reflexivity.
    exact (Hla la G). }
  rewrite H2. cbn [bind].
  assert (Keep : forall m,
             mem m ["TotalIncome"; "LoanAmount"; "Income_to_Loan_Ratio"] = false ->
             get_col m e2 = get_col m d).
  { intros m Hm. split_mem Hm.
    rewrite (income_to_loan_writes _ _ m H2) by (cbn; rewrite E0, E1; reflexivity).
    apply get_col_set_col_other. exact E. }
  destruct (applicant_to_coapp_returns e2) as [d' H3].
  - intros a G. rewrite (Keep "ApplicantIncome" eq_refl) in G. exact (Ha a G).
  - intros c G. rewrite (Keep "CoapplicantIncome" eq_refl) in G. exact (Hc c G).
  - exists d'. split; [exact H3|]. intros la' G.
    rewrite (applicant_to_coapp_writes _ _ "LoanAmount" H3 eq_refl) in G.
    exact (Fla la' G).
Qed.

(** ** Capping *)

Lemma forallb_weaken :
  forall (A : Type) (P Q : A -> bool) l,
    (forall x, P x = true -> Q x = true) ->
    forallb P l = true -> forallb Q l = true.
Proof.
  intros A P Q l HPQ H. rewrite forallb_forall in *. auto.
Qed.

Lemma finite_cell_is_no_text : forall c, finite_cell c = true -> no_text c = true.
Proof. intros [| |[]|]; intros H; try discriminate; reflexivity. Qed.

Lemma cell_gtb_returns :
  forall a b,
    no_text a = true -> no_text b = true -> exists k, cell_gtb a b = Ok k.
Proof.
  intros [| | |] [| | |]; intros Ha Hb; try discriminate; eexists; reflexivity.
Qed.

Lemma cap_above_returns :
  forall bound v s,
    no_text bound = true -> no_text v = true -> forallb no_text s = true ->
    exists s', cap_above bound v s = Ok s' /\ forallb no_text s' = true.
Proof.
  intros bound v s Hb Hv. unfold cap_above.
  induction s as [|c s IH]; intros Hs; [eexists; split; reflexivity|].
  cbn in Hs. apply andb_true_iff in Hs. destruct Hs as [Hc Hs].
  destruct (IH Hs) as [s' [Hs' Fs']].
  destruct (cell_gtb_returns c bound Hc Hb) as [k Hk].
  cbn [mapM]. rewrite Hk. cbn [bind]. rewrite Hs'. cbn [bind].
  eexists. split; [reflexivity|]. cbn [forallb]. rewrite Fs'.
  destruct k; [rewrite Hv|rewrite Hc]; reflexivity.
Qed.

Lemma cap_below_returns :
  forall bound v s,
    no_text bound = true -> no_text v = true -> forallb no_text s = true ->
    exists s', cap_below bound v s = Ok s' /\ forallb no_text s' = true.
Proof.
  intros bound v s Hb Hv. unfold cap_below.
  induction s as [|c s IH]; intros Hs; [eexists; split; reflexivity|].
  cbn in Hs. apply andb_true_iff in Hs. destruct Hs as [Hc Hs].
  destruct (IH Hs) as [s' [Hs' Fs']].
  destruct (cell_gtb_returns bound c Hb Hc) as [k Hk].
  cbn [mapM]. rewrite Hk. cbn [bind]. rewrite Hs'. cbn [bind].
  eexists. split; [reflexivity|]. cbn [forallb]. rewrite Fs'.
  destruct k; [rewrite Hv|rewrite Hc]; reflexivity.
Qed.

Lemma of_nan_no_text : forall o, no_text (of_nan o) = true.
Proof. intros [x|]; reflexivity. Qed.

Lemma quantile_returns :
  forall p s,
    existsb is_str s = false ->
    exists c, quantile p s = Ok c /\ no_text c = true.
Proof.
  intros p s H. destruct (numeric_values_returns s H) as [vs Hvs].
  unfold quantile. rewrite Hvs. cbn [bind].
  destruct (List.length (sort fleb vs)).
  - exists NA. split; reflexivity.
  - eexists. split; [reflexivity|apply of_nan_no_text].
Qed.

Lemma cap_applicant_income_returns :
  forall s,
    forallb finite_number s = true -> s <> [] ->
    exists s', cap_applicant_income s = Ok s'.
Proof.
  intros s Hs Hne. unfold cap_applicant_income.
  assert (Hnn : all_null s = false).
  { destruct s as [|c s]; [congruence|].
    exact (finite_number_not_null c s Hs). }
  destruct (quantile_finite (99 # 100) s (finite_number_cell s Hs) Hnn)
    as [q Hq].
  rewrite Hq. cbn [bind py_int int_of_float].
  destruct (cap_above_returns (Flt (Fin q)) (Int (Qtrunc q)) s eq_refl eq_refl)
    as [s' [Hs' _]].
  - apply (forallb_weaken _ finite_cell no_text s finite_cell_is_no_text).
    exact (finite_number_cell s Hs).
  - exists s'. exact Hs'.
Qed.

Lemma cap_loan_amount_returns :
  forall s,
    forallb finite_cell s = true -> exists s', cap_loan_amount s = Ok s'.
Proof.
  intros s Hs. unfold cap_loan_amount.
  pose proof (finite_cell_no_text s Hs) as Hnt.
  destruct (quantile_returns (1 # 4) s Hnt) as [Q1 [H1 _]].
  destruct (quantile_returns (3 # 4) s Hnt) as [Q3 [H3 _]].
  rewrite H1, H3. cbn [bind].
  destruct (cap_below_returns
              (scalar fsub Q1 (scalar fmul (Flt (Fin (3 # 2)))
                                      (scalar fsub Q3 Q1)))
              (scalar fsub Q1 (scalar fmul (Flt (Fin (3 # 2)))
                                      (scalar fsub Q3 Q1)))
              s (of_nan_no_text _) (of_nan_no_text _)
              (forallb_weaken _ finite_cell no_text s finite_cell_is_no_text Hs))
    as [s1 [Hs1 F1]].
  rewrite Hs1. cbn [bind].
  destruct (cap_above_returns
              (scalar fadd Q3 (scalar fmul (Flt (Fin (3 # 2)))
                                      (scalar fsub Q3 Q1)))
              (scalar fadd Q3 (scalar fmul (Flt (Fin (3 # 2)))
                                      (scalar fsub Q3 Q1)))
              s1 (of_nan_no_text _) (of_nan_no_text _) F1) as [s' [Hs' _]].
  exists s'. exact Hs'.
Qed.

Lemma cap_outliers_returns :
  forall d,
    (forall a, get_col "ApplicantIncome" d = Some a ->
               forallb finite_number a = true /\ a <> []) ->
    (forall la, get_col "LoanAmount" d = Some la ->
                forallb finite_cell la = true) ->
    exists d', cap_outliers d = Ok d'.
Proof.
  intros d Ha Hla.
  destruct (assignments_returns cap_table d NoDup_cap_table) as [d' H].
  - intros n f s Hin G. cbn in Hin.
    destruct Hin as [E|[E|[]]]; injection E as <- <-.
    + destruct (Ha s G) as [Fs Hne].
      exact (cap_applicant_income_returns s Fs Hne).
    + exact (cap_loan_amount_returns s (Hla s G)).
  - exists d'. rewrite cap_outliers_assignments. exact H.
Qed.

Lemma encode_binary_returns : forall d, exists d', encode_binary d = Ok d'.
Proof.
  intros d.
  destruct (assignments_returns encode_table d NoDup_encode_table) as [d' H].
  - intros n f s Hin G. cbn in Hin.
    destruct Hin as [E|[E|[E|[E|[]]]]]; injection E as <- <-;
      rewrite encode_indicator; eexists; reflexivity.
  - exists d'. rewrite encode_binary_assignments. exact H.
Qed.

Lemma applicant_income_after_impute :
  forall d d1 a1,
    raw_schema d = true ->
    match get_col "ApplicantIncome" d with
    | Some (_ :: _) | None => true
    | Some [] => false
    end = true ->
    impute d = Ok d1 ->
    get_col "ApplicantIncome" d1 = Some a1 ->
    forallb finite_number a1 = true /\ a1 <> [].
Proof.
  intros d d1 a1 Hraw Hne H1 G1. split.
  - apply (impute_finite d d1 "ApplicantIncome" a1 Hraw H1); [cbn; tauto|exact G1].
  - rewrite impute_assignments in H1.
    destruct (assignments_column impute_table "ApplicantIncome"
                (fill_const (Int 0)) d d1 a1 NoDup_impute_table
                (or_intror (or_introl eq_refl)) H1 G1) as [a [G Hf]].
    injection Hf as <-. rewrite G in Hne.
    destruct a; [discriminate|]. discriminate.
Qed.

Lemma clean_raw_df_returns :
  forall fr pn d,
    prints_no_category fr ->
    cleanable fr pn d = true ->
    exists out, clean_raw_df fr pn d = Ok out.
Proof.
  intros fr pn d Hfr Hc. unfold cleanable in Hc.
  apply andb_true_iff in Hc. destruct Hc as [Hc Hdep].
  apply andb_true_iff in Hc. destruct Hc as [Hc Hai].
  apply andb_true_iff in Hc. destruct Hc as [Hraw Hval].
  destruct (impute_returns d Hraw Hval) as [d1 H1].
  destruct (dependents_cleanup_returns fr pn d d1 Hdep H1) as [d2 H2].
  assert (K2 : forall m, mem m ["Dependents"] = false ->
                         get_col m d2 = get_col m d1)
    by (intros m Hm; exact (dependents_cleanup_writes fr pn _ _ m H2 Hm)).
  destruct (engineer_returns d2) as [d3 [H3 Fla3]].
  { intros a G. rewrite (K2 "ApplicantIncome" eq_refl) in G.
    exact (proj1 (applicant_income_after_impute d d1 a Hraw Hai H1 G)). }
  { intros c G. rewrite (K2 "CoapplicantIncome" eq_refl) in G.
    apply (impute_finite d d1 "CoapplicantIncome" c Hraw H1); [cbn; tauto|exact G]. }
  { intros la G. rewrite (K2 "LoanAmount" eq_refl) in G.
    exact (loan_amount_after_impute d d1 la Hraw H1 G). }
  destruct (cap_outliers_returns d3) as [d4 H4].
  { intros a G.
    rewrite (kept_until_cap fr pn d1 d2 d3 "ApplicantIncome" H2 H3 eq_refl) in G.
    exact (applicant_income_after_impute d d1 a Hraw Hai H1 G). }
  { exact Fla3. }
  destruct (encode_binary_returns d4) as [d5 H5].
  assert (H6 : exists d6, one_hot_property_area fr d5 = Ok d6).
  { assert (K : forall n, In n property_columns -> get_col n d5 = None).
    { intros n Hn.
      rewrite (kept_before_one_hot fr pn d d1 d2 d3 d4 d5 n H1 H2 H3 H4 H5)
        by (cbn in Hn; destruct Hn as [<-|[<-|[<-|[]]]]; reflexivity).
      apply (raw_schema_absent d n Hraw).
      cbn in Hn; destruct Hn as [<-|[<-|[<-|[]]]]; reflexivity. }
    destruct (get_col "Property_Area" d5) as [area|] eqn:G.
    - eexists. apply (one_hot_result fr d5 area G Hfr); apply K; cbn; tauto.
    - exists d5. unfold one_hot_property_area. rewrite G. reflexivity. }
  destruct H6 as [d6 H6].
  assert (H7 : exists out, map_target d6 = Ok out).
  { unfold map_target, on_col. destruct (get_col "Loan_Status" d6);
      eexists; reflexivity. }
  destruct H7 as [out H7]. exists out.
  unfold clean_raw_df. rewrite H1. cbn [bind]. rewrite H2. cbn [bind].
  rewrite H3. cbn [bind]. rewrite H4. cbn [bind]. rewrite H5. cbn [bind].
  rewrite H6. cbn [bind]. exact H7.
Qed.




(* ================================================================== *)
(** * Further properties of the endpoint *)

Lemma record_frame_loan_amount :
  forall a la,
    get_col "LoanAmount" (record_frame a) = Some la -> existsb is_str la = false.
Proof.
  intros a la H. cbn in H. injection H as <-.
  destruct (LoanAmount a) as [[x|]|]; reflexivity.
Qed.

Lemma record_frame_cleanable :
  forall fr pn a dep,
    finite_request a = true ->
    isnull (optional float_cell (Loan_Amount_Term a)) = false ->
    Dependents a = Some dep ->
    forallb finite_number (coerce_dependents fr pn [Str dep]) = true ->
    cleanable fr pn (record_frame a) = true.
Proof.
  intros fr pn a dep Hfin Ht Hd Hread.
  unfold finite_request in Hfin. cbn [forallb] in Hfin.
  apply andb_true_iff in Hfin. destruct Hfin as [F1 Hfin].
  apply andb_true_iff in Hfin. destruct Hfin as [F2 Hfin].
  apply andb_true_iff in Hfin. destruct Hfin as [F3 Hfin].
  apply andb_true_iff in Hfin. destruct Hfin as [F4 Hfin].
  apply andb_true_iff in Hfin. destruct Hfin as [F5 _].
  unfold cleanable, dependents_readable, has_value, raw_schema, record_frame.
  cbn [get_col columns lookup String.eqb Ascii.eqb Bool.eqb forallb mem existsb
       fst snd raw_fields numeric_fields mode_imputed negb orb andb all_null].
  rewrite Hd. cbn [optional dropna filter isnull negb forallb andb all_null].
  rewrite F1, F2, F3, F4, F5, Ht, Hread. reflexivity.
Qed.

(** X13.  A request is complete for the transformer through its two
    optional fields Loan_Amount_Term and Dependents: when either is null
    (NaN counts as null) the endpoint raises KeyError without consulting
    the model, whatever the other fields hold; and when both are given, the
    Dependents text reads as a finite number and no number of the request
    is infinite, the transformer returns, a null LoanAmount or
    Credit_History included. *)
Theorem X13_requests_the_endpoint_serves :
  forall fr pn model a,
    prints_no_category fr ->
    (isnull (optional float_cell (Loan_Amount_Term a)) = true
     \/ Dependents a = None ->
     predict_loan_status fr pn model a = Raise KeyError)
    /\ (forall dep,
           finite_request a = true ->
           isnull (optional float_cell (Loan_Amount_Term a)) = false ->
           Dependents a = Some dep ->
           forallb finite_number (coerce_dependents fr pn [Str dep]) = true ->
           exists X, model_input fr pn a = Ok X).
Proof.
  intros fr pn model a Hfr. split.
  - intros Hnull.
    assert (Hc : clean_raw_df fr pn (record_frame a) = Raise KeyError).
    { destruct Hnull as [Hn|Hn].
      - apply (clean_raw_df_key_error fr pn (record_frame a)
                 "Loan_Amount_Term" [optional float_cell (Loan_Amount_Term a)]).
        + exact (record_frame_loan_amount a).
        + cbn; tauto.
        + reflexivity.
        + cbn [all_null forallb]. rewrite Hn. reflexivity.
      - apply (clean_raw_df_key_error fr pn (record_frame a) "Dependents" [NA]).
        + exact (record_frame_loan_amount a).
        + cbn; tauto.
        + cbn. rewrite Hn. reflexivity.
        + reflexivity. }
    unfold predict_loan_status, model_input. rewrite Hc. reflexivity.
  - intros dep Hfin Ht Hd Hread.
    destruct (clean_raw_df_returns fr pn (record_frame a) Hfr
                (record_frame_cleanable fr pn a dep Hfin Ht Hd Hread))
      as [out Hout].
    unfold model_input. rewrite Hout. eexists; reflexivity.
Qed.

Lemma X13_requests_the_endpoint_serves_witness :
  predict_loan_status repr_decimal parse_decimal boundary_model
                      no_term_application = Raise KeyError
  /\ exists X, model_input repr_decimal parse_decimal sample_application = Ok X.
Proof.
  split.
  - exact (proj1 (X13_requests_the_endpoint_serves repr_decimal parse_decimal
                    boundary_model no_term_application
                    repr_decimal_no_category) (or_introl eq_refl)).
  - exact (proj2 (X13_requests_the_endpoint_serves repr_decimal parse_decimal
                    boundary_model sample_application
                    repr_decimal_no_category)
                 "3+"%string eq_refl eq_refl eq_refl eq_refl).
Defined.

(* ================================================================== *)
(** * Further properties of the capping *)

Lemma cap_above_inv :
  forall bound v s s',
    cap_above bound v s = Ok s' ->
    forall x, In x s' ->
              x = v \/ (In x s /\ cell_gtb x bound = Ok false).
Proof.
  intros bound v. unfold cap_above.
  induction s as [|c s IH]; intros s' H x Hx; cbn [mapM] in H.
  - injection H as <-. destruct Hx.
  - apply bind_ok in H. destruct H as [b [Hb H]].
    apply bind_ok in H. destruct H as [bs [Hbs H]]. injection H as <-.
    apply bind_ok in Hb. destruct Hb as [k [Hk Hb]]. injection Hb as <-.
    destruct Hx as [<-|Hx].
    + destruct k; [left; reflexivity|right; split; [left; reflexivity|exact Hk]].
    + destruct (IH bs Hbs x Hx) as [->|[Hin Hg]]; [left; reflexivity|].
      right. split; [right; exact Hin|exact Hg].
Qed.

Lemma cap_below_inv :
  forall bound v s s',
    cap_below bound v s = Ok s' ->
    forall x, In x s' ->
              x = v \/ (In x s /\ cell_gtb bound x = Ok false).
Proof.
  intros bound v. unfold cap_below.
  induction s as [|c s IH]; intros s' H x Hx; cbn [mapM] in H.
  - injection H as <-. destruct Hx.
  - apply bind_ok in H. destruct H as [b [Hb H]].
    apply bind_ok in H. destruct H as [bs [Hbs H]]. injection H as <-.
    apply bind_ok in Hb. destruct Hb as [k [Hk Hb]]. injection Hb as <-.
    destruct Hx as [<-|Hx].
    + destruct k; [left; reflexivity|right; split; [left; reflexivity|exact Hk]].
    + destruct (IH bs Hbs x Hx) as [->|[Hin Hg]]; [left; reflexivity|].
      right. split; [right; exact Hin|exact Hg].
Qed.


Lemma fleb_refl : forall x, fleb x x = true.
Proof. intros [q| |]; cbn; [apply Qle_bool_iff, Qle_refl|reflexivity..]. Qed.

Lemma cell_gtb_irrefl :
  forall c, no_text c = true -> cell_gtb c c = Ok false.
Proof.
  intros [|z|x|s] H; try discriminate; cbn; try reflexivity;
    unfold fltb; rewrite fleb_refl; reflexivity.
Qed.





Lemma cap_loan_amount_inv :
  forall s capped,
    cap_loan_amount s = Ok capped ->
    exists Q1 Q3,
      quantile (1 # 4) s = Ok Q1 /\ quantile (3 # 4) s = Ok Q3
      /\ forall y, In y capped ->
                   cell_gtb y (upper_fence Q1 Q3) = Ok false
                   /\ (y = upper_fence Q1 Q3
                       \/ cell_gtb (lower_fence Q1 Q3) y = Ok false).
Proof.
  intros s capped H. unfold cap_loan_amount in H.
  apply bind_ok in H. destruct H as [Q1 [H1 H]].
  apply bind_ok in H. destruct H as [Q3 [H3 H]].
  apply bind_ok in H. destruct H as [s1 [Hlow Hup]].
  fold (lower_fence Q1 Q3) in Hlow. fold (upper_fence Q1 Q3) in Hup.
  exists Q1, Q3. repeat split; try assumption.
  - destruct (cap_above_inv _ _ _ _ Hup y H) as [->|[_ Hg]]; [|exact Hg].
    apply cell_gtb_irrefl. apply of_nan_no_text.
  - destruct (cap_above_inv _ _ _ _ Hup y H) as [->|[Hin _]];
      [left; reflexivity|right].
    destruct (cap_below_inv _ _ _ _ Hlow y Hin) as [->|[_ Hg]]; [|exact Hg].
    apply cell_gtb_irrefl. apply of_nan_no_text.
Qed.

Lemma replace_no_zero :
  forall m s y,
    cell_eqb m (Int 0) = false -> In y (replace (Int 0) m s) ->
    cell_eqb y (Int 0) = false.
Proof.
  intros m s y Hm Hy. unfold replace in Hy. apply in_map_iff in Hy.
  destruct Hy as [c [<- _]]. destruct (cell_eqb c (Int 0)) eqn:E; assumption.
Qed.

Lemma loan_amount_steps :
  forall fr pn d la out,
    get_col "LoanAmount" d = Some la ->
    clean_raw_df fr pn d = Ok out ->
    exists m1 m2 Q1 Q3 capped t r,
      median la = Ok m1
      /\ loan_median (fillna m1 la) = Ok m2
      /\ quantile (1 # 4) (replace (Int 0) m2 (fillna m1 la)) = Ok Q1
      /\ quantile (3 # 4) (replace (Int 0) m2 (fillna m1 la)) = Ok Q3
      /\ get_col "LoanAmount" out = Some capped
      /\ get_col "TotalIncome" out = Some t
      /\ zipM cell_div t (replace (Int 0) m2 (fillna m1 la)) = Ok r
      /\ get_col "Income_to_Loan_Ratio" out = Some r
      /\ (forall y, In y capped ->
                    cell_gtb y (upper_fence Q1 Q3) = Ok false
                    /\ (y = upper_fence Q1 Q3
                        \/ cell_gtb (lower_fence Q1 Q3) y = Ok false))
      /\ (cell_eqb m2 (Int 0) = false ->
          forall y, In y (replace (Int 0) m2 (fillna m1 la)) ->
                    cell_eqb y (Int 0) = false).
Proof.
  intros fr pn d la out G H. apply clean_raw_df_inv in H.
  destruct H as [d1 [d2 [d3 [d4 [d5 [d6 [H1 [H2 [H3 [H4 [H5 [H6 H7]]]]]]]]]]]].
  rewrite impute_assignments in H1.
  destruct (assignments_forward impute_table "LoanAmount" _ d d1 la
              NoDup_impute_table (or_introl eq_refl) H1 G) as [la1 [Hf G1]].
  unfold fill_median in Hf. apply bind_ok in Hf. destruct Hf as [m1 [Hm1 Hf]].
  injection Hf as <-.
  rewrite <- (dependents_cleanup_writes fr pn _ _ "LoanAmount" H2 eq_refl) in G1.
  pose proof (engineer_inv _ _ H3) as I3. destruct I3 as [e1 [e2 [T1 [T2 T3]]]].
  rewrite <- (total_income_writes _ _ "LoanAmount" T1 eq_refl) in G1.
  pose proof (income_to_loan_inv _ _ T2) as I2. rewrite G1 in I2.
  destruct I2 as [m2 [t [r [Hm2 [Gt [Hr E2]]]]]].
  set (s := replace (Int 0) m2 (fillna m1 la)) in *.
  assert (G3 : get_col "LoanAmount" d3 = Some s
               /\ get_col "TotalIncome" d3 = Some t
               /\ get_col "Income_to_Loan_Ratio" d3 = Some r).
  { rewrite (applicant_to_coapp_writes _ _ "LoanAmount" T3 eq_refl).
    rewrite (applicant_to_coapp_writes _ _ "TotalIncome" T3 eq_refl).
    rewrite (applicant_to_coapp_writes _ _ "Income_to_Loan_Ratio" T3 eq_refl).
    subst e2. repeat split.
    - rewrite get_col_set_col_other by reflexivity. apply get_col_set_col_same.
    - rewrite get_col_set_col_other by reflexivity. exact Gt.
    - apply get_col_set_col_same. }
  destruct G3 as [GL3 [GT3 GR3]].
  rewrite cap_outliers_assignments in H4.
  destruct (assignments_forward cap_table "LoanAmount" _ d3 d4 s
              NoDup_cap_table (or_intror (or_introl eq_refl)) H4 GL3)
    as [capped [Hcap G4]].
  rewrite <- cap_outliers_assignments in H4.
  destruct (cap_loan_amount_inv s capped Hcap) as [Q1 [Q3 [HQ1 [HQ3 Hb]]]].
  exists m1, m2, Q1, Q3, capped, t, r. repeat split; try assumption.
  - rewrite (kept_after_cap fr d4 d5 d6 out "LoanAmount" H5 H6 H7 eq_refl).
    exact G4.
  - rewrite (kept_after_engineer fr d3 d4 d5 d6 out "TotalIncome" H4 H5 H6 H7
               eq_refl). exact GT3.
  - rewrite (kept_after_engineer fr d3 d4 d5 d6 out "Income_to_Loan_Ratio"
               H4 H5 H6 H7 eq_refl). exact GR3.
  - exact (proj1 (Hb y H)).
  - exact (proj2 (Hb y H)).
  - intros Hm y Hy. exact (replace_no_zero m2 _ y Hm Hy).
Qed.





Lemma cell_div_finite :
  forall x y z,
    finite_number x = true ->
    finite_number y && negb (cell_eqb y (Int 0)) = true ->
    cell_div x y = Ok z -> finite_number z = true.
Proof.
  intros x y r Hx Hy H. apply andb_true_iff in Hy. destruct Hy as [Hy Hz].
  assert (Hdiv : forall a b,
             feqb (Fin b) (Fin 0) = false ->
             finite_number (of_nan (fdiv (Fin a) (Fin b))) = true).
  { intros a b Hb. cbn [fdiv]. destruct (Qzero b) eqn:Z.
    - rewrite (Qzero_eqb b Z) in Hb. discriminate.
    - reflexivity. }
  destruct x as [|a|[p| |]|s], y as [|b|[q| |]|t]; try discriminate;
    cbn in H; injection H as <-; apply negb_true_iff in Hz; cbn in Hz;
    apply Hdiv; exact Hz.
Qed.

(** X16.  On a batch whose incomes are whole amounts and whose LoanAmount
    column is a float column of whole amounts with a value,
    Income_to_Loan_Ratio holds finite numbers only, provided the median
    that replaces the zeros of LoanAmount is itself not zero: under this
    condition the division meets no zero denominator. *)
Theorem X16_ratio_finite :
  forall fr pn d a c la out m1 m2,
    get_col "ApplicantIncome" d = Some a ->
    get_col "CoapplicantIncome" d = Some c ->
    get_col "LoanAmount" d = Some la ->
    forallb whole_amount a = true ->
    forallb whole_amount c = true ->
    forallb whole_amount la = true ->
    existsb is_int la = false ->
    all_null la = false ->
    clean_raw_df fr pn d = Ok out ->
    median la = Ok m1 ->
    loan_median (fillna m1 la) = Ok m2 ->
    cell_eqb m2 (Int 0) = false ->
    exists r,
      get_col "Income_to_Loan_Ratio" out = Some r
      /\ forallb finite_number r = true.
Proof.
  intros fr pn d a c la out m1 m2 Ga Gc G Wa Wc Wla _ Hnn Hclean Hm1 Hm2 Hzero.
  destruct (loan_amount_steps fr pn d la out G Hclean)
    as [m1' [m2' [Q1 [Q3 [capped [t [r [Hm1' [Hm2' [_ [_ [_ [Gt [Hr [Gr [_ Hnz]]]]]]]]]]]]]]]].
  rewrite Hm1 in Hm1'. injection Hm1' as <-.
  rewrite Hm2 in Hm2'. injection Hm2' as <-.
  exists r. split; [exact Gr|].
  destruct (features_from_incomes fr pn d a c out Ga Gc Hclean)
    as [t' [q [Ht [Gt' _]]]].
  rewrite Gt in Gt'. injection Gt' as <-.
  assert (Ft : forallb finite_number t = true).
  { apply (zipM_forall cell_add finite_number finite_number finite_number
             (fillna (Int 0) a) (fillna (Int 0) c) t cell_add_finite);
      [| |exact Ht].
    - apply fillna_finite; [reflexivity|]. exact (whole_finite a Wa).
    - apply fillna_finite; [reflexivity|]. exact (whole_finite c Wc). }
  pose proof (whole_finite la Wla) as Fla.
  assert (Hfill : fill_median la = Ok (fillna m1 la))
    by (unfold fill_median; rewrite Hm1; reflexivity).
  destruct (fill_median_finite la _ Fla Hnn Hfill) as [F1 N1].
  assert (Fm2 : finite_number m2 = true).
  { unfold loan_median in Hm2. rewrite N1 in Hm2. cbn [negb] in Hm2.
    destruct (median_finite _ (finite_number_cell _ F1) N1) as [q2 Hq2].
    rewrite Hq2 in Hm2. injection Hm2 as <-. reflexivity. }
  pose proof (replace_finite (Int 0) m2 _ Fm2 F1) as Fs.
  assert (Fs' : forallb (fun y => finite_number y && negb (cell_eqb y (Int 0)))
                        (replace (Int 0) m2 (fillna m1 la)) = true).
  { rewrite forallb_forall in *. intros y Hy.
    rewrite (Fs y Hy), (Hnz Hzero y Hy). reflexivity. }
  exact (zipM_forall cell_div finite_number
           (fun y => finite_number y && negb (cell_eqb y (Int 0)))
           finite_number t (replace (Int 0) m2 (fillna m1 la)) r
           cell_div_finite Ft Fs' Hr).
Qed.

Lemma X16_ratio_finite_witness :
  exists r,
    get_col "Income_to_Loan_Ratio" standard_clean = Some r
    /\ forallb finite_number r = true.
Proof.
  exact (X16_ratio_finite repr_decimal parse_decimal standard_csv
           [Int 5849; Int 4583] [Flt (Fin 0); Flt (Fin 1508)]
           [Flt (Fin 120); Flt (Fin 128)] standard_clean
           (Flt (Fin 124)) (Flt (Fin 124))
           eq_refl eq_refl eq_refl eq_refl eq_refl eq_refl eq_refl eq_refl
           standard_csv_clean eq_refl eq_refl eq_refl).
Defined.

(* ================================================================== *)
(** * Text in the output *)

Lemma no_text_not_object :
  forall s, forallb no_text s = true -> is_object s = false.
Proof.
  unfold is_object. induction s as [|c s IH]; intros H; [reflexivity|].
  cbn in H. apply andb_true_iff in H. destruct H as [Hc Hs].
  cbn [existsb]. rewrite (IH Hs). unfold no_text in Hc.
  destruct (is_str c); [discriminate|reflexivity].
Qed.

Lemma ints_no_text :
  forall s, forallb is_int s = true -> forallb no_text s = true.
Proof.
  intros s. apply forallb_weaken. intros [| | |]; intros H;
    try discriminate; reflexivity.
Qed.

Lemma finite_number_no_text :
  forall s, forallb finite_number s = true -> forallb no_text s = true.
Proof.
  intros s. apply forallb_weaken. intros [| |[]|]; intros H;
    try discriminate; reflexivity.
Qed.

Lemma cell_gtb_no_text :
  forall a b k, no_text b = true -> cell_gtb a b = Ok k -> no_text a = true.
Proof.
  intros [| | |] [| | |] k Hb H; try discriminate; reflexivity.
Qed.

Lemma quantile_no_text :
  forall p s c, quantile p s = Ok c -> no_text c = true.
Proof.
  intros p s c H. unfold quantile in H. apply bind_ok in H.
  destruct H as [vs [_ H]].
  destruct (List.length (sort fleb vs)); injection H as <-;
    [reflexivity|apply of_nan_no_text].
Qed.

Lemma cap_applicant_income_no_text :
  forall s s', cap_applicant_income s = Ok s' -> forallb no_text s' = true.
Proof.
  intros s s' H. unfold cap_applicant_income in H.
  apply bind_ok in H. destruct H as [cap [Hq H]].
  apply bind_ok in H. destruct H as [k [_ H]].
  apply forallb_forall. intros y Hy.
  destruct (cap_above_inv _ _ _ _ H y Hy) as [->|[_ Hg]]; [reflexivity|].
  exact (cell_gtb_no_text y cap false (quantile_no_text _ _ _ Hq) Hg).
Qed.

Lemma cap_loan_amount_no_text :
  forall s s', cap_loan_amount s = Ok s' -> forallb no_text s' = true.
Proof.
  intros s s' H. destruct (cap_loan_amount_inv s s' H) as [Q1 [Q3 [_ [_ Hb]]]].
  apply forallb_forall. intros y Hy.
  exact (cell_gtb_no_text y _ false (of_nan_no_text _) (proj1 (Hb y Hy))).
Qed.

Lemma cell_add_no_text :
  forall x y z,
    no_text x = true -> no_text y = true -> cell_add x y = Ok z ->
    no_text z = true.
Proof.
  intros x y r Hx Hy H.
  destruct x as [|a|p|s], y as [|b|q|t]; try discriminate;
    cbn in H; injection H as <-;
    first [reflexivity | apply of_nan_no_text | destruct p, q; reflexivity].
Qed.

Lemma cell_div_no_text :
  forall x y z,
    no_text x = true -> no_text y = true -> cell_div x y = Ok z ->
    no_text z = true.
Proof.
  intros x y r Hx Hy H.
  destruct x as [|a|p|s], y as [|b|q|t]; try discriminate;
    cbn in H; injection H as <-;
    first [reflexivity | apply of_nan_no_text | destruct p, q; reflexivity].
Qed.

Lemma as_float_no_text : forall c, no_text c = true -> no_text (as_float c) = true.
Proof. intros [| | |]; intros H; try discriminate; reflexivity. Qed.

Lemma np_where_no_text :
  forall cond a b,
    forallb no_text a = true -> forallb no_text b = true ->
    forallb no_text (np_where cond a b) = true.
Proof.
  induction cond as [|k cond IH]; intros a b Ha Hb; [reflexivity|].
  destruct a as [|x a]; [reflexivity|]. destruct b as [|y b]; [reflexivity|].
  cbn in Ha, Hb. apply andb_true_iff in Ha, Hb.
  destruct Ha as [Hx Ha], Hb as [Hy Hb].
  cbn [np_where forallb]. rewrite (IH a b Ha Hb), andb_true_r.
  apply as_float_no_text. destruct k; assumption.
Qed.

Lemma map_dict_no_text :
  forall table s, forallb no_text (map_dict table s) = true.
Proof.
  intros table s. unfold map_dict. induction s as [|c s IH]; [reflexivity|].
  cbn [map forallb]. rewrite IH, andb_true_r.
  destruct c as [| | |k]; try reflexivity. destruct (lookup k table); reflexivity.
Qed.

Lemma repeat_no_text :
  forall n, forallb no_text (repeat NA n) = true.
Proof. induction n as [|n IH]; [reflexivity|exact IH]. Qed.

Lemma mem_true_in : forall m l, mem m l = true -> In m l.
Proof.
  intros m l H. unfold mem in H. apply existsb_exists in H.
  destruct H as [x [Hx E]]. apply String.eqb_eq in E. subst. exact Hx.
Qed.

Section Phases.

Variable fr : float -> string.
Variable pn : string -> option float.
Variables d d1 d2 d3 d4 d5 d6 out : DataFrame.

Hypothesis Hraw : raw_schema d = true.
Hypothesis H1 : impute d = Ok d1.
Hypothesis H2 : dependents_cleanup fr pn d1 = Ok d2.
Hypothesis H3 : engineer d2 = Ok d3.
Hypothesis H4 : cap_outliers d3 = Ok d4.
Hypothesis H5 : encode_binary d4 = Ok d5.
Hypothesis H6 : one_hot_property_area fr d5 = Ok d6.
Hypothesis H7 : map_target d6 = Ok out.

Lemma encoded_no_text :
  forall n f s,
    In (n, f) encode_table -> get_col n out = Some s ->
    forallb no_text s = true.
Proof.
  intros n f s Hin G.
  assert (Hn : mem n ["Property_Area"; "Property_Rural"; "Property_Semiurban";
                      "Property_Urban"; "Loan_Status"] = false).
  { cbn in Hin. destruct Hin as [E|[E|[E|[E|[]]]]]; injection E as <- _;
      reflexivity. }
  rewrite (kept_after_encode fr d5 d6 out n H6 H7 Hn) in G.
  pose proof H5 as H5'. rewrite encode_binary_assignments in H5'.
  destruct (assignments_column encode_table n f d4 d5 s NoDup_encode_table
              Hin H5' G) as [s4 [_ Hf]].
  apply ints_no_text. cbn in Hin.
  destruct Hin as [E|[E|[E|[E|[]]]]]; injection E as _ <-;
    exact (encode_ints _ _ _ Hf).
Qed.

Lemma dependents_no_text :
  forall s, get_col "Dependents" out = Some s -> forallb no_text s = true.
Proof.
  intros s G.
  rewrite (kept_after_engineer fr d3 d4 d5 d6 out "Dependents" H4 H5 H6 H7
             eq_refl) in G.
  rewrite (engineer_writes _ _ "Dependents" H3 eq_refl) in G.
  destruct (on_col_result _ _ _ _ s H2 G) as [s1 [_ Hf]].
  destruct (clean_dependents_inv fr pn s1 s Hf) as [filled [Hcast _]].
  exact (ints_no_text s (astype_int_ints _ _ Hcast)).
Qed.

Lemma capped_no_text :
  forall n s,
    In n ["ApplicantIncome"; "LoanAmount"] -> get_col n out = Some s ->
    forallb no_text s = true.
Proof.
  intros n s Hn G.
  assert (Hm : mem n ["Gender"; "Married"; "Education"; "Self_Employed";
                      "Property_Area"; "Property_Rural"; "Property_Semiurban";
                      "Property_Urban"; "Loan_Status"] = false)
    by (cbn in Hn; destruct Hn as [<-|[<-|[]]]; reflexivity).
  rewrite (kept_after_cap fr d4 d5 d6 out n H5 H6 H7 Hm) in G.
  pose proof H4 as H4'. rewrite cap_outliers_assignments in H4'.
  cbn in Hn. destruct Hn as [<-|[<-|[]]].
  - destruct (assignments_column cap_table _ cap_applicant_income d3 d4 s
                NoDup_cap_table (or_introl eq_refl) H4' G) as [s3 [_ Hf]].
    exact (cap_applicant_income_no_text s3 s Hf).
  - destruct (assignments_column cap_table _ cap_loan_amount d3 d4 s
                NoDup_cap_table (or_intror (or_introl eq_refl)) H4' G)
      as [s3 [_ Hf]].
    exact (cap_loan_amount_no_text s3 s Hf).
Qed.

Lemma imputed_no_text :
  forall n s,
    In n ["CoapplicantIncome"; "Loan_Amount_Term"; "Credit_History"] ->
    get_col n out = Some s -> forallb no_text s = true.
Proof.
  intros n s Hn G.
  assert (Hm : mem n ["ApplicantIncome"; "LoanAmount"; "Gender"; "Married";
                      "Education"; "Self_Employed"; "Property_Area";
                      "Property_Rural"; "Property_Semiurban"; "Property_Urban";
                      "Loan_Status"] = false)
    by (cbn in Hn; destruct Hn as [<-|[<-|[<-|[]]]]; reflexivity).
  assert (Hm' : mem n ["Dependents"; "TotalIncome"; "LoanAmount";
                       "Income_to_Loan_Ratio"; "Applicant_to_Coapp_Ratio"]
                = false)
    by (cbn in Hn; destruct Hn as [<-|[<-|[<-|[]]]]; reflexivity).
  rewrite (kept_after_engineer fr d3 d4 d5 d6 out n H4 H5 H6 H7 Hm) in G.
  rewrite (kept_until_cap fr pn d1 d2 d3 n H2 H3 Hm') in G.
  apply finite_number_no_text.
  apply (impute_finite d d1 n s Hraw H1); [|exact G].
  cbn in Hn |- *. tauto.
Qed.

Lemma incomes_after_dependents :
  forall n s,
    In n ["ApplicantIncome"; "CoapplicantIncome"] ->
    get_col n d2 = Some s -> forallb no_text s = true.
Proof.
  intros n s Hn G.
  rewrite (dependents_cleanup_writes fr pn _ _ n H2) in G
    by (cbn in Hn; destruct Hn as [<-|[<-|[]]]; reflexivity).
  apply finite_number_no_text.
  apply (impute_finite d d1 n s Hraw H1); [|exact G].
  cbn in Hn |- *. tauto.
Qed.

Lemma zipM_no_text :
  forall f a c t,
    (forall x y z, no_text x = true -> no_text y = true -> f x y = Ok z ->
                   no_text z = true) ->
    forallb no_text a = true -> forallb no_text c = true ->
    zipM f a c = Ok t -> forallb no_text t = true.
Proof.
  intros f a c t Hf Ha Hc Ht.
  exact (zipM_forall f no_text no_text no_text a c t Hf Ha Hc Ht).
Qed.

Lemma engineered_no_text :
  forall n s,
    In n derived_columns -> get_col n out = Some s -> forallb no_text s = true.
Proof.
  intros n s Hn G.
  assert (Hm : mem n ["ApplicantIncome"; "LoanAmount"; "Gender"; "Married";
                      "Education"; "Self_Employed"; "Property_Area";
                      "Property_Rural"; "Property_Semiurban"; "Property_Urban";
                      "Loan_Status"] = false)
    by (cbn in Hn; destruct Hn as [<-|[<-|[<-|[]]]]; reflexivity).
  rewrite (kept_after_engineer fr d3 d4 d5 d6 out n H4 H5 H6 H7 Hm) in G.
  clear Hm.
  destruct (engineer_inv _ _ H3) as [e1 [e2 [T1 [T2 T3]]]].
  pose proof (total_income_inv _ _ T1) as I1. destruct I1 as [t [E1 I1]].
  assert (Ft : forallb no_text t = true).
  { destruct (incomes_present d2).
    - destruct I1 as [a [c [Ga [Gc Hz]]]].
      apply (zipM_no_text cell_add a c t cell_add_no_text); [| |exact Hz].
      + apply (incomes_after_dependents "ApplicantIncome" a); [cbn; tauto|exact Ga].
      + apply (incomes_after_dependents "CoapplicantIncome" c);
          [cbn; tauto|exact Gc].
    - subst t. apply repeat_no_text. }
  assert (Keep2 : forall m,
             mem m ["TotalIncome"; "LoanAmount"; "Income_to_Loan_Ratio"] = false ->
             get_col m e2 = get_col m d2).
  { intros m Hm. split_mem Hm.
    rewrite (income_to_loan_writes _ _ m T2) by (cbn; rewrite E0, E2; reflexivity).
    rewrite (total_income_writes _ _ m T1) by (cbn; rewrite E; reflexivity).
    reflexivity. }
  pose proof (income_to_loan_inv _ _ T2) as I2.
  pose proof (applicant_to_coapp_inv _ _ T3) as I3.
  cbn in Hn. destruct Hn as [<-|[<-|[<-|[]]]].
  - rewrite (applicant_to_coapp_writes _ _ "TotalIncome" T3 eq_refl) in G.
    rewrite (income_to_loan_writes _ _ "TotalIncome" T2 eq_refl) in G.
    subst e1. rewrite get_col_set_col_same in G. injection G as <-. exact Ft.
  - rewrite (applicant_to_coapp_writes _ _ "Income_to_Loan_Ratio" T3 eq_refl)
      in G.
    destruct (get_col "LoanAmount" e1) as [la|].
    + destruct I2 as [m [t' [r [_ [_ [Hr ->]]]]]].
      rewrite get_col_set_col_same in G. injection G as <-.
      clear - Hr. revert r Hr.
      generalize (replace (Int 0) m la). revert t'.
      induction t' as [|x t' IH]; intros l r Hr.
      * cbn in Hr. injection Hr as <-. reflexivity.
      * destruct l as [|y l]; [cbn in Hr; injection Hr as <-; reflexivity|].
        cbn [zipM] in Hr. apply bind_ok in Hr. destruct Hr as [z [Hz Hr]].
        apply bind_ok in Hr. destruct Hr as [zs [Hzs Hr]]. injection Hr as <-.
        cbn [forallb]. rewrite (IH l zs Hzs), andb_true_r.
        destruct x as [| | |], y as [| | |]; try discriminate;
          cbn in Hz; injection Hz as <-;
          first [reflexivity | apply of_nan_no_text
                | destruct x, x0; reflexivity].
    + subst e2. rewrite get_col_set_col_same in G. injection G as <-.
      apply repeat_no_text.
  - destruct (incomes_present e2).
    + destruct I3 as [a [c [q [Ga [Gc [Hq ->]]]]]].
      rewrite get_col_set_col_same in G. injection G as <-.
      rewrite (Keep2 "ApplicantIncome" eq_refl) in Ga.
      rewrite (Keep2 "CoapplicantIncome" eq_refl) in Gc.
      pose proof (incomes_after_dependents "ApplicantIncome" a
                    (or_introl eq_refl) Ga) as Fa.
      pose proof (incomes_after_dependents "CoapplicantIncome" c
                    (or_intror (or_introl eq_refl)) Gc) as Fc.
      apply np_where_no_text; [exact Fa|].
      exact (zipM_no_text cell_div a c q cell_div_no_text Fa Fc Hq).
    + subst d3. rewrite (Keep2 "Applicant_to_Coapp_Ratio" eq_refl) in G.
      rewrite (dependents_cleanup_writes fr pn _ _ "Applicant_to_Coapp_Ratio"
                 H2 eq_refl) in G.
      rewrite (impute_writes_ok _ _ "Applicant_to_Coapp_Ratio" H1 eq_refl) in G.
      rewrite (raw_schema_absent d "Applicant_to_Coapp_Ratio" Hraw eq_refl) in G.
      discriminate.
Qed.

Lemma dummies_no_text :
  forall n s,
    In n property_columns -> get_col n out = Some s -> forallb no_text s = true.
Proof.
  intros n s Hn G.
  assert (Hls : mem n ["Loan_Status"] = false)
    by (cbn in Hn; destruct Hn as [<-|[<-|[<-|[]]]]; reflexivity).
  rewrite (map_target_writes _ _ n H7 Hls) in G.
  pose proof H6 as H6'. unfold one_hot_property_area in H6'.
  destruct (get_col "Property_Area" d5) as [area|].
  - exact (ints_no_text s (cast_dummies_ints _ _ n s H6' Hn G)).
  - injection H6' as <-.
    rewrite (kept_before_one_hot fr pn d d1 d2 d3 d4 d5 n H1 H2 H3 H4 H5) in G
      by (cbn in Hn; destruct Hn as [<-|[<-|[<-|[]]]]; reflexivity).
    rewrite (raw_schema_absent d n Hraw) in G; [discriminate|].
    cbn in Hn; destruct Hn as [<-|[<-|[<-|[]]]]; reflexivity.
Qed.

Lemma property_area_dropped : get_col "Property_Area" out = None.
Proof.
  rewrite (map_target_writes _ _ "Property_Area" H7 eq_refl).
  pose proof H6 as H6'. unfold one_hot_property_area in H6'.
  destruct (get_col "Property_Area" d5) as [area|] eqn:G5.
  - rewrite (cast_dummies_writes _ _ "Property_Area" H6' eq_refl).
    unfold attach_dummies, get_col, concat_cols, drop_cols, select_cols.
    cbn [columns]. rewrite lookup_app.
    rewrite (lookup_drop_dropped "Property_Area" ["Property_Area"]) by reflexivity.
    rewrite lookup_select. reflexivity.
  - injection H6' as <-. exact G5.
Qed.

Lemma label_no_text :
  forall s, get_col "Loan_Status" out = Some s -> forallb no_text s = true.
Proof.
  intros s G. destruct (on_col_result _ _ _ _ s H7 G) as [s6 [_ Hf]].
  injection Hf as <-. apply map_dict_no_text.
Qed.

Lemma output_no_text :
  forall n s,
    get_col n out = Some s -> n <> "Loan_ID"%string ->
    forallb no_text s = true.
Proof.
  intros n s G Hid.
  assert (Hclean : clean_raw_df fr pn d = Ok out).
  { unfold clean_raw_df. rewrite H1. cbn [bind]. rewrite H2. cbn [bind].
    rewrite H3. cbn [bind]. rewrite H4. cbn [bind]. rewrite H5. cbn [bind].
    rewrite H6. cbn [bind]. exact H7. }
  destruct (mem n transformer_columns) eqn:M.
  - apply mem_true_in in M. cbn in M.
    destruct M as [<-|[<-|[<-|[<-|[<-|[<-|[<-|[<-|[<-|[<-|[<-|[<-|[<-|[<-|[<-|[<-|[<-|[<-|[]]]]]]]]]]]]]]]]]]].
    + apply (capped_no_text "LoanAmount" s); [cbn; tauto|exact G].
    + apply (capped_no_text "ApplicantIncome" s); [cbn; tauto|exact G].
    + apply (imputed_no_text "CoapplicantIncome" s); [cbn; tauto|exact G].
    + apply (imputed_no_text "Loan_Amount_Term" s); [cbn; tauto|exact G].
    + apply (imputed_no_text "Credit_History" s); [cbn; tauto|exact G].
    + apply (encoded_no_text "Self_Employed" (encode [("Yes", 1); ("No", 0)]) s);
        [cbn; tauto|exact G].
    + apply (encoded_no_text "Gender" (encode [("Male", 1); ("Female", 0)]) s);
        [cbn; tauto|exact G].
    + apply (encoded_no_text "Married" (encode [("Yes", 1); ("No", 0)]) s);
        [cbn; tauto|exact G].
    + exact (dependents_no_text s G).
    + apply (encoded_no_text "Education"
               (encode [("Graduate", 1); ("Not Graduate", 0)]) s);
        [cbn; tauto|exact G].
    + apply (engineered_no_text "TotalIncome" s); [cbn; tauto|exact G].
    + apply (engineered_no_text "Income_to_Loan_Ratio" s); [cbn; tauto|exact G].
    + apply (engineered_no_text "Applicant_to_Coapp_Ratio" s);
        [cbn; tauto|exact G].
    + rewrite property_area_dropped in G. discriminate.
    + apply (dummies_no_text "Property_Rural" s); [cbn; tauto|exact G].
    + apply (dummies_no_text "Property_Semiurban" s); [cbn; tauto|exact G].
    + apply (dummies_no_text "Property_Urban" s); [cbn; tauto|exact G].
    + exact (label_no_text s G).
  - rewrite (clean_raw_df_writes fr pn d out n Hclean M) in G.
    destruct (raw_schema_column d n s Hraw G) as [Hf _].
    apply mem_true_in in Hf. cbn in Hf.
    destruct Hf as [<-|[<-|[<-|[<-|[<-|[<-|[<-|[<-|[<-|[<-|[<-|[<-|[<-|[]]]]]]]]]]]]]];
      try discriminate.
    congruence.
Qed.

End Phases.

Lemma clean_raw_df_no_text :
  forall fr pn d out n s,
    raw_schema d = true ->
    clean_raw_df fr pn d = Ok out ->
    get_col n out = Some s -> n <> "Loan_ID"%string ->
    forallb no_text s = true.
Proof.
  intros fr pn d out n s Hraw H G Hid. apply clean_raw_df_inv in H.
  destruct H as [d1 [d2 [d3 [d4 [d5 [d6 [H1 [H2 [H3 [H4 [H5 [H6 H7]]]]]]]]]]]].
  exact (output_no_text fr pn d d1 d2 d3 d4 d5 d6 out Hraw H1 H2 H3 H4 H5 H6 H7
           n s G Hid).
Qed.

(** X17.  On a batch that follows the raw schema, the identifier Loan_ID is
    the only column of the output that can hold text: every other column
    the transformer returns holds numbers and nulls only, and Property_Area
    is gone. *)
Theorem X17_only_the_identifier_is_text :
  forall fr pn d out,
    raw_schema d = true ->
    clean_raw_df fr pn d = Ok out ->
    get_col "Property_Area" out = None
    /\ forall n s, get_col n out = Some s -> n <> "Loan_ID"%string ->
                   is_object s = false.
Proof.
  intros fr pn d out Hraw H. split.
  - pose proof H as H'. apply clean_raw_df_inv in H'.
    destruct H' as [d1 [d2 [d3 [d4 [d5 [d6 [H1 [H2 [H3 [H4 [H5 [H6 H7]]]]]]]]]]]].
    exact (property_area_dropped fr d5 d6 out H6 H7).
  - intros n s G Hid. apply no_text_not_object.
    exact (clean_raw_df_no_text fr pn d out n s Hraw H G Hid).
Qed.

Lemma X17_only_the_identifier_is_text_witness :
  get_col "Property_Area" standard_clean = None
  /\ forall n s, get_col n standard_clean = Some s -> n <> "Loan_ID"%string ->
                 is_object s = false.
Proof.
  exact (X17_only_the_identifier_is_text repr_decimal parse_decimal
           standard_csv standard_clean eq_refl standard_csv_clean).
Defined.

(** ** The feature matrix of a training run *)

Lemma NoDup_snoc :
  forall (l : list string) x, NoDup l -> ~ In x l -> NoDup (l ++ [x]).
Proof.
  induction l as [|y l IH]; intros x Hl Hx.
  - constructor; [intros []|constructor].
  - inversion Hl as [|? ? Hy Hl']; subst. cbn. constructor.
    + intros Hin. apply in_app_or in Hin. destruct Hin as [Hin|[->|[]]].
      * exact (Hy Hin).
      * apply Hx. left. reflexivity.
    + apply IH; [exact Hl'|]. intros Hin. apply Hx. right. exact Hin.
Qed.

Lemma NoDup_disjoint_app :
  forall (a b : list string),
    NoDup a -> NoDup b -> (forall x, In x b -> ~ In x a) -> NoDup (a ++ b).
Proof.
  induction a as [|y a IH]; intros b Ha Hb Hd; [exact Hb|].
  inversion Ha as [|? ? Hy Ha']; subst. cbn. constructor.
  - intros Hin. apply in_app_or in Hin. destruct Hin as [Hin|Hin].
    + exact (Hy Hin).
    + apply (Hd y Hin). left. reflexivity.
  - apply IH; [exact Ha'|exact Hb|].
    intros x Hx Hin. apply (Hd x Hx). right. exact Hin.
Qed.

Lemma in_append_absent :
  forall n ns x, In x (append_absent n ns) -> x = n \/ In x ns.
Proof.
  intros n ns x H. unfold append_absent in H.
  destruct (mem n ns); [right; exact H|].
  apply in_app_or in H. destruct H as [H|[<-|[]]]; [right; exact H|left].
  reflexivity.
Qed.

Lemma NoDup_append_absent :
  forall n ns, NoDup ns -> NoDup (append_absent n ns).
Proof.
  intros n ns H. unfold append_absent. destruct (mem n ns) eqn:M; [exact H|].
  apply NoDup_snoc; [exact H|]. intros Hin.
  assert (Hm : mem n ns = true).
  { unfold mem. apply existsb_exists. exists n. split; [exact Hin|].
    apply String.eqb_refl. }
  congruence.
Qed.

Lemma NoDup_output_columns :
  forall ns,
    NoDup ns -> (forall x, In x property_columns -> ~ In x ns) ->
    NoDup (output_columns ns).
Proof.
  intros ns Hns Hfresh. unfold output_columns.
  set (n1 := append_absent "TotalIncome" ns).
  set (n2 := append_absent "Income_to_Loan_Ratio" n1).
  set (n3 := if mem "ApplicantIncome" n2 && mem "CoapplicantIncome" n2
             then append_absent "Applicant_to_Coapp_Ratio" n2 else n2).
  assert (N3 : NoDup n3).
  { subst n3. destruct (mem "ApplicantIncome" n2 && mem "CoapplicantIncome" n2);
      repeat apply NoDup_append_absent; exact Hns. }
  assert (I3 : forall x, In x n3 -> In x ns \/ In x derived_columns).
  { intros x Hx.
    assert (Hx2 : In x n2 -> In x ns \/ In x derived_columns).
    { intros H2. apply in_append_absent in H2. destruct H2 as [->|H2];
        [right; cbn; tauto|].
      apply in_append_absent in H2. destruct H2 as [->|H2];
        [right; cbn; tauto|left; exact H2]. }
    subst n3.
    destruct (mem "ApplicantIncome" n2 && mem "CoapplicantIncome" n2);
      [|exact (Hx2 Hx)].
    apply in_append_absent in Hx. destruct Hx as [->|Hx];
      [right; cbn; tauto|exact (Hx2 Hx)]. }
  destruct (mem "Property_Area" n3); [|exact N3].
  apply NoDup_disjoint_app.
  - apply NoDup_filter. exact N3.
  - repeat constructor; cbn; intuition discriminate.
  - intros x Hx Hin. apply filter_In in Hin. destruct Hin as [Hin _].
    destruct (I3 x Hin) as [H|H].
    + exact (Hfresh x Hx H).
    + cbn in Hx, H. intuition (subst; discriminate).
Qed.

Lemma NoDup_lookup :
  forall (cols : list (string * Series)) k v,
    NoDup (map fst cols) -> In (k, v) cols -> lookup k cols = Some v.
Proof.
  induction cols as [|[k0 v0] cols IH]; intros k v Hnd Hin; [destruct Hin|].
  inversion Hnd as [|? ? Hk Hnd']; subst. cbn [lookup].
  destruct Hin as [E|Hin].
  - injection E as -> ->. rewrite String.eqb_refl. reflexivity.
  - destruct (String.eqb k k0) eqn:E.
    + apply String.eqb_eq in E. subst k0. exfalso. apply Hk.
      exact (in_map fst _ _ Hin).
    + exact (IH k v Hnd' Hin).
Qed.

Lemma raw_schema_fresh :
  forall d,
    raw_schema d = true ->
    forallb (fun n => negb (has_col n d)) property_columns = true.
Proof.
  intros d Hraw. apply forallb_forall. intros n Hn.
  rewrite has_col_get_col, (raw_schema_absent d n Hraw); [reflexivity|].
  cbn in Hn. destruct Hn as [<-|[<-|[<-|[]]]]; reflexivity.
Qed.

Lemma no_leftover_text :
  forall fr pn d df,
    prints_no_category fr ->
    raw_schema d = true ->
    NoDup (names d) ->
    clean_raw_df fr pn d = Ok df ->
    object_columns (drop_cols ["Loan_ID"; "Loan_Status"] df) = [].
Proof.
  intros fr pn d df Hfr Hraw Hnd H.
  assert (Hnd' : NoDup (names df)).
  { rewrite (names_clean_raw_df fr pn d df Hfr (raw_schema_fresh d Hraw) H).
    apply NoDup_output_columns; [exact Hnd|].
    intros x Hx Hin.
    pose proof (raw_schema_fresh d Hraw) as Hf. rewrite forallb_forall in Hf.
    specialize (Hf x Hx). apply negb_true_iff in Hf.
    exact (not_has_col x d Hf Hin). }
  unfold object_columns, drop_cols. cbn [columns].
  assert (Hnil : filter (fun kv : string * Series => is_object (snd kv))
                   (filter (fun kv => negb (mem (fst kv) ["Loan_ID"; "Loan_Status"]))
                           (columns df)) = []).
  { destruct (filter (fun kv : string * Series => is_object (snd kv))
                (filter (fun kv => negb (mem (fst kv) ["Loan_ID"; "Loan_Status"]))
                        (columns df))) as [|[k v] rest] eqn:F; [reflexivity|].
    assert (Hin : In (k, v)
                    (filter (fun kv : string * Series => is_object (snd kv))
                       (filter (fun kv => negb (mem (fst kv)
                                                    ["Loan_ID"; "Loan_Status"]))
                               (columns df))))
      by (rewrite F; left; reflexivity).
    apply filter_In in Hin. destruct Hin as [Hin Hobj].
    apply filter_In in Hin. destruct Hin as [Hin Hk]. cbn [fst snd] in *.
    pose proof (NoDup_lookup (columns df) k v Hnd' Hin) as G.
    assert (Hid : k <> "Loan_ID"%string).
    { intros ->. discriminate. }
    pose proof (clean_raw_df_no_text fr pn d df k v Hraw H G Hid) as Hnt.
    rewrite (no_text_not_object v Hnt) in Hobj. discriminate. }
  rewrite Hnil. reflexivity.
Qed.

(** X18.  On a training file that follows the raw schema and whose labels
    are all Y or N, lines 47-71 return in closed form: the feature matrix
    is the cleaned frame without Loan_ID and Loan_Status, the target is 1
    on the rows labelled Y, and the feature list is the column list of that
    matrix.  No text column is left for line 63 to encode, and the
    RuntimeError of line 68 is never raised. *)
Theorem X18_feature_matrix :
  forall fr pn d df ls,
    prints_no_category fr ->
    raw_schema d = true ->
    NoDup (names d) ->
    clean_raw_df fr pn d = Ok df ->
    get_col "Loan_Status" d = Some ls ->
    forallb known_label ls = true ->
    object_columns (drop_cols ["Loan_ID"; "Loan_Status"] df) = []
    /\ prepare fr df
       = Ok (drop_cols ["Loan_ID"; "Loan_Status"] df,
             map (indicator (Str "Y")) ls,
             names (drop_cols ["Loan_ID"; "Loan_Status"] df)).
Proof.
  intros fr pn d df ls Hfr Hraw Hnd H G Hlab.
  pose proof (no_leftover_text fr pn d df Hfr Hraw Hnd H) as Hobj.
  split; [exact Hobj|].
  pose proof (label_after_clean fr pn d ls df G H) as GL.
  unfold prepare, getitem. rewrite has_col_get_col, GL. cbn [negb bind].
  rewrite target_of_mapped, labels_cast, Hlab. cbn [bind].
  rewrite Hobj, Hobj. reflexivity.
Qed.

Lemma NoDup_standard_csv : NoDup (names standard_csv).
Proof. repeat constructor; cbn; intuition discriminate. Qed.

Lemma X18_feature_matrix_witness :
  object_columns (drop_cols ["Loan_ID"; "Loan_Status"] standard_clean) = []
  /\ prepare repr_decimal standard_clean
     = Ok (drop_cols ["Loan_ID"; "Loan_Status"] standard_clean,
           map (indicator (Str "Y")) [Str "Y"; Str "N"],
           names (drop_cols ["Loan_ID"; "Loan_Status"] standard_clean)).
Proof.
  exact (X18_feature_matrix repr_decimal parse_decimal standard_csv
           standard_clean [Str "Y"; Str "N"] repr_decimal_no_category eq_refl
           NoDup_standard_csv standard_csv_clean eq_refl eq_refl).
Defined.
